(** * Blender automation scripts: a shallow embedding and its properties

    The repository holds three Python scripts that drive Blender through
    its scripting interface [bpy]:

    - [scripts/blender_export_existing_scene.py]  (module [ExportScene])
    - [scripts/blender_export_video.py]           (module [ExportVideo])
    - [scripts/blender_jalen_edusei_glass.py]     (module [GlassLogo])

    Every statement of the scripts is either pure Python (list slicing,
    string tests, [os.path.join], [os.path.dirname]) or an interaction with
    the host: an attribute read or write on a live [bpy] object, an operator
    call, a method call, an [os] call that looks at the machine.  Pure
    Python is translated to Rocq functions.  Host interactions go through
    an oracle: the host is a function from the history of the run and the
    call being made to an answer (a value or a raised exception), and every
    interaction is appended to a log.  Properties of the scripts are
    properties of the result and of the log, for every host. *)

From Stdlib Require Reals Lra.
From Stdlib Require Import List String Ascii ZArith Bool Lia.
Import ListNotations.
Local Open Scope string_scope.
Local Open Scope list_scope.

(** ** Python values *)

(** Values the scripts exchange with the host.  A float literal is kept as
    the decimal the source writes: [VDec m e] is [m * 10^-e], so
    [6.283185307] is [VDec 6283185307 9].  The scripts never compute with
    floats, except for one division by 1024 that is kept as [VRatio].
    [VRef] is an opaque handle to a live host object; [VGlobal] names a
    module-level host object such as [bpy.context]. *)
#[warnings="-register-all"] Inductive pyval : Type :=
| VNone
| VBool (b : bool)
| VInt (z : Z)
| VDec (m : Z) (e : nat)
| VRatio (n d : Z)
| VStr (s : string)
| VTuple (l : list pyval)
| VList (l : list pyval)
| VRef (h : nat)
| VGlobal (name : string).

Definition kwargs := list (string * pyval).

(** ** Exceptions *)

Inductive exc_class : Type :=
| BaseException
| KeyboardInterrupt
| SystemExit
| Exception
| RuntimeError
| OSError
| FileNotFoundError
| PermissionError
| AttributeError
| TypeError
| ValueError
| KeyError
| IndexError
| MemoryError.

(** The direct base class, as in the Python class hierarchy. *)
Definition base_of (c : exc_class) : option exc_class :=
  match c with
  | BaseException => None
  | KeyboardInterrupt | SystemExit | Exception => Some BaseException
  | FileNotFoundError | PermissionError => Some OSError
  | _ => Some Exception
  end.

Definition exc_class_eqb (c d : exc_class) : bool :=
  match c, d with
  | BaseException, BaseException | KeyboardInterrupt, KeyboardInterrupt
  | SystemExit, SystemExit | Exception, Exception
  | RuntimeError, RuntimeError | OSError, OSError
  | FileNotFoundError, FileNotFoundError
  | PermissionError, PermissionError | AttributeError, AttributeError
  | TypeError, TypeError | ValueError, ValueError | KeyError, KeyError
  | IndexError, IndexError | MemoryError, MemoryError => true
  | _, _ => false
  end.

(** [issubclass c d]; the hierarchy above has depth three. *)
Definition issubclass (c d : exc_class) : bool :=
  exc_class_eqb c d ||
  match base_of c with
  | None => false
  | Some b =>
      exc_class_eqb b d ||
      match base_of b with
      | None => false
      | Some b' =>
          exc_class_eqb b' d ||
          match base_of b' with
          | None => false
          | Some b'' => exc_class_eqb b'' d
          end
      end
  end.

Record exn : Type := mkExn { exn_class : exc_class; exn_msg : string }.

Definition isinstance (e : exn) (c : exc_class) : bool :=
  issubclass (exn_class e) c.

(** [str(e)] of an exception built from one message. *)
Definition str_exn (e : exn) : string := exn_msg e.

Inductive result (A : Type) : Type :=
| Ok (a : A)
| Raise (e : exn).
Arguments Ok {A} a.
Arguments Raise {A} e.

(** Process status by the Python convention: an exception that reaches the
    top level is a failure. *)
Definition exit_status {A} (r : result A) : Z :=
  match r with Ok _ => 0%Z | Raise _ => 1%Z end.

(** ** Host interactions and the log *)

Inductive call : Type :=
| GetAttr (o : pyval) (name : string)                (* o.name *)
| SetAttr (o : pyval) (name : string) (v : pyval)    (* o.name = v *)
| HasAttr (o : pyval) (name : string)                (* hasattr(o, name) *)
| GetItem (o : pyval) (key : pyval)                  (* o[key] *)
| Contains (o : pyval) (key : pyval)                 (* key in o *)
| Truth (o : pyval)                                  (* bool(o) *)
| Len (o : pyval)                                    (* len(o) *)
| Iter (o : pyval)                                   (* list(o) *)
| Method (o : pyval) (name : string) (args : list pyval) (kw : kwargs)
| Func (name : string) (args : list pyval) (kw : kwargs).

(** An f-string is kept as its pieces: literal text and substituted values
    with their format specification. *)
Inductive piece : Type :=
| Lit (s : string)
| Sub (v : pyval)
| SubFmt (v : pyval) (spec : string).

Definition fstring := list piece.

Inductive event : Type :=
| Called (c : call) (r : result pyval)
| Printed (line : fstring).

(** The host answers a call knowing everything that happened before. *)
Definition host_t := list event -> call -> result pyval.

(** ** The script monad: host reader, log state, exceptions *)

Definition M (A : Type) : Type := host_t -> list event -> result A * list event.

Definition ret {A} (a : A) : M A := fun _ log => (Ok a, log).

Definition raise_ {A} (e : exn) : M A := fun _ log => (Raise e, log).

Definition bind {A B} (m : M A) (k : A -> M B) : M B :=
  fun host log =>
    match m host log with
    | (Ok a, log') => k a host log'
    | (Raise e, log') => (Raise e, log')
    end.

Declare Scope py_scope.
Delimit Scope py_scope with py.
Notation "x <- m ;; k" := (bind m (fun x => k))
  (at level 100, m at next level, right associativity) : py_scope.
Notation "m ;; k" := (bind m (fun _ => k))
  (at level 100, right associativity) : py_scope.
Local Open Scope py_scope.

Definition ask (c : call) : M pyval :=
  fun host log => let r := host log c in (r, log ++ [Called c r]).

Definition print (line : fstring) : M unit :=
  fun _ log => (Ok tt, log ++ [Printed line]).

(** [try: body except cls as e: handler e]. *)
Definition try_except {A} (body : M A) (cls : exc_class) (handler : exn -> M A)
  : M A :=
  fun host log =>
    match body host log with
    | (Raise e, log') =>
        if isinstance e cls then handler e host log' else (Raise e, log')
    | ok => ok
    end.

Definition when (b : bool) (m : M unit) : M unit := if b then m else ret tt.

(** [for x in l: body x], over a list already taken from the host. *)
Fixpoint for_ {A} (l : list A) (body : A -> M unit) : M unit :=
  match l with
  | [] => ret tt
  | x :: l' => body x ;; for_ l' body
  end.

Definition type_error {A} (msg : string) : M A := raise_ (mkExn TypeError msg).

(** Coercions of a host answer to the Python type the script uses it at. *)
Definition as_bool (v : pyval) : M bool :=
  match v with VBool b => ret b | _ => type_error "bool expected" end.

Definition as_int (v : pyval) : M Z :=
  match v with VInt z => ret z | _ => type_error "int expected" end.

Definition as_str (v : pyval) : M string :=
  match v with VStr s => ret s | _ => type_error "str expected" end.

Definition as_list (v : pyval) : M (list pyval) :=
  match v with VList l => ret l | _ => type_error "iterable expected" end.

Definition getattr (o : pyval) (name : string) : M pyval := ask (GetAttr o name).

Definition setattr (o : pyval) (name : string) (v : pyval) : M unit :=
  ask (SetAttr o name v) ;; ret tt.

Definition hasattr (o : pyval) (name : string) : M bool :=
  r <- ask (HasAttr o name) ;; as_bool r.

Definition getitem (o key : pyval) : M pyval := ask (GetItem o key).

Definition contains_ (key o : pyval) : M bool :=
  r <- ask (Contains o key) ;; as_bool r.

Definition len (o : pyval) : M Z := r <- ask (Len o) ;; as_int r.

(** The loop takes the items of the host collection when it starts. *)
Definition iter (o : pyval) : M (list pyval) := r <- ask (Iter o) ;; as_list r.

Definition method (o : pyval) (name : string) (args : list pyval) (kw : kwargs)
  : M pyval := ask (Method o name args kw).

Definition func (name : string) (args : list pyval) (kw : kwargs) : M pyval :=
  ask (Func name args kw).

(** An operator call [bpy.ops.<name>] with keyword arguments; its return
    value is dropped. *)
Definition op (name : string) (kw : kwargs) : M unit :=
  func ("bpy.ops." ++ name) [] kw ;; ret tt.

(** Truth value of a condition: Python values decide themselves, a host
    object is asked. *)
Definition py_bool (v : pyval) : M bool :=
  match v with
  | VNone => ret false
  | VBool b => ret b
  | VInt z => ret (negb (Z.eqb z 0))
  | VDec m _ => ret (negb (Z.eqb m 0))
  | VRatio n _ => ret (negb (Z.eqb n 0))
  | VStr s => ret (negb (String.eqb s ""))
  | VTuple l | VList l => ret (match l with [] => false | _ => true end)
  | VRef _ | VGlobal _ => r <- ask (Truth v) ;; as_bool r
  end.

Definition py_sub (a b : pyval) : M pyval :=
  x <- as_int a ;; y <- as_int b ;; ret (VInt (x - y)).

Definition py_add (a b : pyval) : M pyval :=
  x <- as_int a ;; y <- as_int b ;; ret (VInt (x + y)).

(** [a / d] on an int and an int literal: true division, kept exact. *)
Definition py_truediv (a : pyval) (d : Z) : M pyval :=
  x <- as_int a ;; ret (VRatio x d).

(** [v == s] for a string literal [s]. *)
Definition eq_str (v : pyval) (s : string) : bool :=
  match v with VStr s' => String.eqb s' s | _ => false end.

Definition is_none (v : pyval) : bool :=
  match v with VNone => true | _ => false end.

(** [[x for x in l if p x]] where the test talks to the host. *)
Fixpoint filter_m {A} (p : A -> M bool) (l : list A) : M (list A) :=
  match l with
  | [] => ret []
  | x :: l' =>
      b <- p x ;;
      rest <- filter_m p l' ;;
      ret (if b then x :: rest else rest)
  end.

Definition bpy_context : pyval := VGlobal "bpy.context".
Definition bpy_data : pyval := VGlobal "bpy.data".
Definition bpy_app : pyval := VGlobal "bpy.app".

(** ** Pure Python on strings and lists *)

Definition nl : string := String "010"%char "".

Definition sep : ascii := "/"%char.

(** [s.endswith(suffix)]: [s] is [suffix], or a tail of [s] ends with it. *)
Fixpoint endswith (s suffix : string) : bool :=
  String.eqb s suffix ||
  match s with
  | EmptyString => false
  | String _ s' => endswith s' suffix
  end.

(** [sub in s] *)
Fixpoint str_contains (sub s : string) : bool :=
  prefix sub s ||
  match s with
  | EmptyString => false
  | String _ s' => str_contains sub s'
  end.

(** [x in l] on a list of strings *)
Definition in_list (x : string) (l : list string) : bool :=
  existsb (String.eqb x) l.

(** [l[l.index(x) + 1:]] when [x in l] *)
Fixpoint after_first (x : string) (l : list string) : list string :=
  match l with
  | [] => []
  | y :: l' => if String.eqb y x then l' else after_first x l'
  end.

(** [posixpath.join(a, *p)] *)
Definition join1 (path b : string) : string :=
  if prefix "/" b then b
  else if String.eqb path "" || endswith path "/" then path ++ b
  else path ++ "/" ++ b.

Definition os_path_join (a : string) (p : list string) : string :=
  fold_left join1 p a.

(** [posixpath.dirname(p)]: the head up to the last separator, with
    trailing separators removed unless the head is separators only. *)
Fixpoint drop_to_sep (r : list ascii) : list ascii :=
  match r with
  | [] => []
  | c :: r' => if Ascii.eqb c sep then r else drop_to_sep r'
  end.

Fixpoint lstrip_sep (r : list ascii) : list ascii :=
  match r with
  | [] => []
  | c :: r' => if Ascii.eqb c sep then lstrip_sep r' else r
  end.

Definition os_path_dirname (p : string) : string :=
  let head_rev := drop_to_sep (rev (list_ascii_of_string p)) in
  let stripped := lstrip_sep head_rev in
  string_of_list_ascii
    (rev (match stripped with [] => head_rev | _ => stripped end)).

(** The interpreter's inputs: [sys.argv] and the module global [__file__]. *)
Record pyenv : Type := mkEnv { sys_argv : list string; dunder_file : string }.

Definition os_getcwd : M string := r <- func "os.getcwd" [] [] ;; as_str r.

Definition os_path_abspath (p : string) : M string :=
  r <- func "os.path.abspath" [VStr p] [] ;; as_str r.

Definition os_path_isfile (p : string) : M bool :=
  r <- func "os.path.isfile" [VStr p] [] ;; as_bool r.

Definition os_makedirs_exist_ok (p : string) : M unit :=
  func "os.makedirs" [VStr p] [("exist_ok", VBool true)] ;; ret tt.

Definition os_path_getsize (p : string) : M pyval :=
  func "os.path.getsize" [VStr p] [].

(** [dir()] without argument lists the names bound in the local scope. *)
Definition dir_ (locals : list string) : list string := locals.

(** The script-directory lookup that the three scripts share: the first
    argument ending in [.py], else the working directory. *)
Definition script_dir_from_argv (env : pyenv) : M string :=
  cwd <- os_getcwd ;;
  match find (fun arg => endswith arg ".py") (sys_argv env) with
  | Some arg => p <- os_path_abspath arg ;; ret (os_path_dirname p)
  | None => ret cwd
  end.

Definition run {A} (m : M A) (host : host_t) : result A * list event :=
  m host [].


(** ** scripts/blender_export_video.py *)

Module ExportVideo.

(** [get_script_dir()].  Inside the function the local scope is empty
    when [dir()] is evaluated. *)
Definition get_script_dir (env : pyenv) : M string :=
  if in_list "__file__" (dir_ []) then
    p <- os_path_abspath (dunder_file env) ;; ret (os_path_dirname p)
  else script_dir_from_argv env.

Definition render_kw : kwargs :=
  [("animation", VBool true); ("write_still", VBool true)].

(** [bpy.ops.render.render(animation=True, write_still=True)] *)
Definition render : M unit := op "render.render" render_kw.

Definition denoiser_tag : string := "OpenImageDenoiser".

(** The body of [except RuntimeError as e:]. *)
Definition on_runtime_error (scene : pyval) (output_dir : string) (e : exn)
  : M unit :=
  if str_contains denoiser_tag (str_exn e) then
    print [Lit (nl ++ "⚠ Denoising error detected. Trying with Eevee render engine instead...")] ;;
    r <- getattr scene "render" ;;
    setattr r "engine" (VStr "BLENDER_EEVEE") ;;
    ee <- getattr scene "eevee" ;;
    b <- py_bool ee ;;
    when b (ee' <- getattr scene "eevee" ;;
            setattr ee' "taa_render_samples" (VInt 64)) ;;
    print [Lit "Rendering with Eevee..."] ;;
    try_except
      (render ;;
       print [Lit (nl ++ "✓ PNG sequence rendered successfully with Eevee!")] ;;
       print [Lit "  Location: "; Sub (VStr output_dir)])
      Exception
      (fun e2 =>
         print [Lit (nl ++ "✗ Render failed: "); Sub (VStr (str_exn e2))] ;;
         print [Lit "Try rendering manually in Blender UI with Film → Transparent enabled"])
  else
    print [Lit (nl ++ "✗ Render failed: "); Sub (VStr (str_exn e))] ;;
    raise_ e.

(** [main()] *)
Definition main (env : pyenv) : M unit :=
  scene <- getattr bpy_context "scene" ;;
  (* scene info *)
  name <- getattr scene "name" ;;
  print [Lit "Scene: "; Sub name] ;;
  fs <- getattr scene "frame_start" ;;
  fe <- getattr scene "frame_end" ;;
  print [Lit "Frame range: "; Sub fs; Lit " to "; Sub fe] ;;
  fe' <- getattr scene "frame_end" ;;
  fs' <- getattr scene "frame_start" ;;
  d <- py_sub fe' fs' ;;
  total <- py_add d (VInt 1) ;;
  print [Lit "Total frames: "; Sub total] ;;
  (* render settings for a transparent background *)
  r <- getattr scene "render" ;;
  setattr r "film_transparent" (VBool true) ;;
  r <- getattr scene "render" ;;
  i <- getattr r "image_settings" ;;
  setattr i "file_format" (VStr "PNG") ;;
  r <- getattr scene "render" ;;
  i <- getattr r "image_settings" ;;
  setattr i "color_mode" (VStr "RGBA") ;;
  (* render engine *)
  r <- getattr scene "render" ;;
  setattr r "engine" (VStr "CYCLES") ;;
  c <- getattr scene "cycles" ;;
  b <- py_bool c ;;
  when b
    (c <- getattr scene "cycles" ;;
     setattr c "samples" (VInt 64) ;;
     c <- getattr scene "cycles" ;;
     setattr c "use_denoising" (VBool false) ;;
     vls <- getattr scene "view_layers" ;;
     layers <- iter vls ;;
     for_ layers (fun view_layer =>
       h <- hasattr view_layer "cycles" ;;
       when h (vc <- getattr view_layer "cycles" ;;
               setattr vc "use_denoising" (VBool false)) ;;
       h' <- hasattr view_layer "use_denoising" ;;
       when h' (setattr view_layer "use_denoising" (VBool false)))) ;;
  (* output path *)
  script_dir <- get_script_dir env ;;
  let project_root := os_path_dirname script_dir in
  let output_dir := os_path_join project_root ["public"; "videos"] in
  os_makedirs_exist_ok output_dir ;;
  let png_output := os_path_join output_dir ["jalenedusei_animation_####.png"] in
  r <- getattr scene "render" ;;
  setattr r "filepath" (VStr png_output) ;;
  print [Lit (nl ++ "Rendering PNG sequence with transparent background...")] ;;
  print [Lit "Output: "; Sub (VStr png_output)] ;;
  r <- getattr scene "render" ;;
  eng <- getattr r "engine" ;;
  print [Lit "Render engine: "; Sub eng] ;;
  print [Lit "This may take a while depending on frame count and quality settings..."] ;;
  (* render the animation *)
  try_except
    (render ;;
     print [Lit (nl ++ "✓ PNG sequence rendered successfully!")] ;;
     print [Lit "  Location: "; Sub (VStr output_dir)] ;;
     print [Lit "  Format: PNG with alpha channel"] ;;
     print [Lit (nl ++ "Next steps:")] ;;
     print [Lit "  1. Use ffmpeg to combine PNGs into video:"] ;;
     print [Lit "     cd "; Sub (VStr output_dir)] ;;
     print [Lit "     ffmpeg -i jalenedusei_animation_%04d.png -c:v libvpx-vp9 -pix_fmt yuva420p -auto-alt-ref 0 jalenedusei.webm"] ;;
     print [Lit "  2. Or use an online tool to convert PNG sequence to video with transparency"])
    RuntimeError
    (on_runtime_error scene output_dir).

(** The module body: [if __name__ == "__main__": main()]. *)
Definition script (env : pyenv) : M unit := main env.

End ExportVideo.

(** ** scripts/blender_export_existing_scene.py *)

Module ExportScene.

(** [get_script_dir()], the same function as in the render script. *)
Definition get_script_dir (env : pyenv) : M string :=
  if in_list "__file__" (dir_ []) then
    p <- os_path_abspath (dunder_file env) ;; ret (os_path_dirname p)
  else script_dir_from_argv env.

Definition export_kw (out_path : string) : kwargs :=
  [("filepath", VStr out_path);
   ("export_animations", VBool true);
   ("export_cameras", VBool true);
   ("export_lights", VBool true);
   ("export_draco_mesh_compression_enable", VBool false)].

(** [[obj for obj in scene.objects if obj.type == kind]] *)
Definition objects_of_type (scene : pyval) (kind : string) : M (list pyval) :=
  objs <- getattr scene "objects" ;;
  l <- iter objs ;;
  filter_m (fun obj => t <- getattr obj "type" ;; ret (eq_str t kind)) l.

(** [main()] *)
Definition main (env : pyenv) : M unit :=
  (* project paths *)
  script_dir <- get_script_dir env ;;
  let project_root := os_path_dirname script_dir in
  let out_path :=
    os_path_join project_root ["public"; "models"; "jaleneduseiwhite.glb"] in
  os_makedirs_exist_ok (os_path_dirname out_path) ;;
  scene <- getattr bpy_context "scene" ;;
  (* scene info *)
  name <- getattr scene "name" ;;
  print [Lit "Scene: "; Sub name] ;;
  fs <- getattr scene "frame_start" ;;
  fe <- getattr scene "frame_end" ;;
  print [Lit "Frame range: "; Sub fs; Lit " to "; Sub fe] ;;
  objs <- getattr scene "objects" ;;
  n <- len objs ;;
  print [Lit "Objects in scene: "; Sub (VInt n)] ;;
  (* cameras *)
  cameras <- objects_of_type scene "CAMERA" ;;
  print [Lit "Cameras found: "; Sub (VInt (Z.of_nat (List.length cameras)))] ;;
  for_ cameras (fun cam =>
    cn <- getattr cam "name" ;;
    loc <- getattr cam "location" ;;
    print [Lit "  - "; Sub cn; Lit " at "; Sub loc]) ;;
  (* lights *)
  lights <- objects_of_type scene "LIGHT" ;;
  print [Lit "Lights found: "; Sub (VInt (Z.of_nat (List.length lights)))] ;;
  for_ lights (fun light =>
    ln <- getattr light "name" ;;
    d <- getattr light "data" ;;
    t <- getattr d "type" ;;
    print [Lit "  - "; Sub ln; Lit " ("; Sub t; Lit ")"]) ;;
  (* export *)
  print [Lit (nl ++ "Exporting to: "); Sub (VStr out_path)] ;;
  func "bpy.ops.export_scene.gltf" [] (export_kw out_path) ;;
  print [Lit (nl ++ "✓ Successfully exported GLB: "); Sub (VStr out_path)] ;;
  size <- os_path_getsize out_path ;;
  kb <- py_truediv size 1024 ;;
  print [Lit "  File size: "; SubFmt kb ".2f"; Lit " KB"].

(** The module body: [if __name__ == "__main__": main()]. *)
Definition script (env : pyenv) : M unit := main env.

End ExportScene.

(** ** scripts/blender_jalen_edusei_glass.py *)

Module GlassLogo.

Definition zero3 : pyval := VTuple [VInt 0; VInt 0; VInt 0].

(** Tuples of ints compare like Python tuples: [a >= b]. *)
Fixpoint tuple_ge (a b : list Z) : bool :=
  match a, b with
  | _, [] => true
  | [], _ :: _ => false
  | x :: a', y :: b' =>
      if Z.ltb y x then true
      else if Z.ltb x y then false
      else tuple_ge a' b'
  end.

Fixpoint as_ints (l : list pyval) : option (list Z) :=
  match l with
  | [] => Some []
  | VInt z :: l' =>
      match as_ints l' with Some zs => Some (z :: zs) | None => None end
  | _ => None
  end.

(** [bpy.app.version >= (4, 0, 0)] *)
Definition version_at_least_4 : M bool :=
  v <- getattr bpy_app "version" ;;
  match v with
  | VTuple l =>
      match as_ints l with
      | Some zs => ret (tuple_ge zs [4; 0; 0]%Z)
      | None => type_error "'>=' not supported"
      end
  | _ => type_error "'>=' not supported"
  end.

(** The first loop of [get_script_dir()]: the argument after a
    separator that is not the last argument. *)
Fixpoint arg_after_separator (argv : list string) : option string :=
  match argv with
  | [] => None
  | a :: rest =>
      if String.eqb a "--" then
        match rest with
        | b :: _ => Some b
        | [] => None
        end
      else arg_after_separator rest
  end.

(** [get_script_dir()]; [main] does not call it. *)
Definition get_script_dir (env : pyenv) : M string :=
  match arg_after_separator (sys_argv env) with
  | Some a => ret (os_path_dirname a)
  | None =>
      fp <- getattr bpy_data "filepath" ;;
      b <- py_bool fp ;;
      if b then
        fp' <- getattr bpy_data "filepath" ;;
        s <- as_str fp' ;;
        ret (os_path_dirname s)
      else ret ""
  end.

Definition logo_text : string := "JALEN" ++ nl ++ "EDUSEI".

Definition convert_to_mesh : M unit :=
  op "object.convert" [("target", VStr "MESH")].

(** [create_text_logo()] *)
Definition create_text_logo : M pyval :=
  op "object.text_add" [("align", VStr "WORLD"); ("location", zero3)] ;;
  text_obj <- getattr bpy_context "active_object" ;;
  setattr text_obj "name" (VStr "JalenEdusei_Text") ;;
  body <- getattr text_obj "data" ;;
  setattr body "body" (VStr logo_text) ;;
  setattr body "size" (VDec 10 1) ;;
  setattr body "space_character" (VDec 12 2) ;;
  setattr body "space_line" (VDec 135 2) ;;
  fonts <- getattr bpy_data "fonts" ;;
  b <- py_bool fonts ;;
  when b (fonts' <- getattr bpy_data "fonts" ;;
          f <- getitem fonts' (VInt 0) ;;
          setattr body "font" f) ;;
  setattr body "extrude" (VDec 12 2) ;;
  setattr body "resolution_u" (VInt 8) ;;
  setattr body "bevel_depth" (VDec 2 2) ;;
  setattr body "bevel_resolution" (VInt 2) ;;
  convert_to_mesh ;;
  getattr bpy_context "active_object".

Definition no_curves (svg_path : string) : exn :=
  mkExn FileNotFoundError ("No curves in SVG: " ++ svg_path).

(** [create_from_svg(svg_path)] *)
Definition create_from_svg (svg_path : string) : M pyval :=
  op "import_curve.svg" [("filepath", VStr svg_path)] ;;
  sel <- getattr bpy_context "selected_objects" ;;
  l <- iter sel ;;
  curve_objs <-
    filter_m (fun o => t <- getattr o "type" ;; ret (eq_str t "CURVE")) l ;;
  match curve_objs with
  | [] => raise_ (no_curves svg_path)
  | first :: _ =>
      op "object.select_all" [("action", VStr "DESELECT")] ;;
      for_ curve_objs (fun o =>
        method o "select_set" [VBool true] [] ;; ret tt) ;;
      vl <- getattr bpy_context "view_layer" ;;
      objs <- getattr vl "objects" ;;
      setattr objs "active" first ;;
      op "object.join" [] ;;
      curve <- getattr bpy_context "active_object" ;;
      d <- getattr curve "data" ;;
      spl <- getattr d "splines" ;;
      splines <- iter spl ;;
      for_ splines (fun spline =>
        setattr spline "bevel_depth" (VDec 8 2) ;;
        setattr spline "bevel_resolution" (VInt 4)) ;;
      convert_to_mesh ;;
      getattr bpy_context "active_object"
  end.

(** [node.inputs[key].default_value = v] *)
Definition set_input (node key v : pyval) : M unit :=
  inputs <- getattr node "inputs" ;;
  socket <- getitem inputs key ;;
  setattr socket "default_value" v.

(** [links.new(a.outputs[out_key], <socket>)] with the socket computed
    after the output, as the arguments are evaluated left to right. *)
Definition link_output (links a : pyval) (out_key : string)
  (socket : M pyval) : M unit :=
  outs <- getattr a "outputs" ;;
  o <- getitem outs (VStr out_key) ;;
  i <- socket ;;
  method links "new" [o; i] [] ;; ret tt.

Definition input_of (node key : pyval) : M pyval :=
  inputs <- getattr node "inputs" ;; getitem inputs key.

(** [setup_scene(logo_obj, dark_glass)] *)
Definition setup_scene (logo_obj : pyval) (dark_glass : bool) : M unit :=
  (* camera *)
  op "object.camera_add" [("location", VTuple [VInt 0; VInt 0; VInt 6])] ;;
  cam <- getattr bpy_context "active_object" ;;
  setattr cam "rotation_euler" zero3 ;;
  (* area lights *)
  op "object.light_add"
     [("type", VStr "AREA"); ("location", VTuple [VInt 3; VInt 2; VInt 4])] ;;
  light1 <- getattr bpy_context "active_object" ;;
  d <- getattr light1 "data" ;;
  setattr d "energy" (VInt 300) ;;
  d <- getattr light1 "data" ;;
  setattr d "color" (VTuple [VDec 9 1; VDec 85 2; VDec 10 1]) ;;
  op "object.light_add"
     [("type", VStr "AREA");
      ("location", VTuple [VDec (-25) 1; VDec (-15) 1; VInt 3])] ;;
  light2 <- getattr bpy_context "active_object" ;;
  d <- getattr light2 "data" ;;
  setattr d "energy" (VInt 200) ;;
  d <- getattr light2 "data" ;;
  setattr d "color" (VTuple [VDec 7 1; VDec 9 1; VDec 10 1]) ;;
  (* glass material *)
  mats <- getattr bpy_data "materials" ;;
  mat <- method mats "new" [] [("name", VStr "Glass_JalenEdusei")] ;;
  setattr mat "use_nodes" (VBool true) ;;
  nt <- getattr mat "node_tree" ;;
  nodes <- getattr nt "nodes" ;;
  nt <- getattr mat "node_tree" ;;
  links <- getattr nt "links" ;;
  method nodes "clear" [] [] ;;
  out <- method nodes "new" [VStr "ShaderNodeOutputMaterial"] [] ;;
  bsdf <- method nodes "new" [VStr "ShaderNodeBsdfPrincipled"] [] ;;
  setattr bsdf "location" (VTuple [VInt 0; VInt 0]) ;;
  let color :=
    if dark_glass
    then VTuple [VDec 4 2; VDec 4 2; VDec 4 2; VDec 10 1]
    else VTuple [VDec 98 2; VDec 98 2; VDec 98 2; VDec 10 1] in
  set_input bsdf (VStr "Base Color") color ;;
  v4 <- version_at_least_4 ;;
  let trans_key := if v4 then "Transmission Weight" else "Transmission" in
  set_input bsdf (VStr trans_key) (VDec 10 1) ;;
  set_input bsdf (VStr "Roughness") (VDec 2 1) ;;
  set_input bsdf (VStr "IOR") (VDec 115 2) ;;
  set_input bsdf (VStr "Alpha") (VDec 95 2) ;;
  layer <- method nodes "new" [VStr "ShaderNodeLayerWeight"] [] ;;
  setattr layer "location" (VTuple [VInt (-200); VInt 0]) ;;
  set_input layer (VStr "Blend") (VDec 4 1) ;;
  mix <- method nodes "new" [VStr "ShaderNodeMixShader"] [] ;;
  setattr mix "location" (VTuple [VInt 220; VInt 0]) ;;
  glossy <- method nodes "new" [VStr "ShaderNodeBsdfGlossy"] [] ;;
  set_input glossy (VStr "Roughness") (VDec 1 1) ;;
  set_input glossy (VStr "Color") (VTuple [VInt 1; VInt 1; VInt 1; VInt 1]) ;;
  mix_inputs <- getattr mix "inputs" ;;
  has_fac <- contains_ (VStr "Fac") mix_inputs ;;
  mix_fac <- input_of mix (VStr (if has_fac then "Fac" else "Factor")) ;;
  link_output links bsdf "BSDF" (input_of mix (VInt 1)) ;;
  link_output links glossy "BSDF" (input_of mix (VInt 2)) ;;
  link_output links layer "Facing" (ret mix_fac) ;;
  link_output links mix "Shader" (input_of out (VStr "Surface")) ;;
  ld <- getattr logo_obj "data" ;;
  lm <- getattr ld "materials" ;;
  method lm "append" [mat] [] ;;
  (* smart UV project *)
  op "object.select_all" [("action", VStr "DESELECT")] ;;
  method logo_obj "select_set" [VBool true] [] ;;
  vl <- getattr bpy_context "view_layer" ;;
  vobjs <- getattr vl "objects" ;;
  setattr vobjs "active" logo_obj ;;
  op "object.mode_set" [("mode", VStr "EDIT")] ;;
  op "mesh.select_all" [("action", VStr "SELECT")] ;;
  v4' <- version_at_least_4 ;;
  (if v4'
   then op "uv.smart_project"
           [("angle_limit", VDec 115192 5); ("island_margin", VDec 2 2)]
   else op "uv.smart_project" [("angle", VInt 66); ("margin", VDec 2 2)]) ;;
  op "object.mode_set" [("mode", VStr "OBJECT")] ;;
  (* environment *)
  scene <- getattr bpy_context "scene" ;;
  world0 <- getattr scene "world" ;;
  world <-
    (if is_none world0 then
       worlds <- getattr bpy_data "worlds" ;;
       w <- method worlds "new" [VStr "World"] [] ;;
       scene' <- getattr bpy_context "scene" ;;
       setattr scene' "world" w ;;
       ret w
     else ret world0) ;;
  setattr world "use_nodes" (VBool true) ;;
  wnt <- getattr world "node_tree" ;;
  wn <- getattr wnt "nodes" ;;
  wnt <- getattr world "node_tree" ;;
  wl <- getattr wnt "links" ;;
  method wn "clear" [] [] ;;
  out_w <- method wn "new" [VStr "ShaderNodeOutputWorld"] [] ;;
  bg <- method wn "new" [VStr "ShaderNodeBackground"] [] ;;
  set_input bg (VStr "Color")
    (if dark_glass
     then VTuple [VDec 5 2; VDec 5 2; VDec 8 2; VDec 10 1]
     else VTuple [VDec 9 1; VDec 9 1; VDec 92 2; VDec 10 1]) ;;
  set_input bg (VStr "Strength") (VDec 3 1) ;;
  link_output wl bg "Background" (input_of out_w (VStr "Surface")).

(** [6.283185307], the literal the script uses for two pi. *)
Definition two_pi : pyval := VDec 6283185307 9.

Definition keyframe_kw (frame : Z) : kwargs :=
  [("data_path", VStr "rotation_euler"); ("frame", VInt frame)].

(** [add_rotation_animation(logo_obj, frame_end)] *)
Definition add_rotation_animation (logo_obj : pyval) (frame_end : Z)
  : M unit :=
  op "object.empty_add" [("type", VStr "PLAIN_AXES"); ("location", zero3)] ;;
  empty <- getattr bpy_context "active_object" ;;
  setattr empty "name" (VStr "LogoAxis") ;;
  setattr logo_obj "parent" empty ;;
  scene <- getattr bpy_context "scene" ;;
  setattr scene "frame_end" (VInt frame_end) ;;
  setattr empty "rotation_euler" zero3 ;;
  method empty "keyframe_insert" [] (keyframe_kw 1) ;;
  setattr empty "rotation_euler" (VTuple [VInt 0; two_pi; VInt 0]) ;;
  method empty "keyframe_insert" [] (keyframe_kw frame_end) ;;
  ad <- getattr empty "animation_data" ;;
  action <- getattr ad "action" ;;
  fcs <- getattr action "fcurves" ;;
  fcurves <- iter fcs ;;
  for_ fcurves (fun fc =>
    kps <- getattr fc "keyframe_points" ;;
    points <- iter kps ;;
    for_ points (fun kp =>
      setattr kp "interpolation" (VStr "BEZIER") ;;
      setattr kp "handle_left_type" (VStr "FREE") ;;
      setattr kp "handle_right_type" (VStr "FREE"))).

Definition export_kw (out_path : string) : kwargs :=
  [("filepath", VStr out_path);
   ("export_animations", VBool true);
   ("export_cameras", VBool true);
   ("export_draco_mesh_compression_enable", VBool false)].

(** [argv[argv.index("--") + 1:] if "--" in argv else []] *)
Definition script_args (argv : list string) : list string :=
  if in_list "--" argv then after_first "--" argv else [].

(** [main()], its first part: the choice between SVG import and text. *)
Definition choose_logo (env : pyenv) : M pyval :=
  let argv := script_args (sys_argv env) in
  use_svg <-
    match argv with
    | [] => ret false
    | a :: _ => if endswith a ".svg" then os_path_isfile a else ret false
    end ;;
  if use_svg
  then match argv with
       | a :: _ => create_from_svg a
       | [] => raise_ (mkExn IndexError "list index out of range")
       end
  else create_text_logo.

(** [main()], the rest: scene, animation, render settings and export.
    When [dir()] is evaluated the local names are [argv], [logo],
    [scene] and [use_svg]. *)
Definition finish (env : pyenv) (logo : pyval) : M unit :=
  (* center and scale *)
  op "object.origin_set"
     [("type", VStr "ORIGIN_GEOMETRY"); ("center", VStr "BOUNDS")] ;;
  setattr logo "location" zero3 ;;
  setup_scene logo true ;;
  add_rotation_animation logo 120 ;;
  (* render settings *)
  scene <- getattr bpy_context "scene" ;;
  r <- getattr scene "render" ;;
  setattr r "engine" (VStr "CYCLES") ;;
  c <- getattr scene "cycles" ;;
  setattr c "samples" (VInt 128) ;;
  r <- getattr scene "render" ;;
  setattr r "resolution_x" (VInt 1920) ;;
  r <- getattr scene "render" ;;
  setattr r "resolution_y" (VInt 1080) ;;
  (* export *)
  script_dir <-
    (if in_list "__file__" (dir_ ["argv"; "logo"; "scene"; "use_svg"]) then
       p <- os_path_abspath (dunder_file env) ;; ret (os_path_dirname p)
     else script_dir_from_argv env) ;;
  let project_root := os_path_dirname script_dir in
  let out_path :=
    os_path_join project_root ["public"; "models"; "jalen_edusei_glass.glb"] in
  os_makedirs_exist_ok (os_path_dirname out_path) ;;
  func "bpy.ops.export_scene.gltf" [] (export_kw out_path) ;;
  print [Lit "Done. JALEN EDUSEI glass logo with rotation is ready."] ;;
  print [Lit "Exported GLB: "; Sub (VStr out_path)].

(** [main()] *)
Definition main (env : pyenv) : M unit :=
  logo <- choose_logo env ;;
  finish env logo.

(** The module body: the factory reset at import time, then
    [if __name__ == "__main__": main()]. *)
Definition script (env : pyenv) : M unit :=
  op "wm.read_factory_settings" [("use_empty", VBool true)] ;;
  main env.

End GlassLogo.

(** ** Runs and logs *)

(** [wp m host log Post]: running [m] against [host] from [log] ends in a
    result and a log that satisfy [Post]. *)
Definition wp {A} (m : M A) (host : host_t) (log : list event)
  (Post : result A -> list event -> Prop) : Prop :=
  Post (fst (m host log)) (snd (m host log)).

(** [emits ok m]: whatever the host answers, [m] only appends events that
    satisfy [ok] to the log. *)
Definition emits {A} (ok : event -> Prop) (m : M A) : Prop :=
  forall host log, exists new,
    snd (m host log) = log ++ new /\ Forall ok new.

(** ** Reading a log *)

Definition answered (log : list event) (c : call) (v : pyval) : Prop :=
  In (Called c (Ok v)) log.

(** The object and value of the last assignment [o.name = v] that the host
    accepted. *)
Definition assigned (name : string) (log : list event) : option (pyval * pyval) :=
  fold_left
    (fun acc ev =>
       match ev with
       | Called (SetAttr o n v) (Ok _) =>
           if String.eqb n name then Some (o, v) else acc
       | _ => acc
       end) log None.

Definition is_func (fname : string) (ev : event) : bool :=
  match ev with
  | Called (Func n _ _) _ => String.eqb n fname
  | _ => false
  end.

(** The event is no assignment to an attribute of one of these names. *)
Definition leaves (names : list string) (ev : event) : bool :=
  match ev with
  | Called (SetAttr _ n _) _ => negb (in_list n names)
  | _ => true
  end.

(** ** Vocabulary of the animation-render script *)

Module VideoSpec.

(** An invocation of the render operator. *)
Definition is_render (ev : event) : bool := is_func "bpy.ops.render.render" ev.

Definition renders (log : list event) : list event := filter is_render log.

Definition alpha_names : list string :=
  ["film_transparent"; "file_format"; "color_mode"].

(** The settings for alpha output are in place at the end of [log]: the
    last accepted assignment to each of the three attributes carries the
    value for transparency, and its target is what the host returned for
    [scene.render], respectively [scene.render.image_settings], of
    [bpy.context.scene]. *)
Definition alpha_ready (log : list event) : Prop :=
  exists scene r1 r2 i2 r3 i3,
    answered log (GetAttr bpy_context "scene") scene /\
    answered log (GetAttr scene "render") r1 /\
    answered log (GetAttr scene "render") r2 /\
    answered log (GetAttr r2 "image_settings") i2 /\
    answered log (GetAttr scene "render") r3 /\
    answered log (GetAttr r3 "image_settings") i3 /\
    assigned "film_transparent" log = Some (r1, VBool true) /\
    assigned "file_format" log = Some (i2, VStr "PNG") /\
    assigned "color_mode" log = Some (i3, VStr "RGBA").

(** Every render invocation of the log comes after the alpha settings. *)
Definition renders_after_alpha (log : list event) : Prop :=
  forall pre ev post,
    log = pre ++ ev :: post -> is_render ev = true -> alpha_ready pre.

End VideoSpec.

(** ** Assumptions on the host *)

Definition is_bool (v : pyval) : bool :=
  match v with VBool _ => true | _ => false end.
Definition is_int (v : pyval) : bool :=
  match v with VInt _ => true | _ => false end.
Definition is_str (v : pyval) : bool :=
  match v with VStr _ => true | _ => false end.
Definition is_list (v : pyval) : bool :=
  match v with VList _ => true | _ => false end.
Definition is_int_tuple (v : pyval) : bool :=
  match v with VTuple l => forallb is_int l | _ => false end.

(** The Python type of an answer, where the scripts depend on it:
    [hasattr], [in] and [bool] give a bool, [len] an int, iteration a
    sequence; frame numbers are ints, [bpy.app.version] is a tuple of ints;
    the [os] functions return what their documentation says. *)
Definition answer_type_ok (c : call) (v : pyval) : bool :=
  match c with
  | HasAttr _ _ | Contains _ _ | Truth _ => is_bool v
  | Len _ => is_int v
  | Iter _ => is_list v
  | GetAttr _ n =>
      if in_list n ["frame_start"; "frame_end"] then is_int v
      else if String.eqb n "version" then is_int_tuple v
      else true
  | Func n _ _ =>
      if in_list n ["os.getcwd"; "os.path.abspath"] then is_str v
      else if String.eqb n "os.path.isfile" then is_bool v
      else if String.eqb n "os.path.getsize" then is_int v
      else true
  | _ => true
  end.

Definition well_typed (host : host_t) : Prop :=
  forall log c v, host log c = Ok v -> answer_type_ok c v = true.

(** The host raises on no call outside [may_fail]. *)
Definition fails_only (may_fail : call -> bool) (host : host_t) : Prop :=
  forall log c, may_fail c = false -> exists v, host log c = Ok v.

(** ** Monitors: a state folded over the log *)

Section Monitor.
Context {S : Type} (step : S -> event -> S) (s0 : S).

Definition mon (log : list event) : S := fold_left step log s0.

(** From a log in state [s], under the host assumption [H], [m] ends with
    a result and a state that satisfy [Q]. *)
Definition mtriple (H : host_t -> Prop) {A} (s : S) (m : M A)
  (Q : result A -> S -> Prop) : Prop :=
  forall host log, H host -> mon log = s ->
    Q (fst (m host log)) (mon (snd (m host log))).

(** [m] returns normally and leaves the state where it was. *)
Definition mquiet (H : host_t -> Prop) {A} (s : S) (m : M A) : Prop :=
  mtriple H s m (fun r s' => (exists a, r = Ok a) /\ s' = s).
End Monitor.

(** ** Vocabulary of the animation-render script, continued *)

Module VideoTrace.

Definition is_render_call (c : call) : bool :=
  match c with
  | Func n _ _ => String.eqb n "bpy.ops.render.render"
  | _ => false
  end.

(** What a log tells about rendering: the engine the script assigned
    last, for every render invocation the engine then in force and the
    operator's answer, and the lines printed since the last invocation. *)
Record view : Type := mkView {
  engine : option pyval;
  invocations : list (option pyval * result pyval);
  printed_since : list fstring
}.

Definition step (s : view) (ev : event) : view :=
  match ev with
  | Called (SetAttr _ n v) (Ok _) =>
      if String.eqb n "engine"
      then mkView (Some v) (invocations s) (printed_since s)
      else s
  | Called (Func n _ _) r =>
      if String.eqb n "bpy.ops.render.render"
      then mkView (engine s) (invocations s ++ [(engine s, r)]) []
      else s
  | Called _ _ => s
  | Printed line => mkView (engine s) (invocations s) (printed_since s ++ [line])
  end.

Definition start : view := mkView None [] [].

Definition view_of (log : list event) : view := mon step start log.

(** Events that [step] ignores. *)
Definition quiet (ev : event) : bool :=
  match ev with
  | Called (SetAttr _ n _) _ => negb (String.eqb n "engine")
  | Called (Func n _ _) _ => negb (String.eqb n "bpy.ops.render.render")
  | Called _ _ => true
  | Printed _ => false
  end.


(** The test of the handler: a [RuntimeError] whose message contains the
    denoiser tag. *)
Definition retry_cond (e : exn) : bool :=
  isinstance e RuntimeError &&
  str_contains ExportVideo.denoiser_tag (str_exn e).

Definition cycles : option pyval := Some (VStr "CYCLES").
Definition eevee : option pyval := Some (VStr "BLENDER_EEVEE").

(** What the handler of the retry prints for a failure [e2]. *)
Definition failure_report (e2 : exn) : list fstring :=
  [ [Lit (nl ++ "✗ Render failed: "); Sub (VStr (str_exn e2))];
    [Lit "Try rendering manually in Blender UI with Film → Transparent enabled"] ].

(** How result and render invocations go together, for any host. *)
Definition protocol (r : result unit) (s : view) : Prop :=
  match invocations s with
  | [] => exit_status r = 1%Z
  | [(eng, Ok _)] => eng = cycles /\ r = Ok tt
  | [(eng, Raise e)] =>
      eng = cycles /\
      if retry_cond e then exit_status r = 1%Z else r = Raise e
  | [(eng, Raise e); (eng2, second)] =>
      eng = cycles /\ retry_cond e = true /\ eng2 = eevee /\
      match second with
      | Ok _ => r = Ok tt
      | Raise e2 =>
          if isinstance e2 Exception
          then r = Ok tt /\ printed_since s = failure_report e2
          else r = Raise e2
      end
  | _ => False
  end.


End VideoTrace.

(** ** Sample hosts

    Hosts to run the scripts on: every call succeeds with a plausible
    answer, except where the scenario says otherwise. *)

Module Sim.

Record scenario : Type := mkScenario {
  render_answers : list (result pyval);  (* by invocation; then success *)
  files : list string;                   (* paths that are files *)
  selected : list pyval;                 (* selection after an import *)
  cwd : string
}.

Definition finished : pyval := VTuple [VStr "FINISHED"].

(** Objects are told apart by their handle: 0 mod 3 is a camera, 1 a
    light, 2 a curve. *)
Definition type_of (o : pyval) : pyval :=
  match o with
  | VRef h =>
      match Nat.modulo h 3 with
      | 0 => VStr "CAMERA"
      | 1 => VStr "LIGHT"
      | _ => VStr "CURVE"
      end
  | _ => VStr "MESH"
  end.

(** An attribute reads back what the script assigned last; before that
    it has a default. *)
Definition get_attr (log : list event) (o : pyval) (n : string) : pyval :=
  if in_list n ["frame_start"; "frame_end"] then
    (if String.eqb n "frame_start" then VInt 1 else VInt 120)
  else if String.eqb n "version" then VTuple [VInt 4; VInt 2; VInt 0]
  else if String.eqb n "name" then VStr "Scene"
  else if String.eqb n "type" then type_of o
  else if String.eqb n "world" then VNone
  else if String.eqb n "filepath" then VStr ""
  else match assigned n log with
       | Some (_, v) => v
       | None => VRef (3 * List.length log)
       end.

Definition os_call (sc : scenario) (n : string) (args : list pyval) : pyval :=
  if in_list n ["os.getcwd"; "os.path.abspath"] then
    match args with
    | [VStr p] => VStr (if prefix "/" p then p else cwd sc ++ "/" ++ p)
    | _ => VStr (cwd sc)
    end
  else if String.eqb n "os.path.isfile" then
    match args with
    | [VStr p] => VBool (in_list p (files sc))
    | _ => VBool false
    end
  else if String.eqb n "os.path.getsize" then VInt 2048
  else if String.eqb n "os.makedirs" then VNone
  else finished.

Definition host (sc : scenario) : host_t :=
  fun log c =>
    match c with
    | GetAttr o n =>
        Ok (if String.eqb n "selected_objects" then VList (selected sc)
            else get_attr log o n)
    | SetAttr _ _ _ => Ok VNone
    | HasAttr _ _ | Contains _ _ | Truth _ => Ok (VBool true)
    | GetItem _ _ => Ok (VRef (3 * List.length log))
    | Len _ => Ok (VInt 2)
    | Iter o =>
        Ok (match o with
            | VList l => VList l
            | _ => VList [VRef (3 * List.length log);
                          VRef (3 * List.length log + 1)]
            end)
    | Method _ _ _ _ => Ok (VRef (3 * List.length log))
    | Func n args _ =>
        if String.eqb n "bpy.ops.render.render"
        then nth (List.length (filter VideoSpec.is_render log))
                 (render_answers sc) (Ok finished)
        else Ok (os_call sc n args)
    end.

Definition env : pyenv :=
  mkEnv ["blender"; "scene.blend"; "--background"; "--python";
         "scripts/blender_export_video.py"]
        "/home/jalen/site/scripts/blender_export_video.py".

Definition denoiser_failure : exn :=
  mkExn RuntimeError "Error: OpenImageDenoiser is not available on this CPU".

Definition out_of_memory : exn :=
  mkExn RuntimeError "Error: System is out of GPU memory".

(** Everything works. *)
Definition plain : scenario := mkScenario [] [] [] "/home/jalen/site".

Definition logo_argv : list string :=
  ["blender"; "--background"; "--python";
   "scripts/blender_jalen_edusei_glass.py"].

Definition logo_file : string :=
  "/home/jalen/site/scripts/blender_jalen_edusei_glass.py".

(** The logo script without argument, with an SVG, with a PNG and with a
    path that is no file. *)
Definition logo_env : pyenv := mkEnv logo_argv logo_file.
Definition svg_env : pyenv :=
  mkEnv (logo_argv ++ ["--"; "/home/jalen/logo.svg"]) logo_file.
Definition png_env : pyenv :=
  mkEnv (logo_argv ++ ["--"; "/home/jalen/logo.png"]) logo_file.
Definition missing_env : pyenv :=
  mkEnv (logo_argv ++ ["--"; "/home/jalen/missing.svg"]) logo_file.

Definition on_disk : list string :=
  ["/home/jalen/logo.svg"; "/home/jalen/logo.png"].

(** The import selects two curves. *)
Definition two_curves : scenario :=
  mkScenario [] on_disk [VRef 2; VRef 5] "/home/jalen/site".

(** The import selects nothing that is a curve. *)
Definition no_curve : scenario :=
  mkScenario [] on_disk [VRef 0] "/home/jalen/site".


(** The first render hits the denoiser error, the retry fails too. *)
Definition denoiser_then_oom : scenario :=
  mkScenario [Raise denoiser_failure; Raise out_of_memory] [] []
             "/home/jalen/site".

End Sim.

(** ** Vocabulary of the scene-export script *)

Module SceneSpec.

Definition export_op : string := "bpy.ops.export_scene.gltf".

(** Events that change nothing in the scene: reads of live state, prints,
    the [os] calls and the export operator.  Assignments, method calls
    and every other operator are left out. *)
Definition harmless (ev : event) : bool :=
  match ev with
  | Called (SetAttr _ _ _) _ => false
  | Called (Method _ _ _ _) _ => false
  | Called (Func n _ _) _ =>
      in_list n ["os.getcwd"; "os.path.abspath"; "os.makedirs";
                 "os.path.getsize"; export_op]
  | Called _ _ => true
  | Printed _ => true
  end.

(** What the script changed: the events that are not [harmless]. *)
Definition mutations (log : list event) : list event :=
  filter (fun ev => negb (harmless ev)) log.

Inductive stage : Type := Reading | Exported | Violated.

(** The course of a run: the stage, the export invocations, the size
    queries and the lines printed after the export. *)
Record view : Type := mkView {
  at_stage : stage;
  exports : list kwargs;
  sizes : list (list pyval * result pyval);
  report : list fstring
}.

Definition while_reading (s : view) : view :=
  match at_stage s with
  | Reading => s
  | _ => mkView Violated (exports s) (sizes s) (report s)
  end.

Definition step (s : view) (ev : event) : view :=
  match ev with
  | Called (Func n args kw) r =>
      if String.eqb n export_op then
        mkView (match at_stage s with Reading => Exported | _ => Violated end)
               (exports s ++ [kw]) (sizes s) (report s)
      else if String.eqb n "os.path.getsize" then
        mkView (match at_stage s with Exported => Exported | _ => Violated end)
               (exports s) (sizes s ++ [(args, r)]) (report s)
      else if in_list n ["os.getcwd"; "os.path.abspath"; "os.makedirs"]
      then while_reading s
      else mkView Violated (exports s) (sizes s) (report s)
  | Called (SetAttr _ _ _) _ | Called (Method _ _ _ _) _ =>
      mkView Violated (exports s) (sizes s) (report s)
  | Called _ _ => while_reading s
  | Printed line =>
      match at_stage s with
      | Exported => mkView Exported (exports s) (sizes s) (report s ++ [line])
      | _ => s
      end
  end.

Definition start : view := mkView Reading [] [] [].

Definition view_of (log : list event) : view := mon step start log.

(** Events of the reading stage. *)
Definition reading (ev : event) : bool :=
  match ev with
  | Called (SetAttr _ _ _) _ => false
  | Called (Method _ _ _ _) _ => false
  | Called (Func n _ _) _ =>
      in_list n ["os.getcwd"; "os.path.abspath"; "os.makedirs"]
  | Called _ _ => true
  | Printed _ => true
  end.

(** The size report for a file of [size] bytes. *)
Definition size_report (out_path : string) (size : Z) : list fstring :=
  [ [Lit (nl ++ "✓ Successfully exported GLB: "); Sub (VStr out_path)];
    [Lit "  File size: "; SubFmt (VRatio size 1024) ".2f"; Lit " KB"] ].

(** A successful run exported once, then asked for the size of the file
    it exported and printed it. *)
Definition reported (s : view) : Prop :=
  exists out_path size,
    exports s = [ExportScene.export_kw out_path] /\
    sizes s = [([VStr out_path], Ok (VInt size))] /\
    report s = size_report out_path size.

End SceneSpec.

(** ** Vocabulary of the output paths *)

Module PathSpec.

(** The separator [os.path.join] puts after [root]. *)
Definition joint (root : string) : string :=
  if String.eqb root "" || endswith root "/" then "" else "/".

(** The path [rel], relative to [root]. *)
Definition under (root rel : string) : string := root ++ joint root ++ rel.

Definition filepath_of (kw : kwargs) : pyval :=
  match kw with
  | ("filepath", v) :: _ => v
  | _ => VNone
  end.

Definition first_arg (args : list pyval) : pyval :=
  match args with
  | p :: _ => p
  | [] => VNone
  end.

(** What a log tells about paths: the script directory that follows from
    the answers of [os.getcwd] and [os.path.abspath], the directories
    passed to [os.makedirs], the [filepath] of every export invocation and
    every value assigned to a [filepath] attribute. *)
Record view : Type := mkView {
  script_dir : option string;
  made : list pyval;
  exported : list pyval;
  assigned_paths : list pyval
}.

Definition step (s : view) (ev : event) : view :=
  match ev with
  | Called (Func n args kw) r =>
      if String.eqb n "os.getcwd" then
        match r with
        | Ok (VStr c) => mkView (Some c) (made s) (exported s) (assigned_paths s)
        | _ => s
        end
      else if String.eqb n "os.path.abspath" then
        match r with
        | Ok (VStr p) =>
            mkView (Some (os_path_dirname p)) (made s) (exported s)
                   (assigned_paths s)
        | _ => s
        end
      else if String.eqb n "os.makedirs" then
        mkView (script_dir s) (made s ++ [first_arg args]) (exported s)
               (assigned_paths s)
      else if String.eqb n "bpy.ops.export_scene.gltf" then
        mkView (script_dir s) (made s) (exported s ++ [filepath_of kw])
               (assigned_paths s)
      else s
  | Called (SetAttr _ n v) _ =>
      if String.eqb n "filepath"
      then mkView (script_dir s) (made s) (exported s) (assigned_paths s ++ [v])
      else s
  | _ => s
  end.

Definition start : view := mkView None [] [] [].

Definition view_of (log : list event) : view := mon step start log.

(** The project root: the parent of the script directory. *)
Definition project_root (s : view) : option string :=
  option_map os_path_dirname (script_dir s).

(** Every path of [paths] is [rel] under the project root. *)
Definition all_under (s : view) (rel : string) (paths : list pyval) : Prop :=
  forall p, In p paths ->
    exists root, project_root s = Some root /\ p = VStr (under root rel).

(** Events that say nothing about paths. *)
Definition quiet (ev : event) : bool :=
  match ev with
  | Called (Func n _ _) _ =>
      negb (in_list n ["os.getcwd"; "os.path.abspath"; "os.makedirs";
                       "bpy.ops.export_scene.gltf"])
  | Called (SetAttr _ n _) _ => negb (String.eqb n "filepath")
  | _ => true
  end.

End PathSpec.

(** ** Vocabulary of the logo pipeline *)

Module LogoStages.

Inductive stage : Type :=
| Geometry     (* the text is added or the SVG is imported *)
| Convert      (* conversion to a mesh *)
| Furnish      (* camera, lights, material and its nodes *)
| Unwrap       (* smart UV projection *)
| World        (* world and its nodes *)
| Parent       (* the logo gets its parent *)
| Keyframe     (* a keyframe is inserted *)
| Export.      (* the export operator *)

Definition material_node_types : list string :=
  ["ShaderNodeOutputMaterial"; "ShaderNodeBsdfPrincipled";
   "ShaderNodeLayerWeight"; "ShaderNodeMixShader"; "ShaderNodeBsdfGlossy"].

Definition world_types : list string :=
  ["World"; "ShaderNodeOutputWorld"; "ShaderNodeBackground"].

(** The pipeline step an event belongs to, if any.  [<collection>.new] is
    told apart by what it creates: a named material, a material node, a
    world or a world node. *)
Definition stage_of (ev : event) : option stage :=
  match ev with
  | Called (Func n _ _) _ =>
      if in_list n ["bpy.ops.object.text_add"; "bpy.ops.import_curve.svg"]
      then Some Geometry
      else if String.eqb n "bpy.ops.object.convert" then Some Convert
      else if in_list n ["bpy.ops.object.camera_add"; "bpy.ops.object.light_add"]
      then Some Furnish
      else if String.eqb n "bpy.ops.uv.smart_project" then Some Unwrap
      else if String.eqb n "bpy.ops.export_scene.gltf" then Some Export
      else None
  | Called (Method _ n args kw) _ =>
      if String.eqb n "keyframe_insert" then Some Keyframe
      else if String.eqb n "new" then
        match args with
        | [] =>
            match kw with
            | (k, _) :: _ => if String.eqb k "name" then Some Furnish else None
            | [] => None
            end
        | [a] =>
            match a with
            | VStr t =>
                if in_list t material_node_types then Some Furnish
                else if in_list t world_types then Some World
                else None
            | _ => None
            end
        | _ => None
        end
      else None
  | Called (SetAttr _ n _) _ =>
      if String.eqb n "parent" then Some Parent else None
  | _ => None
  end.

Definition step (s : list stage) (ev : event) : list stage :=
  match stage_of ev with
  | Some st => s ++ [st]
  | None => s
  end.

(** The pipeline steps of a log, in the order they happened. *)
Definition stages (log : list event) : list stage := mon step [] log.

(** The order the specification gives: world nodes with the camera, the
    lights and the material, before the UV unwrap. *)
Definition claimed_rank (st : stage) : nat :=
  match st with
  | Geometry => 1 | Convert => 2 | Furnish => 3 | World => 3
  | Unwrap => 4 | Parent => 5 | Keyframe => 6 | Export => 7
  end.

(** The order of the code: the world comes after the UV unwrap. *)
Definition code_rank (st : stage) : nat :=
  match st with
  | Geometry => 1 | Convert => 2 | Furnish => 3 | Unwrap => 4
  | World => 5 | Parent => 6 | Keyframe => 7 | Export => 8
  end.

(** No step comes after a step of higher rank. *)
Fixpoint in_order (rank : stage -> nat) (l : list stage) : bool :=
  match l with
  | [] => true
  | a :: l' =>
      match l' with
      | [] => true
      | b :: _ => (rank a <=? rank b)%nat && in_order rank l'
      end
  end.

Definition stage_eqb (a b : stage) : bool :=
  Nat.eqb (code_rank a) (code_rank b).

(** Runs of the same step count once. *)
Fixpoint compress (l : list stage) : list stage :=
  match l with
  | [] => []
  | a :: l' =>
      match l' with
      | [] => [a]
      | b :: _ => if stage_eqb a b then compress l' else a :: compress l'
      end
  end.

Definition pipeline : list stage :=
  [Geometry; Convert; Furnish; Unwrap; World; Parent; Keyframe; Export].

(** Events outside the pipeline steps. *)
Definition quiet (ev : event) : bool :=
  match stage_of ev with Some _ => false | None => true end.

End LogoStages.

(** ** Vocabulary of the logo script's input *)

Module LogoInput.

(** What a log tells about the choice between SVG and text: the
    [os.path.isfile] queries with their answers, the path of every SVG
    import, the number of objects that answered the type CURVE, the
    number of text objects added, the values assigned to an attribute
    [body], and the lines printed. *)
Record view : Type := mkView {
  asked : list (pyval * result pyval);
  imports : list pyval;
  curves : nat;
  texts : nat;
  bodies : list pyval;
  printed : list fstring
}.

Definition step (s : view) (ev : event) : view :=
  match ev with
  | Called (Func n args kw) r =>
      if String.eqb n "os.path.isfile" then
        mkView (asked s ++ [(PathSpec.first_arg args, r)]) (imports s)
               (curves s) (texts s) (bodies s) (printed s)
      else if String.eqb n "bpy.ops.import_curve.svg" then
        mkView (asked s) (imports s ++ [PathSpec.filepath_of kw])
               (curves s) (texts s) (bodies s) (printed s)
      else if String.eqb n "bpy.ops.object.text_add" then
        mkView (asked s) (imports s) (curves s) (S (texts s)) (bodies s)
               (printed s)
      else s
  | Called (GetAttr _ n) (Ok t) =>
      if String.eqb n "type" && eq_str t "CURVE" then
        mkView (asked s) (imports s) (S (curves s)) (texts s) (bodies s)
               (printed s)
      else s
  | Called (SetAttr _ n v) _ =>
      if String.eqb n "body" then
        mkView (asked s) (imports s) (curves s) (texts s) (bodies s ++ [v])
               (printed s)
      else s
  | Called _ _ => s
  | Printed line =>
      mkView (asked s) (imports s) (curves s) (texts s) (bodies s)
             (printed s ++ [line])
  end.

Definition start : view := mkView [] [] 0 0 [] [].

Definition view_of (log : list event) : view := mon step start log.

Definition is_import (ev : event) : bool :=
  is_func "bpy.ops.import_curve.svg" ev.

(** The host confirmed the path as a file. *)
Definition confirmed (ans : result pyval) : bool :=
  match ans with
  | Ok (VBool true) => true
  | _ => false
  end.

(** The SVG import gets the first script argument, and only when it ends
    in [.svg] and the host confirmed it as a file. *)
Definition import_rule (args : list string) (s : view) : Prop :=
  match asked s with
  | [] => imports s = []
  | [(p, ans)] =>
      exists a rest,
        args = a :: rest /\ endswith a ".svg" = true /\ p = VStr a /\
        imports s = (if confirmed ans then [VStr a] else [])
  | _ => False
  end.

(** The text logo was built, nothing was imported, and the only lines
    printed are the two closing lines. *)
Definition fell_back_to_text (r : result unit) (s : view) : Prop :=
  r = Ok tt /\ imports s = [] /\ texts s = 1 /\
  bodies s = [VStr GlassLogo.logo_text] /\
  exists out_path,
    printed s =
      [ [Lit "Done. JALEN EDUSEI glass logo with rotation is ready."];
        [Lit "Exported GLB: "; Sub (VStr out_path)] ].

(** A host that raises on no call and answers with the expected types. *)
Definition obliging (host : host_t) : Prop :=
  fails_only (fun _ => false) host /\ well_typed host.

(** The course of a run on an obliging host, by the script arguments. *)
Definition course (args : list string) (r : result unit) (s : view) : Prop :=
  match args with
  | a :: _ =>
      if endswith a ".svg" then
        match asked s with
        | [(p, Ok (VBool true))] =>
            p = VStr a /\ imports s = [VStr a] /\ texts s = 0 /\
            bodies s = [] /\
            match curves s with
            | 0 => r = Raise (GlassLogo.no_curves a) /\ printed s = []
            | S _ => r = Ok tt
            end
        | [(p, Ok (VBool false))] => p = VStr a /\ fell_back_to_text r s
        | _ => False
        end
      else asked s = [] /\ fell_back_to_text r s
  | [] => asked s = [] /\ fell_back_to_text r s
  end.

(** Events that the view ignores. *)
Definition quiet (ev : event) : bool :=
  match ev with
  | Called (Func n _ _) _ =>
      negb (in_list n ["os.path.isfile"; "bpy.ops.import_curve.svg";
                       "bpy.ops.object.text_add"])
  | Called (GetAttr _ n) _ => negb (String.eqb n "type")
  | Called (SetAttr _ n _) _ => negb (String.eqb n "body")
  | Called _ _ => true
  | Printed _ => false
  end.

End LogoInput.

(** ** Decimal literals as real numbers *)

Module Decimal.
Import Reals.

(** The real number a decimal literal denotes. *)
Definition dec_value (m : Z) (e : nat) : R := (IZR m / 10 ^ e)%R.

End Decimal.

(** ** Vocabulary of the rotation animation *)

Module LogoMotion.

(** An accepted rotation assignment or keyframe insertion. *)
Inductive motion : Type :=
| Turn (target value : pyval)
| Key (target : pyval) (kw : kwargs).

Definition style_names : list string :=
  ["interpolation"; "handle_left_type"; "handle_right_type"].

(** What a log tells about the animation, from the calls the host
    accepted: the empty (the active object read right after the empty was
    added), the parent assignments, the values assigned to [frame_end], the
    rotations and keyframes since the empty exists, the keyframe points the
    host listed (the items of an iteration that follows the read of
    [keyframe_points]) and the style attributes assigned. *)
Record view : Type := mkView {
  awaiting_empty : bool;
  empty : option pyval;
  parents : list (pyval * pyval);
  frame_ends : list pyval;
  motions : list motion;
  awaiting_points : bool;
  points : list pyval;
  styled : list (pyval * string * pyval)
}.

Definition step (s : view) (ev : event) : view :=
  match ev with
  | Called c (Ok v) =>
      match c with
      | Func n _ _ =>
          if String.eqb n "bpy.ops.object.empty_add" then
            mkView true (empty s) (parents s) (frame_ends s) (motions s)
                   (awaiting_points s) (points s) (styled s)
          else s
      | GetAttr _ n =>
          if String.eqb n "active_object" then
            if awaiting_empty s then
              mkView false (Some v) (parents s) (frame_ends s) (motions s)
                     (awaiting_points s) (points s) (styled s)
            else s
          else if String.eqb n "keyframe_points" then
            mkView (awaiting_empty s) (empty s) (parents s) (frame_ends s)
                   (motions s) true (points s) (styled s)
          else s
      | Iter _ =>
          if awaiting_points s then
            mkView (awaiting_empty s) (empty s) (parents s) (frame_ends s)
                   (motions s) false
                   (points s ++ match v with VList l => l | _ => [] end)
                   (styled s)
          else s
      | SetAttr o n x =>
          if String.eqb n "parent" then
            mkView (awaiting_empty s) (empty s) (parents s ++ [(o, x)])
                   (frame_ends s) (motions s) (awaiting_points s) (points s)
                   (styled s)
          else if String.eqb n "frame_end" then
            mkView (awaiting_empty s) (empty s) (parents s)
                   (frame_ends s ++ [x]) (motions s) (awaiting_points s)
                   (points s) (styled s)
          else if String.eqb n "rotation_euler" then
            match empty s with
            | Some _ =>
                mkView (awaiting_empty s) (empty s) (parents s) (frame_ends s)
                       (motions s ++ [Turn o x]) (awaiting_points s)
                       (points s) (styled s)
            | None => s
            end
          else if in_list n style_names then
            mkView (awaiting_empty s) (empty s) (parents s) (frame_ends s)
                   (motions s) (awaiting_points s) (points s)
                   (styled s ++ [(o, n, x)])
          else s
      | Method o n _ kw =>
          if String.eqb n "keyframe_insert" then
            mkView (awaiting_empty s) (empty s) (parents s) (frame_ends s)
                   (motions s ++ [Key o kw]) (awaiting_points s) (points s)
                   (styled s)
          else s
      | _ => s
      end
  | _ => s
  end.

Definition start : view := mkView false None [] [] [] false [] [].

Definition view_of (log : list event) : view := mon step start log.


(** The Euler rotation at the last frame: zero about X and Z, the
    script's [6.283185307] about Y. *)
Definition full_turn_y : pyval := VTuple [VInt 0; VDec 6283185307 9; VInt 0].



End LogoMotion.
(** ** Host failures *)

Module Failure.

(** The host raised on a call that no handler of the script covers. *)
Definition fatal (caught : call -> bool) (ev : event) : bool :=
  match ev with
  | Called c (Raise _) => negb (caught c)
  | _ => false
  end.

(** No fatal failure so far. *)
Definition calm (caught : call -> bool) (log : list event) : bool :=
  forallb (fun ev => negb (fatal caught ev)) log.

(** From a calm log, [m] keeps the log calm, or ends at once in the
    exception the host raised on the last call. *)
Definition fail_fast (caught : call -> bool) {A} (m : M A) : Prop :=
  forall host log, calm caught log = true ->
    match fst (m host log) with
    | Ok _ => calm caught (snd (m host log)) = true
    | Raise e =>
        calm caught (snd (m host log)) = true \/
        exists l c,
          snd (m host log) = l ++ [Called c (Raise e)] /\
          calm caught l = true
    end.

(** The scripts without [try]. *)
Definition no_handler (c : call) : bool := false.

End Failure.

(** ** Variants of the sample host *)

Module Faulty.

(** The sample host, except that the function [name] raises [e]. *)
Definition host (name : string) (e : exn) : host_t :=
  fun log c =>
    match c with
    | Func n _ _ =>
        if String.eqb n name then Raise e else Sim.host Sim.plain log c
    | _ => Sim.host Sim.plain log c
    end.

(** The host [host], except that every attribute [n] reads as [v]. *)
Definition with_attr (n : string) (v : pyval) (host : host_t) : host_t :=
  fun log c =>
    match c with
    | GetAttr _ m => if String.eqb m n then Ok v else host log c
    | _ => host log c
    end.

Definition read_only : exn :=
  mkExn PermissionError "[Errno 13] Permission denied: '/home/jalen/site/public'".

End Faulty.

(** ** The directory of the exported file *)

Module OutputDir.
Import PathSpec.

(** Every directory passed to [os.makedirs] is [public/models] under the
    project root, and there are at least as many such calls as export
    invocations. *)
Definition dir_made (s : view) : Prop :=
  all_under s "public/models" (made s) /\
  (List.length (exported s) <= List.length (made s))%nat.

End OutputDir.

(** ** Vocabulary of the Blender 3.x and 4.x names *)

Module Compat.

(** What a log tells about version-dependent names: the transmission
    inputs looked up and the keyword arguments of the smart UV
    projection. *)
Record view : Type := mkView {
  keys : list string;
  uv : list kwargs
}.

Definition transmission_names : list string :=
  ["Transmission Weight"; "Transmission"].

Definition step (s : view) (ev : event) : view :=
  match ev with
  | Called (GetItem _ (VStr k)) _ =>
      if in_list k transmission_names then mkView (keys s ++ [k]) (uv s)
      else s
  | Called (Func n _ kw) _ =>
      if String.eqb n "bpy.ops.uv.smart_project"
      then mkView (keys s) (uv s ++ [kw])
      else s
  | _ => s
  end.

Definition start : view := mkView [] [].

Definition view_of (log : list event) : view := mon step start log.

(** The host reports one Blender version throughout. *)
Definition stable_version (a b c : Z) (host : host_t) : Prop :=
  forall log,
    host log (GetAttr bpy_app "version") = Ok (VTuple [VInt a; VInt b; VInt c]).

(** The names of one Blender generation. *)
Definition names_of (v4 : bool) (s : view) : Prop :=
  if v4 then
    incl (keys s) ["Transmission Weight"] /\
    incl (uv s) [[("angle_limit", VDec 115192 5); ("island_margin", VDec 2 2)]]
  else
    incl (keys s) ["Transmission"] /\
    incl (uv s) [[("angle", VInt 66); ("margin", VDec 2 2)]].

Definition quiet (ev : event) : bool :=
  match ev with
  | Called (GetItem _ (VStr k)) _ => negb (in_list k transmission_names)
  | Called (Func n _ _) _ => negb (String.eqb n "bpy.ops.uv.smart_project")
  | _ => true
  end.

End Compat.

(** ** Vocabulary of the world setup *)

Module WorldSpec.

(** What a log tells about the world: the answers to reads of an
    attribute [world], the answers of [worlds.new("World")], the values
    assigned to an attribute [world], and the objects whose [use_nodes]
    was assigned after the world was read. *)
Record view : Type := mkView {
  reads : list (result pyval);
  made : list (result pyval);
  set_to : list pyval;
  noded : list pyval
}.

Definition is_world_name (args : list pyval) : bool :=
  match args with
  | [x] => match x with VStr a => String.eqb a "World" | _ => false end
  | _ => false
  end.

Definition step (s : view) (ev : event) : view :=
  match ev with
  | Called (GetAttr _ n) r =>
      if String.eqb n "world"
      then mkView (reads s ++ [r]) (made s) (set_to s) (noded s)
      else s
  | Called (Method _ n args _) r =>
      if String.eqb n "new" && is_world_name args
      then mkView (reads s) (made s ++ [r]) (set_to s) (noded s)
      else s
  | Called (SetAttr o n v) _ =>
      if String.eqb n "world"
      then mkView (reads s) (made s) (set_to s ++ [v]) (noded s)
      else if String.eqb n "use_nodes" then
        match reads s with
        | [] => s
        | _ => mkView (reads s) (made s) (set_to s) (noded s ++ [o])
        end
      else s
  | _ => s
  end.

Definition start : view := mkView [] [] [] [].

Definition view_of (log : list event) : view := mon step start log.

(** A world is made and assigned to the scene only when the scene has
    none; the world that gets nodes is the scene's own, or the new one
    once it is assigned. *)
Definition world_rule (s : view) : Prop :=
  match reads s with
  | [] | [Raise _] => made s = [] /\ set_to s = [] /\ noded s = []
  | [Ok VNone] =>
      match made s with
      | [] | [Raise _] => set_to s = [] /\ noded s = []
      | [Ok w] =>
          incl (set_to s) [w] /\ incl (noded s) [w] /\
          (List.length (noded s) <= List.length (set_to s))%nat
      | _ => False
      end
  | [Ok w] => made s = [] /\ set_to s = [] /\ incl (noded s) [w]
  | _ => False
  end.

Definition quiet (ev : event) : bool :=
  match ev with
  | Called (GetAttr _ n) _ => negb (String.eqb n "world")
  | Called (Method _ n args _) _ => negb (String.eqb n "new" && is_world_name args)
  | Called (SetAttr _ n _) _ => negb (String.eqb n "world")
  | _ => true
  end.

(** Events that say nothing about the world, nor assign [use_nodes]. *)
Definition settled (ev : event) : bool :=
  quiet ev &&
  match ev with
  | Called (SetAttr _ n _) _ => negb (String.eqb n "use_nodes")
  | _ => true
  end.

End WorldSpec.

(** ** Vocabulary of the font choice *)

Module FontSpec.

(** What a log tells about fonts: the items looked up at index 0 and the
    values assigned to an attribute [font]. *)
Record view : Type := mkView {
  picked : list (result pyval);
  fonts_set : list pyval
}.

Definition is_zero (key : pyval) : bool :=
  match key with VInt z => Z.eqb z 0 | _ => false end.

Definition step (s : view) (ev : event) : view :=
  match ev with
  | Called (GetItem _ key) r =>
      if is_zero key then mkView (picked s ++ [r]) (fonts_set s) else s
  | Called (SetAttr _ n v) _ =>
      if String.eqb n "font" then mkView (picked s) (fonts_set s ++ [v]) else s
  | _ => s
  end.

Definition start : view := mkView [] [].

Definition view_of (log : list event) : view := mon step start log.

(** The host has no font loaded: [bpy.data.fonts] is the collection
    [fonts], which is false as a condition. *)
Definition fontless (fonts : nat) (host : host_t) : Prop :=
  (forall log, host log (GetAttr bpy_data "fonts") = Ok (VRef fonts)) /\
  (forall log, host log (Truth (VRef fonts)) = Ok (VBool false)).

Definition quiet (ev : event) : bool :=
  match ev with
  | Called (GetItem _ key) _ => negb (is_zero key)
  | Called (SetAttr _ n _) _ => negb (String.eqb n "font")
  | Called (GetAttr _ n) _ => negb (String.eqb n "fonts")
  | Called (Truth _) _ => false
  | _ => true
  end.

(** The sample host without fonts. *)
Definition bare_host : host_t :=
  fun log c =>
    match c with
    | GetAttr _ n =>
        if String.eqb n "fonts" then Ok (VRef 1) else Sim.host Sim.plain log c
    | Truth _ => Ok (VBool false)
    | _ => Sim.host Sim.plain log c
    end.

End FontSpec.

(** ** Vocabulary of the SVG import *)

Module SvgSpec.

(** What a log tells about the imported curves: the objects whose [type]
    read as ["CURVE"], the objects given [select_set(True)], the values
    assigned to an attribute [active], the number of join invocations,
    the splines the host listed (the items of the iteration that follows
    the read of [splines]) and the bevel attributes assigned. *)
Record view : Type := mkView {
  kept : list pyval;
  selected : list pyval;
  actives : list pyval;
  joins : nat;
  awaiting_splines : bool;
  splines : list pyval;
  beveled : list (pyval * string * pyval)
}.

Definition is_true_arg (args : list pyval) : bool :=
  match args with
  | [x] => match x with VBool b => b | _ => false end
  | _ => false
  end.

Definition step (s : view) (ev : event) : view :=
  match ev with
  | Called (GetAttr o n) r =>
      if String.eqb n "type" then
        match r with
        | Ok t =>
            if eq_str t "CURVE"
            then mkView (kept s ++ [o]) (selected s) (actives s) (joins s)
                        (awaiting_splines s) (splines s) (beveled s)
            else s
        | Raise _ => s
        end
      else if String.eqb n "splines" then
        mkView (kept s) (selected s) (actives s) (joins s) true (splines s)
               (beveled s)
      else s
  | Called (Method o n args _) _ =>
      if String.eqb n "select_set" && is_true_arg args
      then mkView (kept s) (selected s ++ [o]) (actives s) (joins s)
                  (awaiting_splines s) (splines s) (beveled s)
      else s
  | Called (SetAttr o n v) _ =>
      if String.eqb n "active"
      then mkView (kept s) (selected s) (actives s ++ [v]) (joins s)
                  (awaiting_splines s) (splines s) (beveled s)
      else if in_list n ["bevel_depth"; "bevel_resolution"]
      then mkView (kept s) (selected s) (actives s) (joins s)
                  (awaiting_splines s) (splines s) (beveled s ++ [(o, n, v)])
      else s
  | Called (Func n _ _) _ =>
      if String.eqb n "bpy.ops.object.join"
      then mkView (kept s) (selected s) (actives s) (S (joins s))
                  (awaiting_splines s) (splines s) (beveled s)
      else s
  | Called (Iter _) r =>
      if awaiting_splines s then
        mkView (kept s) (selected s) (actives s) (joins s) false
               (splines s ++ match r with Ok (VList l) => l | _ => [] end)
               (beveled s)
      else s
  | _ => s
  end.

Definition start : view := mkView [] [] [] 0 false [] [].

Definition view_of (log : list event) : view := mon step start log.

(** What the script assigns to a spline. *)
Definition bevel (spline : pyval) : list (pyval * string * pyval) :=
  [ (spline, "bevel_depth", VDec 8 2);
    (spline, "bevel_resolution", VInt 4) ].

(** The curves of the import were selected, the first made active, all
    joined once, and every spline of the result beveled. *)
Definition joined (s : view) : Prop :=
  kept s <> [] /\
  selected s = kept s /\
  actives s = firstn 1 (kept s) /\
  joins s = 1 /\
  beveled s = flat_map bevel (splines s).

Definition quiet (ev : event) : bool :=
  match ev with
  | Called (GetAttr _ n) _ => negb (in_list n ["type"; "splines"])
  | Called (Method _ n args _) _ =>
      negb (String.eqb n "select_set" && is_true_arg args)
  | Called (SetAttr _ n _) _ =>
      negb (in_list n ["active"; "bevel_depth"; "bevel_resolution"])
  | Called (Func n _ _) _ => negb (String.eqb n "bpy.ops.object.join")
  | Called (Iter _) _ => false
  | _ => true
  end.

(** States after more curves were kept, selected or beveled. *)
Definition add_kept (s : view) (l : list pyval) : view :=
  mkView (kept s ++ l) (selected s) (actives s) (joins s)
         (awaiting_splines s) (splines s) (beveled s).

Definition add_selected (s : view) (l : list pyval) : view :=
  mkView (kept s) (selected s ++ l) (actives s) (joins s)
         (awaiting_splines s) (splines s) (beveled s).

Definition add_beveled (s : view) (l : list pyval) : view :=
  mkView (kept s) (selected s) (actives s) (joins s)
         (awaiting_splines s) (splines s) (beveled s ++ flat_map bevel l).

End SvgSpec.

(** ** What the render script touches *)

Module VideoFrame.

(** The assignments of the render script, by attribute. *)
Definition assignment_ok (name : string) (v : pyval) : bool :=
  match v with
  | VBool b =>
      if String.eqb name "film_transparent" then b
      else if String.eqb name "use_denoising" then negb b
      else false
  | VInt z =>
      in_list name ["samples"; "taa_render_samples"] && Z.eqb z 64
  | VStr s =>
      if String.eqb name "file_format" then String.eqb s "PNG"
      else if String.eqb name "color_mode" then String.eqb s "RGBA"
      else if String.eqb name "engine"
      then in_list s ["CYCLES"; "BLENDER_EEVEE"]
      else String.eqb name "filepath"
  | _ => false
  end.

(** The render script assigns nothing but these settings, calls no
    method and no function but three of [os] and the render operator. *)
Definition touch_ok (ev : event) : bool :=
  match ev with
  | Called (SetAttr _ n v) _ => assignment_ok n v
  | Called (Method _ _ _ _) _ => false
  | Called (Func n _ _) _ =>
      in_list n ["os.getcwd"; "os.path.abspath"; "os.makedirs";
                 "bpy.ops.render.render"]
  | _ => true
  end.

End VideoFrame.

(** ** Vocabulary of the Cycles settings *)

Module CyclesSpec.

(** Events of the block under [if scene.cycles:]. *)
Definition cycles_setting (ev : event) : bool :=
  match ev with
  | Called (SetAttr _ n _) _ => in_list n ["samples"; "use_denoising"]
  | Called (GetAttr _ n) _ => String.eqb n "view_layers"
  | Called (HasAttr _ _) _ | Called (Iter _) _ => true
  | _ => false
  end.

Definition step (s : list event) (ev : event) : list event :=
  if cycles_setting ev then s ++ [ev] else s.

Definition view_of (log : list event) : list event := mon step [] log.

(** The scene has no Cycles settings. *)
Definition no_cycles (host : host_t) : Prop :=
  forall log o, host log (GetAttr o "cycles") = Ok VNone.

Definition quiet (ev : event) : bool :=
  negb (cycles_setting ev) &&
  match ev with
  | Called (GetAttr _ n) _ => negb (String.eqb n "cycles")
  | _ => true
  end.

End CyclesSpec.

(** ** Vocabulary of the mix factor *)

Module MixSpec.

(** What a log tells about the factor input of the mix shader: the
    answers to ["Fac" in mix.inputs] and the inputs looked up under the
    names [Fac] and [Factor]. *)
Record view : Type := mkView {
  checks : list (result pyval);
  lookups : list string
}.

Definition factor_names : list string := ["Fac"; "Factor"].

Definition step (s : view) (ev : event) : view :=
  match ev with
  | Called (Contains _ (VStr k)) r =>
      if String.eqb k "Fac" then mkView (checks s ++ [r]) (lookups s) else s
  | Called (GetItem _ (VStr k)) _ =>
      if in_list k factor_names then mkView (checks s) (lookups s ++ [k])
      else s
  | _ => s
  end.

Definition start : view := mkView [] [].

Definition view_of (log : list event) : view := mon step start log.

(** The input is looked up under the name the host has. *)
Definition factor_rule (s : view) : Prop :=
  match checks s with
  | [] => lookups s = []
  | [Ok (VBool true)] => incl (lookups s) ["Fac"]
  | [Ok (VBool false)] => incl (lookups s) ["Factor"]
  | [_] => lookups s = []
  | _ => False
  end.

Definition quiet (ev : event) : bool :=
  match ev with
  | Called (Contains _ (VStr k)) _ => negb (String.eqb k "Fac")
  | Called (GetItem _ (VStr k)) _ => negb (in_list k factor_names)
  | _ => true
  end.

End MixSpec.

(** ** Vocabulary of the logo object *)

Module LogoThread.

(** What a log tells about the object the script works on: the active
    object read last before the origin is set (what the geometry step
    returned), and after that the objects whose [location] is assigned,
    that are given [select_set], that are made active and that get a
    parent. *)
Record view : Type := mkView {
  centered : bool;
  geometry : option pyval;
  placed : list pyval;
  chosen : list pyval;
  activated : list pyval;
  children : list pyval
}.

Definition step (s : view) (ev : event) : view :=
  match ev with
  | Called (GetAttr _ n) (Ok v) =>
      if String.eqb n "active_object" && negb (centered s)
      then mkView false (Some v) (placed s) (chosen s) (activated s)
                  (children s)
      else s
  | Called (Func n _ _) _ =>
      if String.eqb n "bpy.ops.object.origin_set"
      then mkView true (geometry s) (placed s) (chosen s) (activated s)
                  (children s)
      else s
  | Called (SetAttr o n v) _ =>
      if centered s then
        if String.eqb n "location"
        then mkView true (geometry s) (placed s ++ [o]) (chosen s)
                    (activated s) (children s)
        else if String.eqb n "active"
        then mkView true (geometry s) (placed s) (chosen s)
                    (activated s ++ [v]) (children s)
        else if String.eqb n "parent"
        then mkView true (geometry s) (placed s) (chosen s) (activated s)
                    (children s ++ [o])
        else s
      else s
  | Called (Method o n _ _) _ =>
      if centered s && String.eqb n "select_set"
      then mkView true (geometry s) (placed s) (chosen s ++ [o])
                  (activated s) (children s)
      else s
  | _ => s
  end.

Definition start : view := mkView false None [] [] [] [].

Definition view_of (log : list event) : view := mon step start log.

(** The object of the geometry step is the one that is placed at the
    origin first, selected and made active for the UV projection, and
    parented to the empty. *)
Definition threaded (s : view) : Prop :=
  exists logo,
    geometry s = Some logo /\
    firstn 1 (placed s) = [logo] /\
    chosen s = [logo] /\
    activated s = [logo] /\
    children s = [logo].

(** Events that the view ignores before the origin is set, and after. *)
Definition quiet (after : bool) (ev : event) : bool :=
  match ev with
  | Called (GetAttr _ n) _ => after || negb (String.eqb n "active_object")
  | Called (Func n _ _) _ => negb (String.eqb n "bpy.ops.object.origin_set")
  | Called (SetAttr _ n _) _ =>
      negb after || negb (in_list n ["location"; "active"; "parent"])
  | Called (Method _ n _ _) _ => negb after || negb (String.eqb n "select_set")
  | _ => true
  end.

End LogoThread.

(** ** Vocabulary of the scene listing *)

Module Listing.

(** What a log tells about the listing of the scene-export script: how
    far the listing is (0 before the camera count is printed, 1 before
    the light count, 2 after), how many objects read as a camera before
    the camera count, how many read as a light between the two counts,
    and the lines printed. *)
Record view : Type := mkView {
  phase : nat;
  cam_hits : nat;
  light_hits : nat;
  lines : list fstring
}.

Definition heading (line : fstring) : string :=
  match line with
  | Lit h :: _ => h
  | _ => ""
  end.

Definition phase_after (p : nat) (line : fstring) : nat :=
  if String.eqb (heading line) "Cameras found: " then 1
  else if String.eqb (heading line) "Lights found: " then 2
  else p.

Definition step (s : view) (ev : event) : view :=
  match ev with
  | Printed line =>
      mkView (phase_after (phase s) line) (cam_hits s) (light_hits s)
             (lines s ++ [line])
  | Called (GetAttr _ n) (Ok t) =>
      if String.eqb n "type" then
        match phase s with
        | 0 => if eq_str t "CAMERA"
               then mkView 0 (S (cam_hits s)) (light_hits s) (lines s)
               else s
        | 1 => if eq_str t "LIGHT"
               then mkView 1 (cam_hits s) (S (light_hits s)) (lines s)
               else s
        | _ => s
        end
      else s
  | _ => s
  end.

Definition start : view := mkView 0 0 0 [].

Definition view_of (log : list event) : view := mon step start log.

Definition count_line (what : string) (n : nat) : fstring :=
  [Lit what; Sub (VInt (Z.of_nat n))].

Definition is_item (line : fstring) : Prop := heading line = "  - ".

(** The counts printed are the numbers of cameras and lights found, and
    each count is followed by as many item lines. *)
Definition listed (s : view) : Prop :=
  exists header cam_lines light_lines tail,
    lines s =
      header ++ [count_line "Cameras found: " (cam_hits s)] ++ cam_lines ++
      [count_line "Lights found: " (light_hits s)] ++ light_lines ++ tail /\
    List.length cam_lines = cam_hits s /\
    List.length light_lines = light_hits s /\
    Forall is_item cam_lines /\ Forall is_item light_lines /\
    List.length header = 3 /\ List.length tail = 3.

Definition quiet (ev : event) : bool :=
  match ev with
  | Printed _ => false
  | Called (GetAttr _ n) _ => negb (String.eqb n "type")
  | _ => true
  end.

(** States after more hits or more item lines. *)
Definition add_cams (s : view) (n : nat) : view :=
  mkView (phase s) (cam_hits s + n) (light_hits s) (lines s).

Definition add_lights (s : view) (n : nat) : view :=
  mkView (phase s) (cam_hits s) (light_hits s + n) (lines s).

Definition add_lines (s : view) (l : list fstring) : view :=
  mkView (phase s) (cam_hits s) (light_hits s) (lines s ++ l).

(** [s'] is [s] with one item line more for each element of [l]. *)
Definition items (l : list pyval) (s s' : view) : Prop :=
  exists new,
    s' = add_lines s new /\ List.length new = List.length l /\
    Forall is_item new.

End Listing.

(** ** Vocabulary of the node links *)

Module Wiring.

(** What a log tells about sockets: the items looked up that the host
    gave, each with its key, and the pairs passed to [links.new]. *)
Record view : Type := mkView {
  lookups : list (pyval * pyval);
  links : list (pyval * pyval)
}.

Definition step (s : view) (ev : event) : view :=
  match ev with
  | Called (GetItem _ key) (Ok v) => mkView (lookups s ++ [(key, v)]) (links s)
  | Called (Method _ n args _) _ =>
      match args with
      | [a; b] =>
          if String.eqb n "new" then mkView (lookups s) (links s ++ [(a, b)])
          else s
      | _ => s
      end
  | _ => s
  end.

Definition start : view := mkView [] [].

Definition view_of (log : list event) : view := mon step start log.

(** The keys of the sockets [setup_scene] looks up, in order. *)
Definition keys (v4 fac : bool) : list pyval :=
  [ VStr "Base Color";
    VStr (if v4 then "Transmission Weight" else "Transmission");
    VStr "Roughness"; VStr "IOR"; VStr "Alpha";
    VStr "Blend";
    VStr "Roughness"; VStr "Color";
    VStr (if fac then "Fac" else "Factor");
    VStr "BSDF"; VInt 1;
    VStr "BSDF"; VInt 2;
    VStr "Facing";
    VStr "Shader"; VStr "Surface";
    VStr "Color"; VStr "Strength";
    VStr "Background"; VStr "Surface" ].

(** The socket of the [i]-th lookup. *)
Definition socket (s : view) (i : nat) : pyval :=
  nth i (map snd (lookups s)) VNone.


Definition quiet (ev : event) : bool :=
  match ev with
  | Called (GetItem _ _) _ => false
  | Called (Method _ n args _) _ =>
      match args with
      | [_; _] => negb (String.eqb n "new")
      | _ => true
      end
  | _ => true
  end.

End Wiring.
(** * Part II: properties of the scripts *)

(** Paths stay folded while scripts are run symbolically. *)
Arguments os_path_join : simpl never.
Arguments os_path_dirname : simpl never.

(** ** Reasoning about runs *)


Lemma wp_ret {A} (a : A) host log Post :
  Post (Ok a) log -> wp (ret a) host log Post.
Proof. exact (fun H => H). Qed.

Lemma wp_raise {A} (e : exn) host log (Post : result A -> _ -> Prop) :
  Post (Raise e) log -> wp (raise_ e) host log Post.
Proof. exact (fun H => H). Qed.

Lemma wp_bind {A B} (m : M A) (k : A -> M B) host log Post :
  wp m host log
     (fun r l => match r with
                 | Ok a => wp (k a) host l Post
                 | Raise e => Post (Raise e) l
                 end) ->
  wp (bind m k) host log Post.
Proof.
  unfold wp, bind. destruct (m host log) as [[a|e] l]; simpl; auto.
Qed.

Lemma wp_ask c host log Post :
  Post (host log c) (log ++ [Called c (host log c)]) ->
  wp (ask c) host log Post.
Proof. exact (fun H => H). Qed.

Lemma wp_print line host log Post :
  Post (Ok tt) (log ++ [Printed line]) -> wp (print line) host log Post.
Proof. exact (fun H => H). Qed.

Lemma wp_try {A} (body : M A) cls handler host log Post :
  wp body host log
     (fun r l => match r with
                 | Ok a => Post (Ok a) l
                 | Raise e => if isinstance e cls
                              then wp (handler e) host l Post
                              else Post (Raise e) l
                 end) ->
  wp (try_except body cls handler) host log Post.
Proof.
  unfold wp, try_except. destruct (body host log) as [[a|e] l]; simpl; auto.
  destruct (isinstance e cls); auto.
Qed.

Lemma wp_mono {A} (m : M A) host log (Post Post' : result A -> _ -> Prop) :
  wp m host log Post -> (forall r l, Post r l -> Post' r l) ->
  wp m host log Post'.
Proof. unfold wp; auto. Qed.

Lemma wp_run {A} (m : M A) host (Post : result A -> _ -> Prop) :
  wp m host [] Post -> Post (fst (run m host)) (snd (run m host)).
Proof. exact (fun H => H). Qed.


Section Emits.
Variable ok : event -> Prop.

Lemma emits_ret {A} (a : A) : emits ok (ret a).
Proof. intros host log; exists []; rewrite app_nil_r; auto. Qed.

Lemma emits_raise {A} (e : exn) : emits ok (@raise_ A e).
Proof. intros host log; exists []; rewrite app_nil_r; auto. Qed.

Lemma emits_bind {A B} (m : M A) (k : A -> M B) :
  emits ok m -> (forall a, emits ok (k a)) -> emits ok (bind m k).
Proof.
  intros Hm Hk host log. unfold bind.
  destruct (Hm host log) as [n1 [E1 F1]].
  destruct (m host log) as [[a|e] l]; simpl in *; subst.
  - destruct (Hk a host (log ++ n1)) as [n2 [E2 F2]].
    exists (n1 ++ n2). rewrite E2, app_assoc. split; auto.
    apply Forall_app; auto.
  - exists n1; auto.
Qed.

Lemma emits_ask c : (forall r, ok (Called c r)) -> emits ok (ask c).
Proof. intros Hc host log. exists [Called c (host log c)]. split; auto. Qed.

Lemma emits_print line : ok (Printed line) -> emits ok (print line).
Proof. intros Hp host log. exists [Printed line]. split; auto. Qed.

Lemma emits_try {A} (body : M A) cls handler :
  emits ok body -> (forall e, emits ok (handler e)) ->
  emits ok (try_except body cls handler).
Proof.
  intros Hb Hh host log. unfold try_except.
  destruct (Hb host log) as [n1 [E1 F1]].
  destruct (body host log) as [[a|e] l]; simpl in *; subst.
  - exists n1; auto.
  - destruct (isinstance e cls).
    + destruct (Hh e host (log ++ n1)) as [n2 [E2 F2]].
      exists (n1 ++ n2). rewrite E2, app_assoc. split; auto.
      apply Forall_app; auto.
    + exists n1; auto.
Qed.

Lemma emits_when b m : emits ok m -> emits ok (when b m).
Proof. destruct b; simpl; auto. intros _. apply emits_ret. Qed.

Lemma emits_for {A} (l : list A) body :
  (forall x, emits ok (body x)) -> emits ok (for_ l body).
Proof.
  intros Hb. induction l; simpl.
  - apply emits_ret.
  - apply emits_bind; auto.
Qed.

Lemma emits_filter_m {A} (p : A -> M bool) (l : list A) :
  (forall x, emits ok (p x)) -> emits ok (filter_m p l).
Proof.
  intros Hp. induction l; simpl.
  - apply emits_ret.
  - apply emits_bind; auto. intros b.
    apply emits_bind; auto. intros rest. apply emits_ret.
Qed.

Lemma emits_as_bool v : emits ok (as_bool v).
Proof. destruct v; simpl; solve [apply emits_ret | apply emits_raise]. Qed.

Lemma emits_as_int v : emits ok (as_int v).
Proof. destruct v; simpl; solve [apply emits_ret | apply emits_raise]. Qed.

Lemma emits_as_str v : emits ok (as_str v).
Proof. destruct v; simpl; solve [apply emits_ret | apply emits_raise]. Qed.

Lemma emits_as_list v : emits ok (as_list v).
Proof. destruct v; simpl; solve [apply emits_ret | apply emits_raise]. Qed.
End Emits.

(** An invariant kept by every allowed event is kept by the whole run. *)
Lemma emits_invariant {A} (ok : event -> Prop) (I : list event -> Prop)
  (m : M A) host log :
  emits ok m ->
  (forall l ev, I l -> ok ev -> I (l ++ [ev])) ->
  I log -> I (snd (m host log)).
Proof.
  intros Hm Hstep HI. destruct (Hm host log) as [new [E F]]. rewrite E.
  clear E. revert log HI. induction F as [|ev new Hev F IH]; intros log HI.
  - rewrite app_nil_r; auto.
  - replace (log ++ ev :: new) with ((log ++ [ev]) ++ new)
      by (rewrite <- app_assoc; reflexivity).
    apply IH. apply Hstep; auto.
Qed.

Create HintDb py_unfold.
#[global] Hint Unfold getattr setattr hasattr getitem contains_ len iter method
  func op py_bool py_sub py_add py_truediv type_error os_getcwd os_path_abspath
  os_path_isfile os_makedirs_exist_ok os_path_getsize script_dir_from_argv
  ExportVideo.get_script_dir ExportVideo.render ExportVideo.on_runtime_error
  : py_unfold.

(** Walks a script and leaves one goal per event it can emit; [tac] closes
    the goals about single events. *)
Ltac emits_walk tac :=
  repeat lazymatch goal with
  | |- emits _ (ret _) => apply emits_ret
  | |- emits _ (raise_ _) => apply emits_raise
  | |- emits _ (as_bool _) => apply emits_as_bool
  | |- emits _ (as_int _) => apply emits_as_int
  | |- emits _ (as_str _) => apply emits_as_str
  | |- emits _ (as_list _) => apply emits_as_list
  | |- emits _ (print _) => apply emits_print; tac
  | |- emits _ (ask _) => apply emits_ask; intro; tac
  | |- emits _ (when _ _) => apply emits_when
  | |- emits _ (for_ _ _) => apply emits_for; intro
  | |- emits _ (filter_m _ _) => apply emits_filter_m; intro
  | |- emits _ (try_except _ _ _) => apply emits_try; [ | intro ]
  | |- emits _ (bind _ _) => apply emits_bind; [ | intro ]
  | |- emits _ (if ?b then _ else _) => destruct b
  | |- emits _ (match ?x with _ => _ end) => destruct x
  | |- emits _ (let _ := _ in _) => cbv zeta
  | |- emits _ _ => progress autounfold with py_unfold
  end.

Lemma assigned_snoc name log ev :
  leaves [name] ev = true -> assigned name (log ++ [ev]) = assigned name log.
Proof.
  unfold assigned. rewrite fold_left_app. simpl.
  destruct ev as [[]|]; simpl; auto.
  destruct r; auto.
  destruct (String.eqb name0 name); simpl; auto; discriminate.
Qed.

Lemma leaves_weaken names names' ev :
  (forall n, in_list n names' = true -> in_list n names = true) ->
  leaves names ev = true -> leaves names' ev = true.
Proof.
  intros Hsub. destruct ev as [[]|]; simpl; auto.
  destruct (in_list name names') eqn:E; auto.
  rewrite (Hsub _ E). auto.
Qed.

(** ** Symbolic execution *)

Ltac norm_log := repeat rewrite <- app_assoc; cbn [app].

Lemma wp_as_int v host log Post :
  (forall z, v = VInt z -> Post (Ok z) log) ->
  (forall e, Post (Raise e) log) ->
  wp (as_int v) host log Post.
Proof. intros Hz He. destruct v; simpl; unfold wp; simpl; auto. Qed.

Lemma wp_as_bool v host log Post :
  (forall b, v = VBool b -> Post (Ok b) log) ->
  (forall e, Post (Raise e) log) ->
  wp (as_bool v) host log Post.
Proof. intros Hz He. destruct v; simpl; unfold wp; simpl; auto. Qed.

Lemma wp_as_str v host log Post :
  (forall s, v = VStr s -> Post (Ok s) log) ->
  (forall e, Post (Raise e) log) ->
  wp (as_str v) host log Post.
Proof. intros Hz He. destruct v; simpl; unfold wp; simpl; auto. Qed.

Lemma wp_as_list v host log Post :
  (forall l, v = VList l -> Post (Ok l) log) ->
  (forall e, Post (Raise e) log) ->
  wp (as_list v) host log Post.
Proof. intros Hz He. destruct v; simpl; unfold wp; simpl; auto. Qed.

(** Runs a script up to its next host call or branch. *)
Ltac wp_go :=
  repeat lazymatch goal with
  | |- wp (bind _ _) _ _ _ => apply wp_bind
  | |- wp (ret _) _ _ _ => apply wp_ret; cbv beta iota
  | |- wp (raise_ _) _ _ _ => apply wp_raise; cbv beta iota
  | |- wp (print _) _ _ _ => apply wp_print; cbv beta iota; norm_log
  | |- wp (try_except _ _ _) _ _ _ => apply wp_try
  | |- wp (getattr _ _) _ _ _ => unfold getattr
  | |- wp (setattr _ _ _) _ _ _ => unfold setattr
  | |- wp (hasattr _ _) _ _ _ => unfold hasattr
  | |- wp (getitem _ _) _ _ _ => unfold getitem
  | |- wp (contains_ _ _) _ _ _ => unfold contains_
  | |- wp (len _) _ _ _ => unfold len
  | |- wp (iter _) _ _ _ => unfold iter
  | |- wp (method _ _ _ _) _ _ _ => unfold method
  | |- wp (func _ _ _) _ _ _ => unfold func
  | |- wp (op _ _) _ _ _ => unfold op
  | |- wp (py_sub _ _) _ _ _ => unfold py_sub
  | |- wp (py_add _ _) _ _ _ => unfold py_add
  | |- wp (py_truediv _ _) _ _ _ => unfold py_truediv
  | |- wp (os_getcwd) _ _ _ => unfold os_getcwd
  | |- wp (os_path_abspath _) _ _ _ => unfold os_path_abspath
  | |- wp (os_path_isfile _) _ _ _ => unfold os_path_isfile
  | |- wp (os_makedirs_exist_ok _) _ _ _ => unfold os_makedirs_exist_ok
  | |- wp (os_path_getsize _) _ _ _ => unfold os_path_getsize
  | |- wp (as_int (VInt _)) _ _ _ => cbn [as_int]
  | |- wp (as_bool (VBool _)) _ _ _ => cbn [as_bool]
  | |- wp (as_str (VStr _)) _ _ _ => cbn [as_str]
  | |- wp (as_list (VList _)) _ _ _ => cbn [as_list]
  | |- wp (let _ := _ in _) _ _ _ => cbv zeta
  end.

(** Leaves a statement that has nothing more to do. *)
Ltac wp_done :=
  repeat lazymatch goal with
  | |- wp (ret _) _ _ _ => apply wp_ret; cbv beta iota
  end.

(** The next host call, split on its answer: the value [v] with the
    equation [Hc], or the exception [e]. *)
Ltac wp_call v e Hc :=
  wp_go;
  lazymatch goal with
  | |- wp (ask ?c) ?host ?log _ =>
      apply wp_ask; destruct (host log c) as [v|e] eqn:Hc;
      cbv beta iota; norm_log; wp_done
  end.

(** The same when the proof does not need the equation. *)
Ltac wp_any v e :=
  wp_go;
  lazymatch goal with
  | |- wp (ask ?c) ?host ?log _ =>
      apply wp_ask; destruct (host log c) as [v|e];
      cbv beta iota; norm_log; wp_done
  end.

(** A coercion of a host answer: the well-typed case and the [TypeError]. *)
Ltac wp_coerce x :=
  wp_go;
  lazymatch goal with
  | |- wp (as_int _) _ _ _ => apply wp_as_int
  | |- wp (as_bool _) _ _ _ => apply wp_as_bool
  | |- wp (as_str _) _ _ _ => apply wp_as_str
  | |- wp (as_list _) _ _ _ => apply wp_as_list
  end;
  [ let Hx := fresh in intros x Hx; try subst; cbv beta iota
  | let e := fresh "e" in intros e; cbv beta iota ].

Lemma wp_emits {A} (ok : event -> Prop) (I : list event -> Prop) (m : M A)
  host log (Post : result A -> list event -> Prop) :
  emits ok m ->
  (forall l ev, I l -> ok ev -> I (l ++ [ev])) ->
  I log ->
  (forall r l, I l -> Post r l) ->
  wp m host log Post.
Proof.
  intros Hm Hstep HI HP. apply HP.
  apply (emits_invariant ok I m host log); auto.
Qed.

(** Where an event of [log ++ [ev]] sits: it is the last one, or it is in
    [log]. *)
Lemma snoc_split {A} (log pre post : list A) (ev x : A) :
  log ++ [ev] = pre ++ x :: post ->
  (pre = log /\ x = ev /\ post = []) \/
  (exists post', post = post' ++ [ev] /\ log = pre ++ x :: post').
Proof.
  intros Heq. destruct post as [|a l _] using rev_ind.
  - apply app_inj_tail in Heq as [-> ->]. left; auto.
  - change (pre ++ x :: l ++ [a]) with (pre ++ (x :: l) ++ [a]) in Heq.
    rewrite app_assoc in Heq. apply app_inj_tail in Heq as [-> ->].
    right. exists l; auto.
Qed.

(** ** The animation-render script *)

Section Video.
Import VideoSpec ExportVideo.

Lemma alpha_ready_snoc log ev :
  alpha_ready log -> leaves alpha_names ev = true -> alpha_ready (log ++ [ev]).
Proof.
  intros (scene & r1 & r2 & i2 & r3 & i3 & H) Hq.
  exists scene, r1, r2, i2, r3, i3. unfold answered in *.
  rewrite !in_app_iff.
  rewrite !assigned_snoc
    by (revert Hq; apply leaves_weaken; simpl; intros n Hn;
        rewrite orb_false_r in Hn; rewrite Hn, ?orb_true_r; reflexivity).
  intuition.
Qed.

Lemma renders_after_alpha_snoc log ev :
  renders_after_alpha log ->
  (is_render ev = true -> alpha_ready log) ->
  renders_after_alpha (log ++ [ev]).
Proof.
  intros Hs Hev pre ev' post Heq Hr.
  destruct (snoc_split _ _ _ _ _ Heq)
    as [[-> [-> ->]] | [post' [-> ->]]]; eauto.
Qed.
Ltac no_render :=
  let pre := fresh "pre" in let ev := fresh "ev" in
  let post := fresh "post" in let Heq := fresh "Heq" in
  let Hr := fresh "Hr" in let Hin := fresh "Hin" in
  intros pre ev post Heq Hr;
  assert (Hin : In ev (pre ++ ev :: post)) by apply in_elt;
  rewrite <- Heq in Hin; simpl in Hin;
  repeat (destruct Hin as [Hin|Hin]; [subst ev; discriminate Hr|]);
  contradiction.

(** C4.  Whatever the host answers, every invocation of the render
    operator comes after the script has set [film_transparent = True],
    [file_format = 'PNG'] and [color_mode = 'RGBA'] on the render
    settings of the scene, and the script assigns none of the three
    again. *)
Theorem alpha_settings_before_every_render host env :
  renders_after_alpha (snd (run (script env) host)).
Proof.
  change (wp (main env) host [] (fun _ l => renders_after_alpha l)).
  unfold main.
  wp_any scene e; [|no_render].
  wp_any name e; [|no_render].
  wp_any fs e; [|no_render].
  wp_any fe e; [|no_render].
  wp_any fe' e; [|no_render].
  wp_any fs' e; [|no_render].
  wp_coerce z1; [|no_render].
  wp_coerce z2; [|no_render].
  wp_any r1 e; [|no_render].
  wp_any u1 e; [|no_render].
  wp_any r2 e; [|no_render].
  wp_any i2 e; [|no_render].
  wp_any u2 e; [|no_render].
  wp_any r3 e; [|no_render].
  wp_any i3 e; [|no_render].
  wp_any u3 e; [|no_render].
  apply (wp_emits (fun ev => leaves alpha_names ev = true)
                  (fun l => alpha_ready l /\ renders_after_alpha l)).
  - emits_walk ltac:(reflexivity).
  - intros l ev [Ha Hs] Hq. split.
    + apply alpha_ready_snoc; auto.
    + apply renders_after_alpha_snoc; auto.
  - split; [|no_render].
    exists scene, r1, r2, i2, r3, i3. unfold answered. simpl.
    repeat split; auto 20.
  - intros r l [_ Hs]. exact Hs.
Qed.
End Video.

(** ** Monitors *)

Section MonitorRules.
Context {S : Type} (step : S -> event -> S) (s0 : S).
Variable H : host_t -> Prop.

Local Abbreviation state_of := (mon step s0).
Local Abbreviation triple := (mtriple step s0 H).

Lemma mon_snoc log ev : state_of (log ++ [ev]) = step (state_of log) ev.
Proof. unfold mon. rewrite fold_left_app. reflexivity. Qed.

Lemma mt_ret {A} (a : A) s (Q : result A -> S -> Prop) :
  Q (Ok a) s -> triple s (ret a) Q.
Proof. intros HQ host log _ <-. exact HQ. Qed.

Lemma mt_raise {A} e s (Q : result A -> S -> Prop) :
  Q (Raise e) s -> triple s (raise_ e) Q.
Proof. intros HQ host log _ <-. exact HQ. Qed.

Lemma mt_bind {A B} (m : M A) (k : A -> M B) s Q :
  triple s m (fun r s' => match r with
                           | Ok a => triple s' (k a) Q
                           | Raise e => Q (Raise e) s'
                           end) ->
  triple s (bind m k) Q.
Proof.
  intros Hm host log Hh Hs. specialize (Hm host log Hh Hs).
  unfold bind. destruct (m host log) as [[a|e] l]; simpl in *; auto.
Qed.

Lemma mt_try {A} (body : M A) cls handler s Q :
  triple s body (fun r s' => match r with
                              | Ok a => Q (Ok a) s'
                              | Raise e =>
                                  if isinstance e cls
                                  then triple s' (handler e) Q
                                  else Q (Raise e) s'
                              end) ->
  triple s (try_except body cls handler) Q.
Proof.
  intros Hm host log Hh Hs. specialize (Hm host log Hh Hs).
  unfold try_except. destruct (body host log) as [[a|e] l]; simpl in *; auto.
  destruct (isinstance e cls); auto.
Qed.

Lemma mt_print line s Q :
  Q (Ok tt) (step s (Printed line)) -> triple s (print line) Q.
Proof. intros HQ host log _ <-. simpl. rewrite mon_snoc. exact HQ. Qed.

(** A call the host may answer in any way. *)
Lemma mt_ask_any c s Q :
  (forall r, Q r (step s (Called c r))) -> triple s (ask c) Q.
Proof. intros HQ host log _ <-. simpl. rewrite mon_snoc. apply HQ. Qed.

(** A call that the host assumption makes succeed with a typed answer. *)
Lemma mt_ask_ok (may_fail : call -> bool) c s Q :
  (forall host, H host -> fails_only may_fail host /\ well_typed host) ->
  may_fail c = false ->
  (forall v, answer_type_ok c v = true -> Q (Ok v) (step s (Called c (Ok v)))) ->
  triple s (ask c) Q.
Proof.
  intros HH Hc HQ host log Hh <-. simpl. rewrite mon_snoc.
  destruct (HH host Hh) as [Hf Ht].
  destruct (Hf log c Hc) as [v Hv]. rewrite Hv. apply HQ. eapply Ht; eauto.
Qed.

Lemma mt_conseq {A} (m : M A) s (Q Q' : result A -> S -> Prop) :
  triple s m Q -> (forall r s', Q r s' -> Q' r s') -> triple s m Q'.
Proof. intros Hm HQ host log Hh Hs. apply HQ, Hm; auto. Qed.

(** A loop whose body succeeds and leaves the state alone. *)
Lemma mt_for_quiet {A} (l : list A) body s :
  (forall x, triple s (body x) (fun r s' => r = Ok tt /\ s' = s)) ->
  triple s (for_ l body) (fun r s' => r = Ok tt /\ s' = s).
Proof.
  intros Hb. induction l as [|x l IH]; simpl.
  - apply mt_ret; auto.
  - apply mt_bind. eapply mt_conseq; [apply Hb|].
    intros r s' [-> ->]. exact IH.
Qed.

(** A block whose events all leave the state alone. *)
Lemma mt_quiet {A} (ok : event -> Prop) (m : M A) s (Q : result A -> S -> Prop) :
  emits ok m ->
  (forall ev, ok ev -> step s ev = s) ->
  (forall r, Q r s) ->
  triple s m Q.
Proof.
  intros Hm Hq HQ host log _ <-.
  replace (state_of (snd (m host log))) with (state_of log); [apply HQ|].
  symmetry.
  apply (emits_invariant ok (fun l => state_of l = state_of log) m host log);
    auto.
  intros l ev Hl Hev. rewrite mon_snoc, Hl. auto.
Qed.

Lemma mt_as_int v s Q :
  (forall z, v = VInt z -> Q (Ok z) s) -> (forall e, Q (Raise e) s) ->
  triple s (as_int v) Q.
Proof. intros. destruct v; simpl; solve [apply mt_ret; auto | apply mt_raise; auto]. Qed.

Lemma mt_as_bool v s Q :
  (forall b, v = VBool b -> Q (Ok b) s) -> (forall e, Q (Raise e) s) ->
  triple s (as_bool v) Q.
Proof. intros. destruct v; simpl; solve [apply mt_ret; auto | apply mt_raise; auto]. Qed.

Lemma mt_as_str v s Q :
  (forall x, v = VStr x -> Q (Ok x) s) -> (forall e, Q (Raise e) s) ->
  triple s (as_str v) Q.
Proof. intros. destruct v; simpl; solve [apply mt_ret; auto | apply mt_raise; auto]. Qed.

Lemma mt_as_list v s Q :
  (forall l, v = VList l -> Q (Ok l) s) -> (forall e, Q (Raise e) s) ->
  triple s (as_list v) Q.
Proof. intros. destruct v; simpl; solve [apply mt_ret; auto | apply mt_raise; auto]. Qed.

Section Quiet.
Variable may_fail : call -> bool.
Hypothesis HH :
  forall host, H host -> fails_only may_fail host /\ well_typed host.
Variable s : S.

Local Abbreviation quietly := (mquiet step s0 H s).

Lemma mq_use {A} (m : M A) (Q : result A -> S -> Prop) :
  quietly m -> (forall a, Q (Ok a) s) -> triple s m Q.
Proof.
  intros Hm HQ. eapply mt_conseq; [apply Hm|].
  intros r s' [[a ->] ->]. apply HQ.
Qed.

Lemma mq_ret {A} (a : A) : quietly (ret a).
Proof. apply mt_ret; eauto. Qed.

Lemma mq_bind {A B} (m : M A) (k : A -> M B) :
  quietly m -> (forall a, quietly (k a)) -> quietly (bind m k).
Proof.
  intros Hm Hk. apply mt_bind. eapply mt_conseq; [apply Hm|].
  intros r s' [[a ->] ->]. apply Hk.
Qed.

Lemma mq_ask_then {A} c (k : pyval -> M A) :
  may_fail c = false ->
  (forall v, step s (Called c (Ok v)) = s) ->
  (forall v, answer_type_ok c v = true -> quietly (k v)) ->
  quietly (bind (ask c) k).
Proof.
  intros Hc Hq Hk. apply mt_bind.
  eapply mt_ask_ok; [exact HH | exact Hc | ].
  intros v Hv. rewrite Hq. apply Hk; auto.
Qed.

Lemma mq_ask c :
  may_fail c = false ->
  (forall v, step s (Called c (Ok v)) = s) ->
  quietly (ask c).
Proof.
  intros Hc Hq. eapply mt_ask_ok; [exact HH | exact Hc | ].
  intros v Hv. rewrite Hq. eauto.
Qed.

Lemma mq_when b m : quietly m -> quietly (when b m).
Proof. destruct b; simpl; auto. intros _. apply mq_ret. Qed.

Lemma mq_for {A} (l : list A) body :
  (forall x, quietly (body x)) -> quietly (for_ l body).
Proof.
  intros Hb. induction l; simpl; [apply mq_ret|].
  apply mq_bind; auto.
Qed.

Lemma mq_filter_m {A} (p : A -> M bool) (l : list A) :
  (forall x, quietly (p x)) -> quietly (filter_m p l).
Proof.
  intros Hp. induction l; simpl; [apply mq_ret|].
  apply mq_bind; auto. intros b. apply mq_bind; auto.
  intros rest. apply mq_ret.
Qed.

Lemma mq_as_bool v : is_bool v = true -> quietly (as_bool v).
Proof. destruct v; try discriminate. intros _. apply mq_ret. Qed.

Lemma mq_as_int v : is_int v = true -> quietly (as_int v).
Proof. destruct v; try discriminate. intros _. apply mq_ret. Qed.

Lemma mq_as_str v : is_str v = true -> quietly (as_str v).
Proof. destruct v; try discriminate. intros _. apply mq_ret. Qed.

Lemma mq_as_list v : is_list v = true -> quietly (as_list v).
Proof. destruct v; try discriminate. intros _. apply mq_ret. Qed.

Lemma mq_py_bool v :
  (forall o, may_fail (Truth o) = false) ->
  (forall o r, step s (Called (Truth o) r) = s) ->
  quietly (py_bool v).
Proof.
  intros Hc Hq.
  destruct v; simpl; try apply mq_ret;
    (apply mq_ask_then; auto; intros v Hv; apply mq_as_bool; exact Hv).
Qed.
End Quiet.

Lemma mt_run {A} (m : M A) host (Q : result A -> S -> Prop) :
  H host -> triple s0 m Q ->
  Q (fst (run m host)) (state_of (snd (run m host))).
Proof. intros Hh Hm. apply Hm; auto. Qed.
End MonitorRules.

(** Computes the monitor state of the goal. *)
Ltac mt_state :=
  lazymatch goal with
  | |- mtriple ?st ?s0 ?H ?s ?m ?Q =>
      let s' := eval cbn in s in change (mtriple st s0 H s' m Q)
  | |- _ => idtac
  end.

(** Succeeds on a value whose constructor is known. *)
Ltac known_shape v :=
  lazymatch v with
  | VNone => idtac | VBool _ => idtac | VInt _ => idtac | VDec _ _ => idtac
  | VRatio _ _ => idtac | VStr _ => idtac | VTuple _ => idtac
  | VList _ => idtac | VRef _ => idtac | VGlobal _ => idtac
  end.

(** Runs a script up to its next host call or branch, on monitor states. *)
Ltac mt_go :=
  repeat lazymatch goal with
  | |- mtriple _ _ _ _ (bind _ _) _ => apply mt_bind
  | |- mtriple _ _ _ _ (ret _) _ => apply mt_ret; cbv beta iota
  | |- mtriple _ _ _ _ (raise_ _) _ => apply mt_raise; cbv beta iota
  | |- mtriple _ _ _ _ (print _) _ => apply mt_print; cbv beta iota; mt_state
  | |- mtriple _ _ _ _ (try_except _ _ _) _ => apply mt_try
  | |- mtriple _ _ _ _ (getattr _ _) _ => unfold getattr
  | |- mtriple _ _ _ _ (setattr _ _ _) _ => unfold setattr
  | |- mtriple _ _ _ _ (hasattr _ _) _ => unfold hasattr
  | |- mtriple _ _ _ _ (getitem _ _) _ => unfold getitem
  | |- mtriple _ _ _ _ (contains_ _ _) _ => unfold contains_
  | |- mtriple _ _ _ _ (len _) _ => unfold len
  | |- mtriple _ _ _ _ (iter _) _ => unfold iter
  | |- mtriple _ _ _ _ (method _ _ _ _) _ => unfold method
  | |- mtriple _ _ _ _ (func _ _ _) _ => unfold func
  | |- mtriple _ _ _ _ (op _ _) _ => unfold op
  | |- mtriple _ _ _ _ (py_sub _ _) _ => unfold py_sub
  | |- mtriple _ _ _ _ (py_add _ _) _ => unfold py_add
  | |- mtriple _ _ _ _ (py_truediv _ _) _ => unfold py_truediv
  | |- mtriple _ _ _ _ (type_error _) _ => unfold type_error
  | |- mtriple _ _ _ _ (os_getcwd) _ => unfold os_getcwd
  | |- mtriple _ _ _ _ (os_path_abspath _) _ => unfold os_path_abspath
  | |- mtriple _ _ _ _ (os_path_isfile _) _ => unfold os_path_isfile
  | |- mtriple _ _ _ _ (os_makedirs_exist_ok _) _ => unfold os_makedirs_exist_ok
  | |- mtriple _ _ _ _ (os_path_getsize _) _ => unfold os_path_getsize
  | |- mtriple _ _ _ _ (as_int ?v) _ => known_shape v; cbn [as_int]
  | |- mtriple _ _ _ _ (as_bool ?v) _ => known_shape v; cbn [as_bool]
  | |- mtriple _ _ _ _ (as_str ?v) _ => known_shape v; cbn [as_str]
  | |- mtriple _ _ _ _ (as_list ?v) _ => known_shape v; cbn [as_list]
  | |- mtriple _ _ _ _ (when true _) _ => cbn [when]
  | |- mtriple _ _ _ _ (when false _) _ => cbn [when]
  | |- mtriple _ _ _ _ (if true then _ else _) _ => cbv iota
  | |- mtriple _ _ _ _ (if false then _ else _) _ => cbv iota
  | |- mtriple _ _ _ _ (let _ := _ in _) _ => cbv zeta
  end.

(** The next host call with an arbitrary answer [v] or exception [e]. *)
Ltac mt_any v e :=
  mt_go;
  lazymatch goal with
  | |- mtriple _ _ _ _ (ask _) _ =>
      apply mt_ask_any; intros [v|e]; cbv beta iota; mt_state; mt_go
  end.

(** The same, stopping right after the call. *)
Ltac mt_any_stay v e :=
  mt_go;
  lazymatch goal with
  | |- mtriple _ _ _ _ (ask _) _ =>
      apply mt_ask_any; intros [v|e]; cbv beta iota; mt_state;
      repeat lazymatch goal with
      | |- mtriple _ _ _ _ (ret _) _ => apply mt_ret; cbv beta iota
      end
  end.

(** Splits on the value a script branches on. *)
Ltac mt_branch :=
  lazymatch goal with
  | |- mtriple _ _ _ _ (if ?b then _ else _) _ => destruct b
  | |- mtriple _ _ _ _ (match ?x with _ => _ end) _ => destruct x
  end.

(** Two branches that make the same call with different keyword arguments
    are one call. *)
Ltac merge_calls :=
  lazymatch goal with
  | |- context [if ?b then bind (ask (Func ?n ?a ?k1)) ?r
                else bind (ask (Func ?n ?a ?k2)) ?r] =>
      replace (if b then bind (ask (Func n a k1)) r
               else bind (ask (Func n a k2)) r)
        with (bind (ask (Func n a (if b then k1 else k2))) r)
        by (destruct b; reflexivity)
  end.

(** Uses the type of an answer and forgets the hypothesis. *)
Ltac use_type v Hv :=
  lazymatch type of Hv with
  | true = true => clear Hv
  | is_bool v = true => destruct v; try discriminate Hv; clear Hv
  | is_int v = true => destruct v; try discriminate Hv; clear Hv
  | is_str v = true => destruct v; try discriminate Hv; clear Hv
  | is_list v = true => destruct v; try discriminate Hv; clear Hv
  | _ => idtac
  end.

(** The next host call under an assumption that makes it succeed. *)
Ltac mt_ok v Hv :=
  mt_go;
  lazymatch goal with
  | |- mtriple _ _ _ _ (ask _) _ =>
      eapply mt_ask_ok;
      [ intros ? Hh; exact Hh
      | reflexivity
      | intros v Hv; cbn in Hv; use_type v Hv; cbv beta iota; mt_state;
        mt_go ]
  end.

(** A coercion of an arbitrary answer, on monitor states. *)
Ltac mt_coerce x :=
  mt_go;
  lazymatch goal with
  | |- mtriple _ _ _ _ (as_int _) _ => apply mt_as_int
  | |- mtriple _ _ _ _ (as_bool _) _ => apply mt_as_bool
  | |- mtriple _ _ _ _ (as_str _) _ => apply mt_as_str
  | |- mtriple _ _ _ _ (as_list _) _ => apply mt_as_list
  end;
  [ let Hx := fresh in intros x Hx; try subst; cbv beta iota; mt_go
  | let e := fresh "e" in intros e; cbv beta iota ].

(** The same unfoldings for typed walks, which keep the version test
    folded. *)
Create HintDb py_calm.
#[global] Hint Unfold getattr setattr hasattr getitem contains_ len iter method func op
  py_bool py_sub py_add py_truediv type_error os_getcwd os_path_abspath
  os_path_isfile os_makedirs_exist_ok os_path_getsize
  script_dir_from_argv ExportVideo.get_script_dir ExportVideo.render
  ExportVideo.on_runtime_error ExportScene.get_script_dir
  ExportScene.objects_of_type GlassLogo.convert_to_mesh
  GlassLogo.set_input GlassLogo.link_output GlassLogo.input_of
  GlassLogo.choose_logo GlassLogo.create_text_logo
  GlassLogo.create_from_svg GlassLogo.setup_scene
  GlassLogo.add_rotation_animation GlassLogo.finish GlassLogo.main
  GlassLogo.script ExportScene.main ExportScene.script ExportVideo.main
  ExportVideo.script
  : py_calm.

Lemma as_ints_typed l :
  forallb is_int l = true -> exists zs, GlassLogo.as_ints l = Some zs.
Proof.
  induction l as [|v l IH]; simpl; [eauto|].
  destruct v; simpl; try discriminate. intros Hl.
  destruct (IH Hl) as [zs ->]. eauto.
Qed.

(** The version test succeeds on a well-typed host. *)
Lemma mq_version {S : Type} (step : S -> event -> S) (s0 : S)
  (H : host_t -> Prop) (may_fail : call -> bool) (s : S) :
  (forall host, H host -> fails_only may_fail host /\ well_typed host) ->
  may_fail (GetAttr bpy_app "version") = false ->
  (forall v, step s (Called (GetAttr bpy_app "version") (Ok v)) = s) ->
  mquiet step s0 H s GlassLogo.version_at_least_4.
Proof.
  intros HH Hc Hq. unfold GlassLogo.version_at_least_4, getattr.
  eapply mq_ask_then; eauto.
  intros v Hv. cbn in Hv. destruct v; try discriminate.
  destruct (as_ints_typed l Hv) as [zs ->]. eapply mq_ret.
Qed.

(** Walks a block that must return normally without moving the monitor;
    [tac] closes the side conditions on single calls. *)
Ltac quiet_walk tac :=
  repeat lazymatch goal with
  | |- mquiet _ _ _ _ (ret _) => eapply mq_ret
  | |- mquiet _ _ _ _ GlassLogo.version_at_least_4 =>
      eapply mq_version; [ intros ? Hh; exact Hh | tac | tac ]
  | |- mquiet _ _ _ _ (py_bool _) =>
      eapply mq_py_bool; [ intros ? Hh; exact Hh | tac | tac ]
  | |- mquiet _ _ _ _ (as_bool _) => eapply mq_as_bool; tac
  | |- mquiet _ _ _ _ (as_int _) => eapply mq_as_int; tac
  | |- mquiet _ _ _ _ (as_str _) => eapply mq_as_str; tac
  | |- mquiet _ _ _ _ (as_list _) => eapply mq_as_list; tac
  | |- mquiet _ _ _ _ (when _ _) => eapply mq_when
  | |- mquiet _ _ _ _ (for_ _ _) => eapply mq_for; intro
  | |- mquiet _ _ _ _ (filter_m _ _) => eapply mq_filter_m; intro
  | |- mquiet _ _ _ _ (bind (ask _) _) =>
      eapply mq_ask_then;
      [ intros ? Hh; exact Hh | tac | tac
      | let v := fresh "v" in let Hv := fresh "Hv" in
        intros v Hv; cbn in Hv ]
  | |- mquiet _ _ _ _ (ask _) =>
      eapply mq_ask; [ intros ? Hh; exact Hh | tac | tac ]
  | |- mquiet _ _ _ _ (bind _ _) => eapply mq_bind; [ | intro ]
  | |- mquiet _ _ _ _ (if ?b then _ else _) => destruct b
  | |- mquiet _ _ _ _ (match ?x with _ => _ end) => destruct x
  | |- mquiet _ _ _ _ (let _ := _ in _) => cbv zeta
  | |- mquiet _ _ _ _ _ => progress autounfold with py_calm
  end.

(** Side conditions of [quiet_walk]: they compute, or are the typing
    hypothesis at hand. *)
Ltac mq_side :=
  first [ reflexivity | intros; reflexivity | assumption
        | discriminate ].

(** Enters the next statement without opening it. *)
Ltac mt_stmt :=
  repeat lazymatch goal with
  | |- mtriple _ _ _ _ (ret _) _ => apply mt_ret; cbv beta iota
  | |- mtriple _ _ _ _ (as_int ?v) _ => known_shape v; cbn [as_int]
  | |- mtriple _ _ _ _ (as_bool ?v) _ => known_shape v; cbn [as_bool]
  | |- mtriple _ _ _ _ (as_str ?v) _ => known_shape v; cbn [as_str]
  | |- mtriple _ _ _ _ (as_list ?v) _ => known_shape v; cbn [as_list]
  | |- mtriple _ _ _ _ (print _) _ => apply mt_print; cbv beta iota; mt_state
  | |- mtriple _ _ _ _ (let _ := _ in _) _ => cbv zeta
  | |- mtriple _ _ _ _ (if true then _ else _) _ => cbv iota
  | |- mtriple _ _ _ _ (if false then _ else _) _ => cbv iota
  end;
  lazymatch goal with
  | |- mtriple _ _ _ _ (bind _ _) _ => apply mt_bind
  | |- _ => idtac
  end.

(** The next host call under an assumption that makes it succeed,
    stopping right after the call. *)
Ltac mt_ok_stay :=
  let v := fresh "v" in let Hv := fresh "Hv" in
  mt_go;
  lazymatch goal with
  | |- mtriple _ _ _ _ (ask _) _ =>
      eapply mt_ask_ok;
      [ intros ? Hh; exact Hh
      | reflexivity
      | intros v Hv; cbn in Hv; use_type v Hv; cbv beta iota; mt_state;
        mt_stmt ]
  end.

(** Skips a statement that returns normally and leaves the monitor alone;
    a call and the coercion of its answer stay together, so that the type
    of the answer is at hand. *)
Ltac mt_calm :=
  mt_stmt;
  eapply mq_use;
  [ solve [quiet_walk mq_side]
  | let x := fresh "x" in intros x; cbv beta iota ].

(** Runs straight-line code on a host that makes every call succeed. *)
Ltac coop_run := repeat first [ mt_calm | mt_ok_stay ].

(** ** The render protocol of the animation script *)

Section VideoCases.
Import VideoTrace ExportVideo.

Lemma quiet_step s ev : quiet ev = true -> step s ev = s.
Proof.
  destruct ev as [[]|]; simpl; auto; try discriminate.
  - destruct (String.eqb name "engine"); [discriminate|]. destruct r; auto.
  - destruct (String.eqb name "bpy.ops.render.render"); [discriminate|auto].
Qed.

Ltac mt_skip :=
  mt_go;
  apply (mt_quiet _ _ _ (fun ev => quiet ev = true));
  [ emits_walk ltac:(reflexivity)
  | intros ev Hev; apply quiet_step; exact Hev
  | let x := fresh "x" in let e := fresh "e" in
    intros [x|e]; cbv beta iota ].

(** Result and render invocations of the script, for any host. *)
Lemma protocol_any env :
  mtriple step start (fun _ => True) start (main env) protocol.
Proof.
  unfold main, start.
  mt_any scene e; [|reflexivity].
  mt_any name e; [|reflexivity].
  mt_any fs e; [|reflexivity].
  mt_any fe e; [|reflexivity].
  mt_any fe' e; [|reflexivity].
  mt_any fs' e; [|reflexivity].
  mt_coerce z1; [|reflexivity].
  mt_coerce z2; [|reflexivity].
  mt_any r1 e; [|reflexivity].
  mt_any u1 e; [|reflexivity].
  mt_any r2 e; [|reflexivity].
  mt_any i2 e; [|reflexivity].
  mt_any u2 e; [|reflexivity].
  mt_any r3 e; [|reflexivity].
  mt_any i3 e; [|reflexivity].
  mt_any u3 e; [|reflexivity].
  mt_any r4 e; [|reflexivity].
  mt_any u4 e; [|reflexivity].
  mt_any c e; [|reflexivity].
  mt_skip; [|reflexivity].
  mt_skip; [|reflexivity].
  mt_skip; [|reflexivity].
  mt_any u5 e; [|reflexivity].
  mt_any r5 e; [|reflexivity].
  mt_any u6 e; [|reflexivity].
  mt_any r6 e; [|reflexivity].
  mt_any eng e; [|reflexivity].
  unfold render.
  mt_any ok1 e1.
  - cbn. split; reflexivity.
  - destruct (isinstance e1 RuntimeError) eqn:Hcls.
    2:{ unfold protocol, retry_cond; cbn. rewrite Hcls. split; reflexivity. }
    unfold on_runtime_error.
    destruct (str_contains denoiser_tag (str_exn e1)) eqn:Htag.
    + assert (Hretry : retry_cond e1 = true)
        by (unfold retry_cond; rewrite Hcls, Htag; reflexivity).
      mt_any r7 e;
        [|unfold protocol; cbn; rewrite Hretry; split; reflexivity].
      mt_any u7 e;
        [|unfold protocol; cbn; rewrite Hretry; split; reflexivity].
      mt_any ee e;
        [|unfold protocol; cbn; rewrite Hretry; split; reflexivity].
      mt_skip;
        [|unfold protocol; cbn; rewrite Hretry; split; reflexivity].
      mt_skip;
        [|unfold protocol; cbn; rewrite Hretry; split; reflexivity].
      unfold render.
      mt_any ok2 e2.
      * unfold protocol; cbn. auto.
      * destruct (isinstance e2 Exception) eqn:Hcls2.
        -- mt_go. unfold protocol; cbn. rewrite Hcls2. auto.
        -- unfold protocol; cbn. rewrite Hcls2. auto.
    + mt_go. unfold protocol, retry_cond; cbn. rewrite Hcls, Htag.
      split; reflexivity.
Qed.

End VideoCases.

(** ** The sample hosts meet the host assumptions *)


Lemma sim_well_typed sc : well_typed (Sim.host sc).
Proof.
  intros log c v. unfold Sim.host, answer_type_ok.
  destruct c; try (intros [= <-]; reflexivity).
  - (* GetAttr *)
    intros [= <-]. unfold Sim.get_attr.
    destruct (String.eqb name "selected_objects") eqn:Hsel.
    + apply String.eqb_eq in Hsel. subst. reflexivity.
    + destruct (in_list name ["frame_start"; "frame_end"]).
      * destruct (String.eqb name "frame_start"); reflexivity.
      * destruct (String.eqb name "version"); reflexivity.
  - (* Iter *)
    intros [= <-]. destruct o; reflexivity.
  - (* Func *)
    destruct (String.eqb name "bpy.ops.render.render") eqn:Hr.
    + apply String.eqb_eq in Hr. subst. reflexivity.
    + intros [= <-]. unfold Sim.os_call.
      destruct (in_list name ["os.getcwd"; "os.path.abspath"]).
      * destruct args as [|[] [|]]; reflexivity.
      * destruct (String.eqb name "os.path.isfile").
        -- destruct args as [|[] [|]]; reflexivity.
        -- destruct (String.eqb name "os.path.getsize"); reflexivity.
Qed.


Section VideoClaims.
Import VideoSpec VideoTrace ExportVideo.




(** C9.  When the retry with Eevee raises an exception (an instance of
    [Exception], which is what the inner handler catches), the script
    prints the failure and a hint, and returns normally: the status is
    zero.  This holds for every host. *)
Theorem retry_failure_is_swallowed host env eng1 e1 eng2 e2 :
  let r := fst (run (script env) host) in
  let s := view_of (snd (run (script env) host)) in
  invocations s = [(eng1, Raise e1); (eng2, Raise e2)] ->
  isinstance e2 Exception = true ->
  r = Ok tt /\ exit_status r = 0%Z /\ printed_since s = failure_report e2.
Proof.
  intros r s Hinv Hcls.
  assert (Hp : protocol r s)
    by exact (mt_run step start _ (script env) host protocol I
                     (protocol_any env)).
  unfold protocol in Hp. rewrite Hinv, Hcls in Hp.
  destruct Hp as (_ & _ & _ & -> & Hpr). auto.
Qed.

Lemma retry_failure_is_swallowed_witness :
  let out := run (script Sim.env) (Sim.host Sim.denoiser_then_oom) in
  fst out = Ok tt /\ exit_status (fst out) = 0%Z /\
  printed_since (view_of (snd out)) = failure_report Sim.out_of_memory.
Proof.
  apply (retry_failure_is_swallowed
           (Sim.host Sim.denoiser_then_oom) Sim.env
           cycles Sim.denoiser_failure eevee Sim.out_of_memory).
  - vm_compute. reflexivity.
  - reflexivity.
Defined.

Lemma alpha_settings_witness :
  alpha_ready
    (firstn 48 (snd (run (script Sim.env) (Sim.host Sim.plain)))).
Proof.
  apply (alpha_settings_before_every_render (Sim.host Sim.plain) Sim.env
           _ (Called (Func "bpy.ops.render.render" [] render_kw)
                     (Ok Sim.finished))
           (skipn 49 (snd (run (script Sim.env) (Sim.host Sim.plain))))).
  - vm_compute. reflexivity.
  - reflexivity.
Defined.
End VideoClaims.
#[global] Hint Unfold ExportScene.get_script_dir ExportScene.objects_of_type
  GlassLogo.convert_to_mesh GlassLogo.set_input GlassLogo.link_output
  GlassLogo.input_of GlassLogo.version_at_least_4 GlassLogo.choose_logo
  GlassLogo.create_text_logo GlassLogo.create_from_svg GlassLogo.setup_scene
  GlassLogo.add_rotation_animation GlassLogo.finish GlassLogo.main
  GlassLogo.script ExportScene.main ExportScene.script ExportVideo.main
  ExportVideo.script : py_unfold.

Lemma emits_forall {A} (ok : event -> Prop) (m : M A) host :
  emits ok m -> Forall ok (snd (run m host)).
Proof. intros Hm. destruct (Hm host []) as [new [E F]]. unfold run. rewrite E. exact F. Qed.

(** ** The scene-export script *)

Section SceneClaims.
Import SceneSpec ExportScene.

Lemma export_scene_harmless env : emits (fun ev => harmless ev = true) (script env).
Proof. unfold script, main. emits_walk ltac:(reflexivity). Qed.

Lemma reading_step s ev :
  at_stage s = Reading -> reading ev = true -> step s ev = s.
Proof.
  intros Hs Hev.
  assert (Hw : while_reading s = s) by (unfold while_reading; rewrite Hs; reflexivity).
  destruct ev as [c r|line]; simpl; [|rewrite Hs; reflexivity].
  destruct c; simpl in *; auto; try discriminate.
  destruct (String.eqb name export_op) eqn:E1.
  { apply String.eqb_eq in E1; subst; discriminate. }
  destruct (String.eqb name "os.path.getsize") eqn:E2.
  { apply String.eqb_eq in E2; subst; discriminate. }
  rewrite Hev. exact Hw.
Qed.

Ltac sc_skip :=
  mt_go;
  apply (mt_quiet _ _ _ (fun ev => reading ev = true));
  [ emits_walk ltac:(reflexivity)
  | intros ev Hev; apply reading_step; [reflexivity | exact Hev]
  | let x := fresh "x" in let e := fresh "e" in
    intros [x|e]; cbv beta iota; [|split; discriminate] ].

(** The course of a run of the export script, for any host. *)
Lemma export_scene_course env :
  mtriple step start (fun _ => True) start (main env)
    (fun r s => at_stage s <> Violated /\ (r = Ok tt -> reported s)).
Proof.
  unfold main, start.
  do 13 sc_skip.
  mt_any done e; [|split; discriminate].
  mt_any size e; [|split; discriminate].
  mt_coerce z; [|split; discriminate].
  split; [discriminate|]. intros _.
  eexists _, z. cbn. repeat split.
Qed.

(** C7.  The scene-export script only reads: every event of a run is a
    read of live state, a print, an [os] call or the export operator, so
    any notion of scene state that such events leave alone is the same
    after the run as before.  The reads come first, then the export
    operator, then the size query and the report; a run that returns
    normally has exported once and printed the size of that file. *)
Theorem export_scene_reads_then_exports_then_reports host env :
  let out := run (script env) host in
  mutations (snd out) = [] /\
  (forall (Scene : Type) (scene_of : list event -> Scene),
      (forall log ev, harmless ev = true ->
                      scene_of (log ++ [ev]) = scene_of log) ->
      scene_of (snd out) = scene_of []) /\
  at_stage (view_of (snd out)) <> Violated /\
  (fst out = Ok tt -> reported (view_of (snd out))).
Proof.
  intros out. split; [|split].
  - pose proof (emits_forall _ _ host (export_scene_harmless env)) as F.
    fold out in F. unfold mutations.
    induction F as [|ev l Hev F IH]; simpl; auto.
    rewrite Hev. exact IH.
  - intros Scene scene_of Hframe.
    apply (emits_invariant (fun ev => harmless ev = true)
             (fun l => scene_of l = scene_of []) (script env) host []);
      auto using export_scene_harmless.
    intros l ev Hl Hev. rewrite Hframe; auto.
  - exact (mt_run step start _ (script env) host _ I (export_scene_course env)).
Qed.

Lemma export_scene_witness :
  let out := run (script Sim.env) (Sim.host Sim.plain) in
  mutations (snd out) = mutations [] /\
  reported (view_of (snd out)).
Proof.
  pose proof (export_scene_reads_then_exports_then_reports
                (Sim.host Sim.plain) Sim.env) as (_ & Hf & _ & Hr).
  split.
  - apply (Hf _ mutations). intros log ev Hev. unfold mutations.
    rewrite filter_app. simpl. rewrite Hev. apply app_nil_r.
  - apply Hr. vm_compute. reflexivity.
Defined.
End SceneClaims.
(** [dir()] never lists [__file__]: the lookup goes through [sys.argv]. *)
Ltac no_dunder_file :=
  lazymatch goal with
  | |- context [if in_list ?a ?b then ?x else ?y] =>
      change (if in_list a b then x else y) with y
  end.

(** ** Output paths *)

Lemma eqb_app_nonempty x y : y <> "" -> String.eqb (x ++ y) "" = false.
Proof.
  intros Hy. destruct x; simpl; auto.
  destruct y; [contradiction|reflexivity].
Qed.

Lemma endswith_app_slash x y :
  y <> "" -> endswith (x ++ y) "/" = endswith y "/".
Proof.
  intros Hy. induction x as [|c x IH]; simpl; auto.
  rewrite IH, (eqb_app_nonempty x y Hy).
  destruct (Ascii.eqb c "/"); reflexivity.
Qed.

Lemma join1_relative path b :
  prefix "/" b = false -> join1 path b = PathSpec.under path b.
Proof.
  intros Hb. unfold join1, PathSpec.under, PathSpec.joint. rewrite Hb.
  destruct (String.eqb path "" || endswith path "/"); reflexivity.
Qed.

Lemma append_assoc (a b c : string) : ((a ++ b) ++ c = a ++ (b ++ c))%string.
Proof. induction a; simpl; congruence. Qed.

(** Joining a relative path component by component is appending it. *)
Lemma join_under_3 root a b c :
  prefix "/" a = false -> prefix "/" b = false -> prefix "/" c = false ->
  a <> "" -> endswith a "/" = false ->
  b <> "" -> endswith b "/" = false ->
  os_path_join root [a; b; c] = PathSpec.under root (a ++ "/" ++ b ++ "/" ++ c).
Proof.
  intros Ha Hb Hc Na Ea Nb Eb. unfold os_path_join. simpl.
  rewrite (join1_relative root a Ha).
  assert (J1 : PathSpec.joint (PathSpec.under root a) = "/").
  { unfold PathSpec.joint, PathSpec.under at 1 2.
    rewrite <- append_assoc, eqb_app_nonempty, endswith_app_slash, Ea by auto.
    reflexivity. }
  rewrite (join1_relative _ b Hb). unfold PathSpec.under at 1. rewrite J1.
  assert (J2 : PathSpec.joint (PathSpec.under root a ++ "/" ++ b) = "/").
  { unfold PathSpec.joint.
    rewrite <- append_assoc, eqb_app_nonempty, endswith_app_slash, Eb by auto.
    reflexivity. }
  rewrite (join1_relative _ c Hc). unfold PathSpec.under at 1. rewrite J2.
  unfold PathSpec.under. rewrite !append_assoc. reflexivity.
Qed.


Lemma glb_path root name :
  prefix "/" name = false ->
  os_path_join root ["public"; "models"; name]
  = PathSpec.under root ("public/models/" ++ name).
Proof.
  intros Hn. rewrite join_under_3; auto; try reflexivity; discriminate.
Qed.



Section Paths.
Import PathSpec.

Lemma path_quiet_step s ev : quiet ev = true -> step s ev = s.
Proof.
  destruct ev as [[]|]; simpl; auto.
  - destruct (String.eqb name "filepath"); [discriminate|auto].
  - destruct (String.eqb name "os.getcwd"); [discriminate|].
    destruct (String.eqb name "os.path.abspath"); [discriminate|].
    destruct (String.eqb name "os.makedirs"); [discriminate|].
    destruct (String.eqb name "bpy.ops.export_scene.gltf"); [discriminate|].
    auto.
Qed.



(** The shared script-directory lookup leaves the directory it returns in
    the view. *)
Lemma script_dir_known env s (Q : result string -> view -> Prop) :
  (forall d, Q (Ok d) (mkView (Some d) (made s) (exported s) (assigned_paths s))) ->
  (forall e sd, Q (Raise e) (mkView sd (made s) (exported s) (assigned_paths s))) ->
  mtriple step start (fun _ => True) s (script_dir_from_argv env) Q.
Proof.
  intros Hok Hraise. destruct s as [sd0 m0 x0 a0]. cbn in *.
  unfold script_dir_from_argv.
  mt_any cwd e; [|apply Hraise].
  destruct cwd; mt_go; try solve [apply Hraise].
  destruct (find (fun arg => endswith arg ".py") (sys_argv env)) as [arg|].
  - mt_any p e; [|apply Hraise].
    destruct p; mt_go; try solve [apply Hraise]. apply Hok.
  - mt_go. apply Hok.
Qed.






End Paths.
(** ** The order of the logo pipeline *)

Section Stages.
Import LogoStages.

Lemma stage_quiet_step s ev : quiet ev = true -> step s ev = s.
Proof. unfold quiet, step. destruct (stage_of ev); [discriminate|auto]. Qed.

Definition stage_post (r : result unit) (s : list stage) : Prop :=
  in_order code_rank s = true /\ (r = Ok tt -> compress s = pipeline).

Ltac aborted := first [ split; [reflexivity | discriminate] ].

Ltac stage_skip :=
  mt_go;
  apply (mt_quiet _ _ _ (fun ev => quiet ev = true));
  [ solve [emits_walk ltac:(reflexivity)]
  | intros ev Hev; apply stage_quiet_step; exact Hev
  | let x := fresh "x" in let e := fresh "e" in
    intros [x|e]; cbv beta iota; [|solve [aborted]] ].

Ltac stage_call :=
  let v := fresh "v" in let e := fresh "e" in
  mt_any_stay v e; [|solve [aborted]].

Ltac stage_run := repeat first [ stage_skip | stage_call ].

Definition built (r : result pyval) (s : list stage) : Prop :=
  match r with
  | Ok _ => s = [Geometry; Convert]
  | Raise e => stage_post (Raise e) s
  end.

Lemma text_stages :
  mtriple step [] (fun _ => True) [] GlassLogo.create_text_logo built.
Proof.
  unfold GlassLogo.create_text_logo, GlassLogo.convert_to_mesh.
  stage_run. reflexivity.
Qed.

Lemma svg_stages a :
  mtriple step [] (fun _ => True) [] (GlassLogo.create_from_svg a) built.
Proof.
  unfold GlassLogo.create_from_svg, GlassLogo.convert_to_mesh.
  stage_run.
  mt_branch; [mt_go; aborted|].
  stage_run. reflexivity.
Qed.

Lemma finish_stages env logo :
  mtriple step [] (fun _ => True) [Geometry; Convert]
    (GlassLogo.finish env logo) stage_post.
Proof.
  unfold GlassLogo.finish, GlassLogo.setup_scene,
    GlassLogo.add_rotation_animation.
  no_dunder_file.
  stage_run.
  merge_calls.
  stage_run.
  mt_go. mt_branch; stage_run;
    (mt_go; split; [reflexivity | intros _; reflexivity]).
Qed.

(** The pipeline steps of a run of the logo script, for any host. *)
Lemma logo_stages env :
  mtriple step [] (fun _ => True) [] (GlassLogo.script env) stage_post.
Proof.
  unfold GlassLogo.script, GlassLogo.main, GlassLogo.choose_logo.
  stage_run. mt_go.
  assert (Hfinish : forall r s',
    built r s' ->
    match r with
    | Ok a => mtriple step [] (fun _ => True) s' (GlassLogo.finish env a) stage_post
    | Raise e => stage_post (Raise e) s'
    end).
  { intros [a|e] s' Hb; simpl in Hb; [subst; apply finish_stages | exact Hb]. }
  mt_branch.
  - mt_branch; [mt_go; aborted|].
    eapply mt_conseq; [apply svg_stages | exact Hfinish].
  - eapply mt_conseq; [apply text_stages | exact Hfinish].
Qed.

(** C3 (amended).  In every run of the logo script the pipeline steps come
    in this order: geometry (text or SVG import), conversion to mesh,
    camera, lights and material nodes, UV unwrap, world nodes, parenting,
    keyframes, export.  A run that returns normally went through all
    eight, the export operator last. *)
Theorem logo_pipeline_order host env :
  let out := run (GlassLogo.script env) host in
  in_order code_rank (stages (snd out)) = true /\
  (fst out = Ok tt -> compress (stages (snd out)) = pipeline).
Proof.
  exact (mt_run step [] _ (GlassLogo.script env) host stage_post I
           (logo_stages env)).
Qed.

Lemma logo_pipeline_witness :
  compress (stages (snd (run (GlassLogo.script Sim.env) (Sim.host Sim.plain))))
  = pipeline.
Proof.
  apply (logo_pipeline_order (Sim.host Sim.plain) Sim.env).
  vm_compute. reflexivity.
Defined.

(** C3, as stated, fails: on the sample host the UV unwrap comes before the
    world nodes are made, so the steps are not in the order that puts the
    world nodes with camera, lights and material before the unwrap. *)
Lemma world_nodes_after_unwrap :
  let l := stages (snd (run (GlassLogo.script Sim.env) (Sim.host Sim.plain))) in
  fst (run (GlassLogo.script Sim.env) (Sim.host Sim.plain)) = Ok tt /\
  compress l =
    [Geometry; Convert; Furnish; Unwrap; World; Parent; Keyframe; Export] /\
  in_order claimed_rank l = false.
Proof. vm_compute. repeat split. Qed.
End Stages.
(** ** The input of the logo script *)

Section Input.
Import LogoInput.

Lemma input_quiet_step s ev : quiet ev = true -> step s ev = s.
Proof.
  destruct ev as [[]|]; simpl; auto; try discriminate.
  - destruct (String.eqb name "type"); [discriminate|]. destruct r; auto.
  - destruct (String.eqb name "body"); [discriminate|auto].
  - destruct (String.eqb name "os.path.isfile"); [discriminate|].
    destruct (String.eqb name "bpy.ops.import_curve.svg"); [discriminate|].
    destruct (String.eqb name "bpy.ops.object.text_add"); [discriminate|].
    auto.
Qed.

(** Events that leave queries and imports alone. *)
Definition no_choice (ev : event) : bool :=
  negb (is_func "os.path.isfile" ev) && negb (is_import ev).

Lemma no_choice_step s ev :
  no_choice ev = true ->
  asked (step s ev) = asked s /\ imports (step s ev) = imports s.
Proof.
  unfold no_choice, is_import, is_func.
  destruct ev as [[]|]; simpl; auto.
  - destruct r; auto. destruct (String.eqb name "type" && eq_str a "CURVE"); auto.
  - destruct (String.eqb name "body"); auto.
  - destruct (String.eqb name "os.path.isfile"); [discriminate|].
    destruct (String.eqb name "bpy.ops.import_curve.svg"); [discriminate|].
    destruct (String.eqb name "bpy.ops.object.text_add"); auto.
Qed.

(** A block without queries and imports keeps the rule. *)
Lemma keeps_import_rule {A} (m : M A) s (Q : result A -> view -> Prop) :
  emits (fun ev => no_choice ev = true) m ->
  (forall r s', asked s' = asked s -> imports s' = imports s -> Q r s') ->
  mtriple step start (fun _ => True) s m Q.
Proof.
  intros Hm HQ host log _ Hs.
  assert (Hinv : asked (mon step start (snd (m host log))) = asked s /\
                 imports (mon step start (snd (m host log))) = imports s).
  { apply (emits_invariant (fun ev => no_choice ev = true)
             (fun l => asked (mon step start l) = asked s /\
                       imports (mon step start l) = imports s) m host log);
      auto.
    - intros l ev [Ha Hi] Hev. rewrite mon_snoc.
      destruct (no_choice_step (mon step start l) ev Hev) as [-> ->]. auto.
    - rewrite Hs. auto. }
  destruct Hinv. apply HQ; auto.
Qed.

Ltac rewrite_asked :=
  repeat match goal with
         | H : asked ?s = _ |- context [asked ?s] => rewrite H; clear H
         end.

Ltac rewrite_imports :=
  repeat match goal with
         | H : imports ?s = _ |- context [imports ?s] => rewrite H; clear H
         end.

Ltac rule_settled a rest :=
  unfold import_rule; rewrite_asked; cbn;
  first [ rewrite_imports; reflexivity
        | exists a, rest; rewrite_imports; cbn; repeat split; auto ].

Ltac rule_kept a rest :=
  apply keeps_import_rule;
  [ solve [emits_walk ltac:(reflexivity)]
  | let r := fresh "r" in let s' := fresh "s'" in
    intros r s' ? ?;
    try (destruct r; [|solve [rule_settled a rest]]) ].

(** Queries and imports of a run of the logo script, for any host. *)
Lemma logo_import_rule env :
  mtriple step start (fun _ => True) start (GlassLogo.script env)
    (fun _ s => import_rule (GlassLogo.script_args (sys_argv env)) s).
Proof.
  unfold GlassLogo.script, GlassLogo.main, GlassLogo.choose_logo.
  destruct (GlassLogo.script_args (sys_argv env)) as [|a rest] eqn:Hargs.
  - apply keeps_import_rule.
    + emits_walk ltac:(reflexivity).
    + intros r s' Ha Hi. unfold import_rule. rewrite Ha, Hi. reflexivity.
  - destruct (endswith a ".svg") eqn:Hsvg.
    + mt_any done e; [|reflexivity].
      mt_any_stay ans e; [|rule_settled a rest].
      destruct ans as [|[|]| | | | | | | |]; mt_go;
        try solve [rule_settled a rest].
      * unfold GlassLogo.create_from_svg at 1.
        mt_any_stay u e; [|rule_settled a rest].
        rule_kept a rest. rule_kept a rest. rule_settled a rest.
      * rule_kept a rest. rule_kept a rest. rule_settled a rest.
    + mt_any done e; [|reflexivity].
      rule_kept a rest. rule_kept a rest. rule_settled a rest.
Qed.
End Input.
Section InputClaims.
Import LogoInput.

Lemma import_free_step s ev :
  is_import ev = false -> imports (step s ev) = imports s.
Proof.
  unfold is_import, is_func. destruct ev as [[]|]; simpl; auto.
  - destruct r; auto. destruct (String.eqb name "type" && eq_str a "CURVE"); auto.
  - destruct (String.eqb name "body"); auto.
  - intros Hn. destruct (String.eqb name "os.path.isfile"); auto.
    rewrite Hn. destruct (String.eqb name "bpy.ops.object.text_add"); auto.
Qed.

Lemma never_imports {A} (m : M A) host :
  emits (fun ev => is_import ev = false) m ->
  imports (view_of (snd (run m host))) = [].
Proof.
  intros Hm.
  apply (emits_invariant (fun ev => is_import ev = false)
           (fun l => imports (view_of l) = []) m host []); auto.
  intros l ev Hl Hev. unfold view_of. rewrite mon_snoc.
  rewrite import_free_step; auto.
Qed.

(** C5 (amended).  In the logo script the SVG import is invoked at most
    once, and only with the first argument after the first ["--"], and
    only when that argument ends in [.svg] and the host confirmed it as an
    existing file: then it is the path passed to the import, otherwise
    nothing is imported.  The other two scripts never invoke the SVG
    import. *)
Theorem svg_argument_rule host env :
  import_rule (GlassLogo.script_args (sys_argv env))
              (view_of (snd (run (GlassLogo.script env) host))) /\
  imports (view_of (snd (run (ExportScene.script env) host))) = [] /\
  imports (view_of (snd (run (ExportVideo.script env) host))) = [].
Proof.
  split; [|split].
  - exact (mt_run step start _ (GlassLogo.script env) host _ I
             (logo_import_rule env)).
  - apply never_imports. unfold ExportScene.script, ExportScene.main.
    emits_walk ltac:(reflexivity).
  - apply never_imports.
    unfold ExportVideo.script, ExportVideo.main, ExportVideo.render,
      ExportVideo.on_runtime_error.
    emits_walk ltac:(reflexivity).
Qed.
End InputClaims.
(** ** The logo script on a host that raises on nothing *)

Section Course.
Import LogoInput.

Definition with_curves (s : view) (n : nat) : view :=
  mkView (asked s) (imports s) (curves s + n) (texts s) (bodies s) (printed s).

(** The selection filter counts the curves it keeps. *)
Lemma filter_curves l : forall s,
  mtriple step start obliging s
    (filter_m (fun o => t <- getattr o "type" ;; ret (eq_str t "CURVE")) l)
    (fun r s' => exists objs, r = Ok objs /\ s' = with_curves s (List.length objs)).
Proof.
  induction l as [|o l IH]; intros s; simpl.
  - apply mt_ret. exists []. split; auto. unfold with_curves.
    rewrite Nat.add_0_r. destruct s; reflexivity.
  - destruct s as [a i c t b p].
    mt_ok ty Hty. 
    destruct (eq_str ty "CURVE") eqn:Hc; cbn [andb].
    + eapply mt_conseq; [apply IH|]. intros r s' [objs [-> ->]].
      mt_go. exists (o :: objs). split; auto. unfold with_curves. cbn.
      rewrite Nat.add_succ_r. reflexivity.
    + eapply mt_conseq; [apply IH|]. intros r s' [objs [-> ->]].
      mt_go. exists objs. split; auto.
Qed.

Definition closing (s : view) (out_path : string) : view :=
  mkView (asked s) (imports s) (curves s) (texts s) (bodies s)
         (printed s ++
          [ [Lit "Done. JALEN EDUSEI glass logo with rotation is ready."];
            [Lit "Exported GLB: "; Sub (VStr out_path)] ]).

(** On an obliging host the rest of [main] returns normally and prints
    the two closing lines. *)
Lemma finish_course env logo s :
  mtriple step start obliging s (GlassLogo.finish env logo)
    (fun r s' => r = Ok tt /\ exists out_path, s' = closing s out_path).
Proof.
  destruct s as [a i c t b p].
  unfold GlassLogo.finish. no_dunder_file.
  coop_run. mt_go. split; [reflexivity|].
  eexists. unfold closing. cbn. rewrite <- app_assoc. reflexivity.
Qed.

Definition texted (s : view) : view :=
  mkView (asked s) (imports s) (curves s) (S (texts s))
         (bodies s ++ [VStr GlassLogo.logo_text]) (printed s).

Lemma text_course s :
  mtriple step start obliging s GlassLogo.create_text_logo
    (fun r s' => (exists logo, r = Ok logo) /\ s' = texted s).
Proof.
  destruct s as [a i c t b p].
  unfold GlassLogo.create_text_logo.
  coop_run. split; [eauto | reflexivity].
Qed.

Definition imported (s : view) (a : string) : view :=
  mkView (asked s) (imports s ++ [VStr a]) (curves s) (texts s) (bodies s)
         (printed s).

Lemma svg_course a s :
  mtriple step start obliging s (GlassLogo.create_from_svg a)
    (fun r s' =>
       exists n, s' = with_curves (imported s a) n /\
                 match n with
                 | 0 => r = Raise (GlassLogo.no_curves a)
                 | S _ => exists logo, r = Ok logo
                 end).
Proof.
  destruct s as [ak i c t b p].
  unfold GlassLogo.create_from_svg.
  mt_ok_stay. mt_calm. mt_calm.
  mt_stmt. eapply mt_conseq; [apply filter_curves|].
  intros r s' [objs [-> ->]]. destruct objs as [|first objs].
  - mt_go. exists 0. split; reflexivity.
  - coop_run. exists (S (List.length objs)). split; [reflexivity | eauto].
Qed.

(** The course of a run of the logo script on an obliging host. *)
Lemma logo_course env :
  mtriple step start obliging start (GlassLogo.script env)
    (course (GlassLogo.script_args (sys_argv env))).
Proof.
  assert (Htext : forall s (Q : result unit -> view -> Prop),
    (forall out_path, Q (Ok tt) (closing (texted s) out_path)) ->
    mtriple step start obliging s GlassLogo.create_text_logo
      (fun r s' => match r with
                   | Ok logo =>
                       mtriple step start obliging s'
                               (GlassLogo.finish env logo) Q
                   | Raise e => Q (Raise e) s'
                   end)).
  { intros s Q HQ. eapply mt_conseq; [apply text_course|].
    intros r s' [[logo ->] ->].
    eapply mt_conseq; [apply finish_course|].
    intros r s' [-> [out_path ->]]. apply HQ. }
  unfold GlassLogo.script, GlassLogo.main, GlassLogo.choose_logo, start.
  destruct (GlassLogo.script_args (sys_argv env)) as [|a rest].
  - mt_calm. mt_go. apply Htext. intros out_path. cbn.
    unfold fell_back_to_text. cbn. eauto 10.
  - unfold course. destruct (endswith a ".svg") eqn:Hsvg.
    + mt_calm. mt_ok_stay. destruct b.
      * mt_go. eapply mt_conseq; [apply svg_course|].
        intros r s' [n [-> Hn]]. destruct n as [|n].
        -- subst r. cbn. repeat split.
        -- destruct Hn as [logo ->].
           eapply mt_conseq; [apply finish_course|].
           intros r s' [-> [out_path ->]]. cbn. repeat split.
      * mt_go. apply Htext. intros out_path. cbn.
        unfold fell_back_to_text. cbn. eauto 10.
    + mt_calm. mt_go. apply Htext. intros out_path. cbn.
      unfold fell_back_to_text. cbn. eauto 10.
Qed.

Lemma sim_obliging sc :
  Sim.render_answers sc = [] -> obliging (Sim.host sc).
Proof.
  intros Hr. split; [|apply sim_well_typed].
  intros log c _. destruct c; simpl; eauto.
  destruct (String.eqb name "bpy.ops.render.render"); eauto.
  rewrite Hr. destruct (List.length (filter VideoSpec.is_render log));
    simpl; eauto.
Qed.

(** C8.  On a host that raises on nothing: when the first argument after
    ["--"] does not end in [.svg], or the host answers that it is not a
    file, the script imports nothing, builds the text logo with the body
    "JALEN\nEDUSEI", returns normally and prints nothing but its two
    closing lines. *)
Theorem text_fallback host env a rest :
  let out := run (GlassLogo.script env) host in
  let s := view_of (snd out) in
  obliging host ->
  GlassLogo.script_args (sys_argv env) = a :: rest ->
  endswith a ".svg" = false \/ asked s = [(VStr a, Ok (VBool false))] ->
  fell_back_to_text (fst out) s.
Proof.
  intros out s Hh Hargs Hno.
  assert (Hc : course (GlassLogo.script_args (sys_argv env)) (fst out) s)
    by exact (mt_run step start _ (GlassLogo.script env) host _ Hh
                     (logo_course env)).
  rewrite Hargs in Hc. unfold course in Hc.
  destruct (endswith a ".svg").
  - destruct Hno as [Hno|Hno]; [discriminate|].
    rewrite Hno in Hc. apply Hc.
  - apply Hc.
Qed.

Lemma text_fallback_witness :
  fell_back_to_text
    (fst (run (GlassLogo.script Sim.missing_env) (Sim.host Sim.two_curves)))
    (view_of (snd (run (GlassLogo.script Sim.missing_env)
                       (Sim.host Sim.two_curves)))).
Proof.
  apply (text_fallback (Sim.host Sim.two_curves) Sim.missing_env
                       "/home/jalen/missing.svg" []).
  - apply sim_obliging. reflexivity.
  - reflexivity.
  - right. vm_compute. reflexivity.
Defined.

(** C2 (amended).  On a host that raises on nothing, with a first argument
    that ends in [.svg]: when the host answers that it is not a file,
    nothing is imported and the script returns normally; the fatal
    condition is another one: when the file exists and the import leaves
    no selected object of type CURVE, the script raises
    [FileNotFoundError("No curves in SVG: <path>")], which reaches the
    host before anything is printed. *)
Theorem missing_svg_is_not_fatal host env a rest :
  let out := run (GlassLogo.script env) host in
  let s := view_of (snd out) in
  obliging host ->
  GlassLogo.script_args (sys_argv env) = a :: rest ->
  endswith a ".svg" = true ->
  (asked s = [(VStr a, Ok (VBool false))] ->
   fst out = Ok tt /\ exit_status (fst out) = 0%Z /\ imports s = []) /\
  (asked s = [(VStr a, Ok (VBool true))] -> curves s = 0 ->
   fst out = Raise (GlassLogo.no_curves a) /\
   exit_status (fst out) = 1%Z /\ printed s = []).
Proof.
  intros out s Hh Hargs Hsvg.
  assert (Hc : course (GlassLogo.script_args (sys_argv env)) (fst out) s)
    by exact (mt_run step start _ (GlassLogo.script env) host _ Hh
                     (logo_course env)).
  rewrite Hargs in Hc. unfold course in Hc. rewrite Hsvg in Hc.
  split.
  - intros Ha. rewrite Ha in Hc. destruct Hc as (_ & Hr & Hi & _).
    rewrite Hr. auto.
  - intros Ha Hn. rewrite Ha, Hn in Hc.
    destruct Hc as (_ & _ & _ & _ & Hr & Hp). rewrite Hr. auto.
Qed.

Lemma missing_svg_witness :
  fst (run (GlassLogo.script Sim.svg_env) (Sim.host Sim.no_curve))
  = Raise (GlassLogo.no_curves "/home/jalen/logo.svg") /\
  exit_status (fst (run (GlassLogo.script Sim.svg_env) (Sim.host Sim.no_curve)))
  = 1%Z /\
  printed (view_of (snd (run (GlassLogo.script Sim.svg_env)
                             (Sim.host Sim.no_curve)))) = [].
Proof.
  apply (missing_svg_is_not_fatal (Sim.host Sim.no_curve) Sim.svg_env
                                  "/home/jalen/logo.svg" []).
  - apply sim_obliging. reflexivity.
  - reflexivity.
  - reflexivity.
  - vm_compute. reflexivity.
  - vm_compute. reflexivity.
Defined.

(** C2, as stated, fails: the argument names an SVG file that does not
    exist, and the script returns normally with status zero. *)
Lemma missing_svg_goes_unreported :
  let out := run (GlassLogo.script Sim.missing_env) (Sim.host Sim.two_curves) in
  GlassLogo.script_args (sys_argv Sim.missing_env) = ["/home/jalen/missing.svg"] /\
  in_list "/home/jalen/missing.svg" (Sim.files Sim.two_curves) = false /\
  fst out = Ok tt /\ exit_status (fst out) = 0%Z.
Proof. vm_compute. repeat split. Qed.

(** C5, as stated, fails: the argument after the separator names an
    existing file, and no SVG import is invoked with it. *)
Lemma argument_not_passed_to_import :
  let out := run (GlassLogo.script Sim.png_env) (Sim.host Sim.two_curves) in
  GlassLogo.script_args (sys_argv Sim.png_env) = ["/home/jalen/logo.png"] /\
  in_list "/home/jalen/logo.png" (Sim.files Sim.two_curves) = true /\
  fst out = Ok tt /\ imports (view_of (snd out)) = [].
Proof. vm_compute. repeat split. Qed.

(** The rule at work: an existing SVG is the one path imported. *)
Example svg_is_imported :
  imports (view_of (snd (run (GlassLogo.script Sim.svg_env)
                             (Sim.host Sim.two_curves))))
  = [VStr "/home/jalen/logo.svg"].
Proof. vm_compute. reflexivity. Qed.
End Course.
(** ** The rotation animation *)

Section Motion.
Import LogoMotion.

End Motion.

Section MotionProof.
Import LogoMotion.

Local Abbreviation mtr := (mtriple step start (fun _ => True)).




Ltac gave_up := first [ intros Hgo; discriminate Hgo ].







End MotionProof.

Section FullTurn.
Import Reals Lra.

(** The literal [6.283185307] of the script is two pi to nine decimal
    places. *)
Lemma full_turn_is_two_pi :
  LogoMotion.full_turn_y = VTuple [VInt 0; GlassLogo.two_pi; VInt 0] /\
  GlassLogo.two_pi = VDec 6283185307 9 /\
  (Rabs (Decimal.dec_value 6283185307 9 - 2 * PI) < / 10 ^ 9)%R.
Proof.
  split; [reflexivity|]. split; [reflexivity|].
  unfold Decimal.dec_value.
  pose proof (PI_2_3_7_ineq 5) as [Hlo Hhi].
  unfold sum_f_R0, tg_alt, PI_2_3_7_tg, Ratan_seq in Hlo, Hhi.
  simpl in Hlo, Hhi.
  apply Rabs_def1; simpl; lra.
Qed.
End FullTurn.
(** ** Script arguments *)

Section Arguments.

Lemma after_first_skips x pre rest :
  in_list x pre = false -> after_first x (pre ++ x :: rest) = rest.
Proof.
  induction pre as [|y pre IH]; simpl.
  - intros _. now rewrite String.eqb_refl.
  - rewrite String.eqb_sym. destruct (String.eqb y x); simpl; [discriminate|].
    exact IH.
Qed.

Lemma in_list_app x l l' : in_list x (l ++ l') = in_list x l || in_list x l'.
Proof. unfold in_list. apply existsb_app. Qed.

(** X1.  [argv[argv.index("--") + 1:] if "--" in argv else []]: without a
    separator there are no script arguments; with one, they are what
    follows the first separator, later separators included. *)
Theorem script_args_follow_first_separator argv :
  (in_list "--" argv = false -> GlassLogo.script_args argv = []) /\
  (forall pre rest,
     argv = pre ++ "--" :: rest -> in_list "--" pre = false ->
     GlassLogo.script_args argv = rest).
Proof.
  unfold GlassLogo.script_args. split.
  - intros ->. reflexivity.
  - intros pre rest -> Hpre.
    rewrite in_list_app, Hpre. simpl.
    now apply after_first_skips.
Qed.

Lemma script_args_witness :
  GlassLogo.script_args
    ["blender"; "--background"; "--python"; "logo.py"; "--"; "a.svg"; "--"; "b"]
  = ["a.svg"; "--"; "b"].
Proof.
  apply (proj2 (script_args_follow_first_separator _)
               ["blender"; "--background"; "--python"; "logo.py"]
               ["a.svg"; "--"; "b"]); reflexivity.
Defined.

Lemma arg_after_separator_is_first_arg argv :
  GlassLogo.arg_after_separator argv = hd_error (GlassLogo.script_args argv).
Proof.
  unfold GlassLogo.script_args.
  induction argv as [|a argv IH]; [reflexivity|].
  change (in_list "--" (a :: argv))
    with (String.eqb "--" a || in_list "--" argv).
  cbn [GlassLogo.arg_after_separator after_first].
  rewrite (String.eqb_sym "--" a).
  destruct (String.eqb a "--"); cbn [orb].
  - destruct argv; reflexivity.
  - exact IH.
Qed.

(** X2.  [get_script_dir()] of the logo script: when the script has
    arguments, it returns the directory part of the first one (the SVG
    path) and asks the host nothing. *)
Theorem logo_script_dir_is_argument_dir env a rest host log :
  GlassLogo.script_args (sys_argv env) = a :: rest ->
  GlassLogo.get_script_dir env host log = (Ok (os_path_dirname a), log).
Proof.
  intros Hargs. unfold GlassLogo.get_script_dir.
  rewrite arg_after_separator_is_first_arg, Hargs. reflexivity.
Qed.

Lemma logo_script_dir_witness :
  GlassLogo.get_script_dir Sim.svg_env (Sim.host Sim.plain) []
  = (Ok "/home/jalen", []).
Proof.
  apply (logo_script_dir_is_argument_dir Sim.svg_env "/home/jalen/logo.svg" []).
  reflexivity.
Defined.


(** X3.  [get_script_dir()] of the logo script without script arguments
    (no separator, or a separator as the last word): it reads
    [bpy.data.filepath]; an empty path gives the empty string, and a
    non-empty one is read once more and its directory part returned. *)
Theorem logo_script_dir_falls_back_to_blend_file env host :
  let q := GetAttr bpy_data "filepath" in
  GlassLogo.script_args (sys_argv env) = [] ->
  (host [] q = Ok (VStr "") ->
   run (GlassLogo.get_script_dir env) host
   = (Ok "", [Called q (Ok (VStr ""))])) /\
  (forall p p',
     p <> "" ->
     host [] q = Ok (VStr p) ->
     host [Called q (Ok (VStr p))] q = Ok (VStr p') ->
     run (GlassLogo.get_script_dir env) host
     = (Ok (os_path_dirname p'),
        [Called q (Ok (VStr p)); Called q (Ok (VStr p'))])).
Proof.
  intros q Hargs. unfold run, GlassLogo.get_script_dir.
  rewrite arg_after_separator_is_first_arg, Hargs. cbn [hd_error].
  split.
  - intros H0. unfold bind, getattr, ask. cbn [app]. fold q. rewrite H0.
    reflexivity.
  - intros p p' Hp H0 H1. unfold bind, getattr, ask. cbn [app]. fold q.
    rewrite H0. cbn. apply String.eqb_neq in Hp. rewrite Hp. cbn.
    fold q. rewrite H1. reflexivity.
Qed.

Lemma logo_script_dir_fallback_witness :
  run (GlassLogo.get_script_dir (mkEnv ["blender"; "--python"; "logo.py"; "--"] ""))
      (fun _ _ => Ok (VStr "/home/jalen/site/logo.blend"))
  = (Ok "/home/jalen/site",
     [Called (GetAttr bpy_data "filepath") (Ok (VStr "/home/jalen/site/logo.blend"));
      Called (GetAttr bpy_data "filepath") (Ok (VStr "/home/jalen/site/logo.blend"))]).
Proof.
  apply (proj2 (logo_script_dir_falls_back_to_blend_file
                  (mkEnv ["blender"; "--python"; "logo.py"; "--"] "")
                  (fun _ _ => Ok (VStr "/home/jalen/site/logo.blend"))
                  eq_refl)
               "/home/jalen/site/logo.blend" "/home/jalen/site/logo.blend").
  - discriminate.
  - reflexivity.
  - reflexivity.
Defined.

End Arguments.

(** ** The version test *)

Section Version.

Lemma tuple_ge_major a b c :
  (0 <= b)%Z -> (0 <= c)%Z ->
  GlassLogo.tuple_ge [a; b; c] [4; 0; 0]%Z = (4 <=? a)%Z.
Proof.
  intros Hb Hc. cbn.
  destruct (Z.ltb_spec 4 a), (Z.ltb_spec a 4), (Z.leb_spec 4 a); try lia; auto.
  destruct (Z.ltb_spec 0 b), (Z.ltb_spec b 0); try lia; auto.
  destruct (Z.ltb_spec 0 c), (Z.ltb_spec c 0); try lia; auto.
Qed.

(** X4.  [bpy.app.version >= (4, 0, 0)]: on a version triple with
    non-negative minor and patch numbers the test is [major >= 4]. *)
Theorem version_test_is_major_test host log a b c :
  host log (GetAttr bpy_app "version") = Ok (VTuple [VInt a; VInt b; VInt c]) ->
  (0 <= b)%Z -> (0 <= c)%Z ->
  fst (GlassLogo.version_at_least_4 host log) = Ok (4 <=? a)%Z.
Proof.
  intros Hv Hb Hc. unfold GlassLogo.version_at_least_4, bind, getattr, ask.
  rewrite Hv. cbn [GlassLogo.as_ints]. unfold ret. cbn [fst].
  now rewrite tuple_ge_major.
Qed.

Lemma version_test_witness :
  fst (GlassLogo.version_at_least_4
         (fun _ _ => Ok (VTuple [VInt 3; VInt 6; VInt 5])) [])
  = Ok false.
Proof.
  apply (version_test_is_major_test
           (fun _ _ => Ok (VTuple [VInt 3; VInt 6; VInt 5])) [] 3 6 5);
    [reflexivity | lia | lia].
Defined.

End Version.

(** ** The script directory *)

Section ScriptDir.

Lemma find_first (f : string -> bool) pre a rest :
  (forall x, In x pre -> f x = false) -> f a = true ->
  find f (pre ++ a :: rest) = Some a.
Proof.
  intros Hpre Ha. induction pre as [|y pre IH]; simpl.
  - now rewrite Ha.
  - rewrite (Hpre y (or_introl eq_refl)). apply IH.
    intros x Hx. apply Hpre. now right.
Qed.

Lemma find_none (f : string -> bool) l :
  (forall x, In x l -> f x = false) -> find f l = None.
Proof.
  intros Hl. induction l as [|y l IH]; simpl; auto.
  rewrite (Hl y (or_introl eq_refl)). apply IH.
  intros x Hx. apply Hl. now right.
Qed.

(** X5.  [get_script_dir()] of the export scripts asks for the working
    directory first, in every case.  The first argument of [sys.argv]
    that ends in [.py] decides: its absolute path is asked for and the
    directory part of the answer returned, whatever follows it.  Without
    such an argument the working directory is returned. *)
Theorem script_dir_from_first_py_argument env host cwd :
  let getcwd := Func "os.getcwd" [] [] in
  host [] getcwd = Ok (VStr cwd) ->
  (forall pre a rest p,
     sys_argv env = pre ++ a :: rest ->
     (forall x, In x pre -> endswith x ".py" = false) ->
     endswith a ".py" = true ->
     host [Called getcwd (Ok (VStr cwd))] (Func "os.path.abspath" [VStr a] [])
     = Ok (VStr p) ->
     run (ExportScene.get_script_dir env) host
     = (Ok (os_path_dirname p),
        [Called getcwd (Ok (VStr cwd));
         Called (Func "os.path.abspath" [VStr a] []) (Ok (VStr p))])) /\
  ((forall x, In x (sys_argv env) -> endswith x ".py" = false) ->
   run (ExportScene.get_script_dir env) host
   = (Ok cwd, [Called getcwd (Ok (VStr cwd))])).
Proof.
  intros getcwd Hcwd.
  change (ExportScene.get_script_dir env) with (script_dir_from_argv env).
  unfold run, script_dir_from_argv, os_getcwd, os_path_abspath, func, bind, ask.
  cbn [app]. fold getcwd. rewrite Hcwd. cbn [as_str ret].
  split.
  - intros pre a rest p Hargv Hpre Ha Hp.
    rewrite Hargv, (find_first _ pre a rest Hpre Ha).
    cbn [app]. rewrite Hp. reflexivity.
  - intros Hnone. rewrite (find_none _ _ Hnone). reflexivity.
Qed.

Lemma script_dir_witness :
  run (ExportScene.get_script_dir Sim.env) (Sim.host Sim.plain)
  = (Ok "/home/jalen/site/scripts",
     [Called (Func "os.getcwd" [] []) (Ok (VStr "/home/jalen/site"));
      Called (Func "os.path.abspath" [VStr "scripts/blender_export_video.py"] [])
             (Ok (VStr "/home/jalen/site/scripts/blender_export_video.py"))]).
Proof.
  apply (proj1 (script_dir_from_first_py_argument
                  Sim.env (Sim.host Sim.plain) "/home/jalen/site" eq_refl)
               ["blender"; "scene.blend"; "--background"; "--python"]
               "scripts/blender_export_video.py" []
               "/home/jalen/site/scripts/blender_export_video.py").
  - reflexivity.
  - intros x [<-|[<-|[<-|[<-|[]]]]]; reflexivity.
  - reflexivity.
  - reflexivity.
Defined.

(** X6.  The branch [if "__file__" in dir()] is never taken: inside a
    function [dir()] lists the local names, and [__file__] is a module
    global.  So no script depends on [__file__]: the script directory
    always comes from [sys.argv] and the working directory. *)
Theorem dunder_file_is_never_used argv f f' :
  ExportScene.script (mkEnv argv f) = ExportScene.script (mkEnv argv f') /\
  ExportVideo.script (mkEnv argv f) = ExportVideo.script (mkEnv argv f') /\
  GlassLogo.script (mkEnv argv f) = GlassLogo.script (mkEnv argv f').
Proof. repeat split. Qed.

End ScriptDir.
(** ** Host failures *)

Section FailFast.
Import Failure.
Variable caught : call -> bool.

Lemma calm_snoc log ev :
  calm caught (log ++ [ev]) = calm caught log && negb (fatal caught ev).
Proof. unfold calm. rewrite forallb_app. simpl. now rewrite andb_true_r. Qed.

Lemma ff_ret {A} (a : A) : fail_fast caught (ret a).
Proof. intros host log Hc. exact Hc. Qed.

Lemma ff_raise {A} (e : exn) : fail_fast caught (@raise_ A e).
Proof. intros host log Hc. left. exact Hc. Qed.

Lemma ff_print line : fail_fast caught (print line).
Proof.
  intros host log Hc. simpl. rewrite calm_snoc, Hc. reflexivity.
Qed.

Lemma ff_ask c : fail_fast caught (ask c).
Proof.
  intros host log Hc. simpl. destruct (host log c) as [v|e].
  - rewrite calm_snoc, Hc. reflexivity.
  - right. exists log, c. auto.
Qed.

Lemma ff_bind {A B} (m : M A) (k : A -> M B) :
  fail_fast caught m -> (forall a, fail_fast caught (k a)) ->
  fail_fast caught (bind m k).
Proof.
  intros Hm Hk host log Hc. specialize (Hm host log Hc). unfold bind.
  destruct (m host log) as [[a|e] l]; simpl in *.
  - apply Hk. exact Hm.
  - exact Hm.
Qed.

Lemma ff_when b m : fail_fast caught m -> fail_fast caught (when b m).
Proof. destruct b; simpl; auto. intros _. apply ff_ret. Qed.

Lemma ff_for {A} (l : list A) body :
  (forall x, fail_fast caught (body x)) -> fail_fast caught (for_ l body).
Proof.
  intros Hb. induction l; simpl.
  - apply ff_ret.
  - apply ff_bind; auto.
Qed.

Lemma ff_filter_m {A} (p : A -> M bool) (l : list A) :
  (forall x, fail_fast caught (p x)) -> fail_fast caught (filter_m p l).
Proof.
  intros Hp. induction l; simpl.
  - apply ff_ret.
  - apply ff_bind; auto. intros b.
    apply ff_bind; auto. intros rest. apply ff_ret.
Qed.

Lemma ff_as_bool v : fail_fast caught (as_bool v).
Proof. destruct v; simpl; solve [apply ff_ret | apply ff_raise]. Qed.

Lemma ff_as_int v : fail_fast caught (as_int v).
Proof. destruct v; simpl; solve [apply ff_ret | apply ff_raise]. Qed.

Lemma ff_as_str v : fail_fast caught (as_str v).
Proof. destruct v; simpl; solve [apply ff_ret | apply ff_raise]. Qed.

Lemma ff_as_list v : fail_fast caught (as_list v).
Proof. destruct v; simpl; solve [apply ff_ret | apply ff_raise]. Qed.

(** A handler takes over from a calm log when the body can only fail on
    calls that are caught. *)
Lemma ff_try {A} (body : M A) cls handler :
  emits (fun ev => fatal caught ev = false) body ->
  (forall e, fail_fast caught (handler e)) ->
  fail_fast caught (try_except body cls handler).
Proof.
  intros Hb Hh host log Hc. unfold try_except.
  destruct (Hb host log) as [new [E F]].
  assert (Hc' : calm caught (snd (body host log)) = true).
  { rewrite E. unfold calm in *. rewrite forallb_app, Hc. simpl.
    apply forallb_forall. intros ev Hev.
    rewrite Forall_forall in F. now rewrite (F ev Hev). }
  destruct (body host log) as [[a|e] l]; simpl in *.
  - exact Hc'.
  - destruct (isinstance e cls).
    + apply Hh. exact Hc'.
    + left. exact Hc'.
Qed.

(** In a log that ends a fail-fast run, a fatal failure is the last event
    and its exception is the result. *)
Lemma fatal_is_last {A} (m : M A) host l c e rest :
  fail_fast caught m ->
  snd (run m host) = l ++ Called c (Raise e) :: rest ->
  caught c = false ->
  rest = [] /\ fst (run m host) = Raise e.
Proof.
  intros Hm Hlog Hcaught. specialize (Hm host [] eq_refl). unfold run in *.
  assert (Hnot : calm caught (l ++ Called c (Raise e) :: rest) = false).
  { unfold calm. rewrite forallb_app. simpl. rewrite Hcaught. simpl.
    apply andb_false_r. }
  destruct (fst (m host [])) as [a|e'].
  - rewrite Hlog in Hm. congruence.
  - destruct Hm as [Hm|(l' & c' & El & Hl')].
    + rewrite Hlog in Hm. congruence.
    + rewrite Hlog in El.
      destruct (exists_last (l := Called c (Raise e) :: rest)) as (r' & z & Er);
        [discriminate|].
      rewrite Er, app_assoc in El. apply app_inj_tail in El.
      destruct El as [El Ez]. subst z.
      destruct r' as [|y r'].
      * simpl in Er. injection Er as Ec Ee Erest. subst. auto.
      * simpl in Er. injection Er as Ey Erest. subst y l'.
        unfold calm in Hl'. rewrite forallb_app in Hl'. simpl in Hl'.
        rewrite Hcaught in Hl'. simpl in Hl'.
        rewrite andb_false_r in Hl'. discriminate.
Qed.
End FailFast.

(** Walks a script without handlers. *)
Ltac ff_walk :=
  repeat lazymatch goal with
  | |- Failure.fail_fast _ (ret _) => apply ff_ret
  | |- Failure.fail_fast _ (raise_ _) => apply ff_raise
  | |- Failure.fail_fast _ (as_bool _) => apply ff_as_bool
  | |- Failure.fail_fast _ (as_int _) => apply ff_as_int
  | |- Failure.fail_fast _ (as_str _) => apply ff_as_str
  | |- Failure.fail_fast _ (as_list _) => apply ff_as_list
  | |- Failure.fail_fast _ (print _) => apply ff_print
  | |- Failure.fail_fast _ (ask _) => apply ff_ask
  | |- Failure.fail_fast _ (when _ _) => apply ff_when
  | |- Failure.fail_fast _ (for_ _ _) => apply ff_for; intro
  | |- Failure.fail_fast _ (filter_m _ _) => apply ff_filter_m; intro
  | |- Failure.fail_fast _ (bind _ _) => apply ff_bind; [ | intro ]
  | |- Failure.fail_fast _ (if ?b then _ else _) => destruct b
  | |- Failure.fail_fast _ (match ?x with _ => _ end) => destruct x
  | |- Failure.fail_fast _ (let _ := _ in _) => cbv zeta
  | |- Failure.fail_fast _ _ => progress autounfold with py_unfold
  end.

Section FailureClaims.
Import Failure.

Lemma export_scene_fail_fast env :
  fail_fast no_handler (ExportScene.script env).
Proof. unfold ExportScene.script, ExportScene.main. ff_walk. Qed.

Lemma glass_logo_fail_fast env :
  fail_fast no_handler (GlassLogo.script env).
Proof.
  unfold GlassLogo.script, GlassLogo.main, GlassLogo.choose_logo,
    GlassLogo.finish.
  ff_walk.
Qed.

Lemma export_video_fail_fast env :
  fail_fast VideoTrace.is_render_call (ExportVideo.script env).
Proof.
  assert (Hrender : forall A (k : M A),
    emits (fun ev => fatal VideoTrace.is_render_call ev = false) k ->
    emits (fun ev => fatal VideoTrace.is_render_call ev = false)
          (ExportVideo.render ;; k)).
  { intros A k Hk. unfold ExportVideo.render, op, func.
    repeat (apply emits_bind; [|intro]); auto using emits_ret.
    apply emits_ask. intros [v|e]; reflexivity. }
  unfold ExportVideo.script, ExportVideo.main. ff_walk.
  apply ff_try.
  - apply Hrender. emits_walk ltac:(reflexivity).
  - intros e. unfold ExportVideo.on_runtime_error. ff_walk.
    apply ff_try.
    + apply Hrender. emits_walk ltac:(reflexivity).
    + intros e2. ff_walk.
Qed.

(** X7.  The scene-export script and the logo script catch nothing: the
    first call on which the host raises is the last event of the run, and
    the exception it raised is the outcome of the script. *)
Theorem host_failure_ends_the_script host env l c e rest :
  (snd (run (ExportScene.script env) host) = l ++ Called c (Raise e) :: rest ->
   rest = [] /\ fst (run (ExportScene.script env) host) = Raise e) /\
  (snd (run (GlassLogo.script env) host) = l ++ Called c (Raise e) :: rest ->
   rest = [] /\ fst (run (GlassLogo.script env) host) = Raise e).
Proof.
  split; intros Hlog.
  - exact (fatal_is_last no_handler _ host l c e rest
             (export_scene_fail_fast env) Hlog eq_refl).
  - exact (fatal_is_last no_handler _ host l c e rest
             (glass_logo_fail_fast env) Hlog eq_refl).
Qed.

Lemma host_failure_witness :
  fst (run (ExportScene.script Sim.env)
           (Faulty.host "os.makedirs" Faulty.read_only))
  = Raise Faulty.read_only.
Proof.
  apply (proj1 (host_failure_ends_the_script
                  (Faulty.host "os.makedirs" Faulty.read_only) Sim.env
                  (removelast (snd (run (ExportScene.script Sim.env)
                     (Faulty.host "os.makedirs" Faulty.read_only))))
                  (Func "os.makedirs"
                        [VStr "/home/jalen/site/public/models"]
                        [("exist_ok", VBool true)])
                  Faulty.read_only [])).
  vm_compute. reflexivity.
Defined.

(** X8.  In the animation-render script only the render operator's
    failures reach a handler: when the host raises on any other call,
    inside or outside the handlers, that call is the last event of the
    run and its exception is the outcome of the script. *)
Theorem only_render_failures_are_handled host env l c e rest :
  snd (run (ExportVideo.script env) host) = l ++ Called c (Raise e) :: rest ->
  VideoTrace.is_render_call c = false ->
  rest = [] /\ fst (run (ExportVideo.script env) host) = Raise e.
Proof.
  intros Hlog Hc.
  exact (fatal_is_last VideoTrace.is_render_call _ host l c e rest
           (export_video_fail_fast env) Hlog Hc).
Qed.

Lemma only_render_failures_witness :
  fst (run (ExportVideo.script Sim.env)
           (Faulty.host "os.makedirs" Faulty.read_only))
  = Raise Faulty.read_only.
Proof.
  apply (only_render_failures_are_handled
           (Faulty.host "os.makedirs" Faulty.read_only) Sim.env
           (removelast (snd (run (ExportVideo.script Sim.env)
              (Faulty.host "os.makedirs" Faulty.read_only))))
           (Func "os.makedirs"
                 [VStr "/home/jalen/site/public/videos"]
                 [("exist_ok", VBool true)])
           Faulty.read_only []).
  - vm_compute. reflexivity.
  - reflexivity.
Defined.
End FailureClaims.
(** ** The output directory *)

Section OutputDir.
Import PathSpec OutputDir.

Lemma list_ascii_of_string_app a b :
  list_ascii_of_string (a ++ b)%string
  = (list_ascii_of_string a ++ list_ascii_of_string b)%list.
Proof. induction a; simpl; congruence. Qed.

Lemma string_of_list_ascii_app a b :
  string_of_list_ascii (a ++ b)%list
  = (string_of_list_ascii a ++ string_of_list_ascii b)%string.
Proof. induction a; simpl; congruence. Qed.

(** The directory part of a file under [public/models]. *)
Lemma models_dir p name :
  name = "jaleneduseiwhite.glb" \/ name = "jalen_edusei_glass.glb" ->
  os_path_dirname (p ++ "public/models/" ++ name)%string
  = (p ++ "public/models")%string.
Proof.
  intros Hn. unfold os_path_dirname.
  rewrite list_ascii_of_string_app, rev_app_distr.
  destruct Hn as [-> | ->]; cbn;
    rewrite rev_involutive, <- !app_assoc;
    rewrite string_of_list_ascii_app, string_of_list_ascii_of_string;
    reflexivity.
Qed.

Lemma models_dir_under root name :
  name = "jaleneduseiwhite.glb" \/ name = "jalen_edusei_glass.glb" ->
  os_path_dirname (os_path_join root ["public"; "models"; name])
  = under root "public/models".
Proof.
  intros Hn. rewrite glb_path by (destruct Hn as [-> | ->]; reflexivity).
  unfold under. rewrite <- append_assoc, models_dir by exact Hn.
  now rewrite append_assoc.
Qed.

Ltac dir_skip tac :=
  mt_go;
  apply (mt_quiet _ _ _ (fun ev => quiet ev = true));
  [ solve [emits_walk ltac:(reflexivity)]
  | intros ev Hev; apply path_quiet_step; exact Hev
  | let x := fresh "x" in let e := fresh "e" in
    intros [x|e]; cbv beta iota; [|solve [tac]] ].

Lemma dir_made_intro d name l x a :
  name = "jaleneduseiwhite.glb" \/ name = "jalen_edusei_glass.glb" ->
  incl l [VStr (os_path_dirname
                  (os_path_join (os_path_dirname d) ["public"; "models"; name]))] ->
  (List.length x <= List.length l)%nat ->
  dir_made (mkView (Some d) l x a).
Proof.
  intros Hn Hl Hx. split; [|exact Hx].
  intros p Hp. exists (os_path_dirname d). split; [reflexivity|].
  apply Hl in Hp. destruct Hp as [<-|[]]. f_equal.
  now apply models_dir_under.
Qed.

Lemma dir_made_nothing sd a : dir_made (mkView sd [] [] a).
Proof. split; [intros p []|apply le_n]. Qed.

Ltac dir_done name :=
  first
    [ apply dir_made_nothing
    | apply (dir_made_intro _ name);
      [ first [left; reflexivity | right; reflexivity]
      | first [apply incl_refl | apply incl_nil_l]
      | cbn; lia ] ].

Lemma export_scene_dir env :
  mtriple step start (fun _ => True) start (ExportScene.main env)
    (fun _ s => dir_made s).
Proof.
  unfold ExportScene.main, start.
  change (ExportScene.get_script_dir env) with (script_dir_from_argv env).
  mt_go. apply script_dir_known;
    [intros d; cbv beta iota; cbn [made exported assigned_paths]
    |intros; apply dir_made_nothing].
  mt_any u e; [|dir_done "jaleneduseiwhite.glb"].
  repeat dir_skip ltac:(dir_done "jaleneduseiwhite.glb").
  mt_any done e;
    [ mt_any size e; [mt_coerce z|] | ]; dir_done "jaleneduseiwhite.glb".
Qed.

Lemma glass_logo_dir env :
  mtriple step start (fun _ => True) start (GlassLogo.script env)
    (fun _ s => dir_made s).
Proof.
  unfold GlassLogo.script, GlassLogo.main, GlassLogo.finish, start.
  no_dunder_file.
  repeat dir_skip ltac:(dir_done "jalen_edusei_glass.glb").
  mt_go. apply script_dir_known;
    [intros d; cbv beta iota; cbn [made exported assigned_paths]
    |intros; apply dir_made_nothing].
  mt_any u e; [|dir_done "jalen_edusei_glass.glb"].
  mt_any done e; dir_done "jalen_edusei_glass.glb".
Qed.

(** X9.  The scene-export script and the logo script pass to
    [os.makedirs] nothing but the directory [public/models] under the
    project root, which is the directory of the file they export, and a
    run that reaches the export operator has called [os.makedirs]. *)
Theorem output_directory_is_made_first host env :
  dir_made (view_of (snd (run (ExportScene.script env) host))) /\
  dir_made (view_of (snd (run (GlassLogo.script env) host))).
Proof.
  split.
  - exact (mt_run step start _ (ExportScene.script env) host _ I
             (export_scene_dir env)).
  - exact (mt_run step start _ (GlassLogo.script env) host _ I
             (glass_logo_dir env)).
Qed.
End OutputDir.
(** ** Blender 3.x and 4.x names *)

(** A call whose answer the host assumption fixes. *)
Lemma mt_ask_given {S} (step : S -> event -> S) s0 (H : host_t -> Prop)
  c r0 s (Q : result pyval -> S -> Prop) :
  (forall host, H host -> forall log, host log c = r0) ->
  Q r0 (step s (Called c r0)) ->
  mtriple step s0 H s (ask c) Q.
Proof.
  intros Hh HQ host log Hhost <-. simpl.
  rewrite (Hh host Hhost log), mon_snoc. exact HQ.
Qed.

Section CompatProof.
Import Compat.

Lemma compat_quiet_step s ev : quiet ev = true -> step s ev = s.
Proof.
  destruct ev as [[]|]; simpl; auto.
  - destruct key; auto.
    destruct (_ || _); [discriminate|auto].
  - destruct (String.eqb name "bpy.ops.uv.smart_project"); [discriminate|auto].
Qed.

Variables a b c : Z.
Hypothesis Hb : (0 <= b)%Z.
Hypothesis Hc : (0 <= c)%Z.

Local Abbreviation tr := (mtriple step start (stable_version a b c)).

Lemma version_known s (Q : result bool -> view -> Prop) :
  Q (Ok (4 <=? a)%Z) s ->
  tr s GlassLogo.version_at_least_4 Q.
Proof.
  intros HQ. unfold GlassLogo.version_at_least_4.
  apply mt_bind.
  apply (mt_ask_given step start _ _ (Ok (VTuple [VInt a; VInt b; VInt c]))).
  { intros host Hh log. apply Hh. }
  cbn [step GlassLogo.as_ints]. apply mt_ret.
  rewrite tuple_ge_major by assumption. exact HQ.
Qed.

Ltac compat_skip tac :=
  mt_go;
  lazymatch goal with
  | |- mtriple _ _ _ _ GlassLogo.version_at_least_4 _ => fail
  | |- _ => idtac
  end;
  apply (mt_quiet _ _ _ (fun ev => quiet ev = true));
  [ solve [emits_walk ltac:(reflexivity)]
  | intros ev Hev; apply compat_quiet_step; exact Hev
  | let x := fresh "x" in let e := fresh "e" in
    intros [x|e]; cbv beta iota; [|solve [tac]] ].

Ltac compat_done :=
  cbn; split;
  first [ apply incl_refl | apply incl_nil_l ].

Ltac compat_call :=
  let v := fresh "v" in let e := fresh "e" in
  mt_any_stay v e; [|solve [compat_done]].

Ltac compat_run Ha :=
  repeat first
    [ compat_skip compat_done
    | mt_go; apply version_known; rewrite Ha
    | compat_call
    | lazymatch goal with
      | |- context [VStr (if ?x then _ else _)] => is_var x; destruct x
      end ].

Lemma logo_names env :
  tr start (GlassLogo.script env) (fun _ s => names_of (4 <=? a)%Z s).
Proof.
  unfold GlassLogo.script, GlassLogo.main, GlassLogo.finish,
    GlassLogo.setup_scene, GlassLogo.set_input, start.
  no_dunder_file.
  destruct (4 <=? a)%Z eqn:Ha; compat_run Ha; mt_go; compat_done.
Qed.

(** X10.  On a host that reports one Blender version throughout, the
    logo script uses the names of one generation only: from 4.0 on the
    input [Transmission Weight] and the projection arguments
    [angle_limit] and [island_margin], before 4.0 the input
    [Transmission] and the arguments [angle] and [margin]. *)
Theorem version_names_are_consistent host env :
  stable_version a b c host ->
  names_of (4 <=? a)%Z (view_of (snd (run (GlassLogo.script env) host))).
Proof.
  intros Hh.
  exact (mt_run step start _ (GlassLogo.script env) host _ Hh (logo_names env)).
Qed.
End CompatProof.

Lemma version_names_witness :
  Compat.names_of true
    (Compat.view_of (snd (run (GlassLogo.script Sim.logo_env)
                              (Sim.host Sim.plain)))).
Proof.
  apply (version_names_are_consistent 4 2 0).
  - lia.
  - lia.
  - intros log. reflexivity.
Defined.
(** ** The world *)

Section WorldProof.
Import WorldSpec.

(** Before the world is read, and for events that are not about it. *)
Lemma world_quiet_step s ev :
  quiet ev = true ->
  (reads s = [] \/ match ev with
                   | Called (SetAttr _ n _) _ => String.eqb n "use_nodes" = false
                   | _ => True
                   end) ->
  step s ev = s.
Proof.
  destruct ev as [[]|]; simpl; auto.
  - destruct (String.eqb name "world"); [discriminate|auto].
  - destruct (String.eqb name "world"); [discriminate|].
    intros _ [Hr | ->]; auto. rewrite Hr. destruct (String.eqb name "use_nodes"); auto.
  - destruct (String.eqb name "new" && is_world_name args); [discriminate|auto].
Qed.

Local Abbreviation tr := (mtriple step start (fun _ => True)).

Ltac world_done :=
  cbn; repeat split;
  first [ reflexivity | apply incl_refl | apply incl_nil_l | apply le_n
        | apply le_S, le_n | apply Nat.le_0_l ].

(** Statements before the world is read. *)
Ltac world_skip_before :=
  mt_go;
  apply (mt_quiet _ _ _ (fun ev => quiet ev = true));
  [ solve [emits_walk ltac:(reflexivity)]
  | intros ev Hev; apply world_quiet_step; [exact Hev | left; reflexivity]
  | let x := fresh "x" in let e := fresh "e" in
    intros [x|e]; cbv beta iota; [|solve [world_done]] ].

Ltac world_skip_after :=
  mt_go;
  apply (mt_quiet _ _ _ (fun ev => settled ev = true));
  [ solve [emits_walk ltac:(reflexivity)]
  | let ev := fresh "ev" in let Hev := fresh "Hev" in
    intros ev Hev; apply andb_prop in Hev; destruct Hev as [Hq Hn];
    apply world_quiet_step; [exact Hq | right];
    destruct ev as [[]|]; auto;
    apply negb_true_iff in Hn; exact Hn
  | let x := fresh "x" in let e := fresh "e" in
    intros [x|e]; cbv beta iota; [|solve [world_done]] ].

Ltac world_call :=
  let v := fresh "v" in let e := fresh "e" in
  mt_any_stay v e; [|solve [world_done]].

Lemma logo_world env :
  tr start (GlassLogo.script env) (fun _ s => world_rule s).
Proof.
  unfold GlassLogo.script, GlassLogo.main, GlassLogo.finish,
    GlassLogo.setup_scene, start.
  no_dunder_file.
  repeat world_skip_before.
  world_call.
  destruct v; cbn [is_none]; mt_go;
    repeat first [ world_skip_after | world_call ]; mt_go; try world_done.
Qed.

(** X11.  [if world is None] in [setup_scene]: the logo script makes a
    world and assigns it to the scene only when the scene's [world] read
    as [None], and then gives nodes to the new world; a scene that has a
    world keeps it, and that world gets the nodes. *)
Theorem world_is_made_only_when_missing host env :
  world_rule (view_of (snd (run (GlassLogo.script env) host))).
Proof.
  exact (mt_run step start _ (GlassLogo.script env) host _ I (logo_world env)).
Qed.
End WorldProof.

(** Both cases on sample hosts: a scene without world gets a new one, a
    scene with a world keeps it. *)
Example world_made_and_world_kept :
  WorldSpec.view_of (snd (run (GlassLogo.script Sim.logo_env)
                              (Sim.host Sim.plain)))
  = WorldSpec.mkView [Ok VNone] [Ok (VRef 348)] [VRef 348] [VRef 348] /\
  WorldSpec.view_of
    (snd (run (GlassLogo.script Sim.logo_env)
              (Faulty.with_attr "world" (VRef 7) (Sim.host Sim.plain))))
  = WorldSpec.mkView [Ok (VRef 7)] [] [] [VRef 7].
Proof. vm_compute. split; reflexivity. Qed.
(** ** Fonts *)

Section FontProof.
Import FontSpec.

Lemma font_quiet_step s ev : quiet ev = true -> step s ev = s.
Proof.
  destruct ev as [[]|]; simpl; auto.
  - destruct (String.eqb name "font"); [discriminate|auto].
  - destruct (is_zero key); [discriminate|auto].
Qed.

Variable fonts : nat.

Local Abbreviation tr := (mtriple step start (fontless fonts)).

Ltac font_skip :=
  mt_go;
  apply (mt_quiet _ _ _ (fun ev => quiet ev = true));
  [ solve [emits_walk ltac:(reflexivity)]
  | intros ev Hev; apply font_quiet_step; exact Hev
  | let x := fresh "x" in let e := fresh "e" in
    intros [x|e]; cbv beta iota; [|solve [reflexivity]] ].

Lemma logo_fonts env :
  tr start (GlassLogo.script env) (fun _ s => s = start).
Proof.
  unfold GlassLogo.script, GlassLogo.main, GlassLogo.choose_logo,
    GlassLogo.finish, GlassLogo.create_text_logo.
  no_dunder_file.
  repeat font_skip.
  mt_branch.
  - repeat font_skip. mt_go. reflexivity.
  - repeat font_skip.
    mt_go.
    apply (mt_ask_given step start _ _ (Ok (VRef fonts)));
      [intros host [Hf _] log; apply Hf|].
    cbn [step py_bool]. mt_go.
    apply (mt_ask_given step start _ _ (Ok (VBool false)));
      [intros host [_ Ht] log; apply Ht|].
    cbn [step]. mt_go.
    repeat font_skip. mt_go. reflexivity.
Qed.

(** Without fonts, no font is looked up or assigned. *)
Lemma fontless_run host env :
  fontless fonts host ->
  view_of (snd (run (GlassLogo.script env) host)) = start.
Proof.
  intros Hh.
  exact (mt_run step start _ (GlassLogo.script env) host _ Hh (logo_fonts env)).
Qed.
End FontProof.

Lemma bare_host_obliging : LogoInput.obliging FontSpec.bare_host.
Proof.
  destruct (sim_obliging Sim.plain eq_refl) as [Hf Ht]. split.
  - intros log c _. destruct (Hf log c eq_refl) as [v Hv].
    destruct c; simpl; eauto.
    destruct (String.eqb name "fonts"); eauto.
  - intros log c v. specialize (Ht log c v).
    destruct c; simpl; auto.
    + destruct (String.eqb name "fonts") eqn:E; auto.
      intros [= <-]. apply String.eqb_eq in E. subst. reflexivity.
    + intros [= <-]. reflexivity.
Qed.

(** X12.  [if bpy.data.fonts:] in [create_text_logo]: on a host without
    fonts the logo script looks up and assigns no font; when the host
    raises on nothing and the script has no arguments, it still builds
    the text logo and returns normally. *)
Theorem missing_font_is_not_fatal fonts host env :
  FontSpec.fontless fonts host ->
  FontSpec.view_of (snd (run (GlassLogo.script env) host)) = FontSpec.start /\
  (LogoInput.obliging host ->
   GlassLogo.script_args (sys_argv env) = [] ->
   LogoInput.fell_back_to_text
     (fst (run (GlassLogo.script env) host))
     (LogoInput.view_of (snd (run (GlassLogo.script env) host)))).
Proof.
  intros Hf. split; [exact (fontless_run fonts host env Hf)|].
  intros Hh Hargs.
  assert (Hc : LogoInput.course (GlassLogo.script_args (sys_argv env))
                 (fst (run (GlassLogo.script env) host))
                 (LogoInput.view_of (snd (run (GlassLogo.script env) host))))
    by exact (mt_run LogoInput.step LogoInput.start _ (GlassLogo.script env)
                     host _ Hh (logo_course env)).
  rewrite Hargs in Hc. apply Hc.
Qed.

Lemma missing_font_witness :
  fst (run (GlassLogo.script Sim.logo_env) FontSpec.bare_host) = Ok tt.
Proof.
  apply (proj2 (missing_font_is_not_fatal 1 FontSpec.bare_host Sim.logo_env
                  (conj (fun _ => eq_refl) (fun _ => eq_refl)))).
  - exact bare_host_obliging.
  - reflexivity.
Defined.

(** X13.  Run without script arguments on a host that raises on nothing,
    the logo script asks for no file, imports nothing, builds the text
    logo and returns normally. *)
Theorem default_is_text_logo host env :
  LogoInput.obliging host ->
  GlassLogo.script_args (sys_argv env) = [] ->
  LogoInput.asked (LogoInput.view_of (snd (run (GlassLogo.script env) host))) = [] /\
  LogoInput.fell_back_to_text
    (fst (run (GlassLogo.script env) host))
    (LogoInput.view_of (snd (run (GlassLogo.script env) host))).
Proof.
  intros Hh Hargs.
  assert (Hc : LogoInput.course (GlassLogo.script_args (sys_argv env))
                 (fst (run (GlassLogo.script env) host))
                 (LogoInput.view_of (snd (run (GlassLogo.script env) host))))
    by exact (mt_run LogoInput.step LogoInput.start _ (GlassLogo.script env)
                     host _ Hh (logo_course env)).
  rewrite Hargs in Hc. exact Hc.
Qed.

Lemma default_is_text_logo_witness :
  LogoInput.fell_back_to_text
    (fst (run (GlassLogo.script Sim.logo_env) (Sim.host Sim.plain)))
    (LogoInput.view_of (snd (run (GlassLogo.script Sim.logo_env)
                                 (Sim.host Sim.plain)))).
Proof.
  apply (default_is_text_logo (Sim.host Sim.plain) Sim.logo_env).
  - apply sim_obliging. reflexivity.
  - reflexivity.
Defined.

(** ** The SVG import *)

Section SvgProof.
Import SvgSpec.

Local Abbreviation tr := (mtriple step start (fun _ => True)).

Lemma svg_quiet_step s ev : quiet ev = true -> step s ev = s.
Proof.
  destruct ev as [[]|]; simpl; auto; try discriminate.
  - destruct (String.eqb name "type"); [discriminate|].
    destruct (String.eqb name "splines"); [discriminate|auto].
  - destruct (String.eqb name "active"); [discriminate|].
    destruct (_ || _); [discriminate|auto].
  - destruct (String.eqb name "select_set" && is_true_arg args);
      [discriminate|auto].
  - destruct (String.eqb name "bpy.ops.object.join"); [discriminate|auto].
Qed.

Ltac gave_up :=
  first [ intros Hgo; discriminate Hgo | intros ? Hgo; discriminate Hgo ].

Lemma keep_curves l : forall s,
  tr s
    (filter_m (fun o => t <- getattr o "type" ;; ret (eq_str t "CURVE")) l)
    (fun r s' => forall objs, r = Ok objs -> s' = add_kept s objs).
Proof.
  induction l as [|o l IH]; intros [k se ac j aw sp bv]; simpl.
  - apply mt_ret. intros objs [= <-]. unfold add_kept; simpl.
    now rewrite app_nil_r.
  - apply mt_bind.
    mt_any_stay t e; [|gave_up].
    destruct (eq_str t "CURVE"); apply mt_bind;
      (eapply mt_conseq; [apply IH|]);
      (intros [rest|e] s1 Hs1; [|gave_up]);
      rewrite (Hs1 rest eq_refl); apply mt_ret;
      intros objs [= <-]; unfold add_kept; simpl;
      rewrite <- ?app_assoc; reflexivity.
Qed.

Lemma select_curves l : forall s,
  tr s
    (for_ l (fun o => method o "select_set" [VBool true] [] ;; ret tt))
    (fun r s' => r = Ok tt -> s' = add_selected s l).
Proof.
  induction l as [|o l IH]; intros [k se ac j aw sp bv]; simpl.
  - apply mt_ret. intros _. unfold add_selected; simpl.
    now rewrite app_nil_r.
  - apply mt_bind.
    mt_any_stay v e; [|gave_up].
    eapply mt_conseq; [apply IH|].
    intros r s1 Hs1 Hr. rewrite (Hs1 Hr). unfold add_selected; simpl.
    now rewrite <- app_assoc.
Qed.

Lemma bevel_splines l : forall s,
  tr s
    (for_ l (fun spline =>
       setattr spline "bevel_depth" (VDec 8 2) ;;
       setattr spline "bevel_resolution" (VInt 4)))
    (fun r s' => r = Ok tt -> s' = add_beveled s l).
Proof.
  induction l as [|o l IH]; intros [k se ac j aw sp bv]; simpl.
  - apply mt_ret. intros _. unfold add_beveled; simpl.
    now rewrite app_nil_r.
  - apply mt_bind.
    mt_any_stay v1 e1; [|gave_up].
    mt_any_stay v2 e2; [|gave_up].
    eapply mt_conseq; [apply IH|].
    intros r s1 Hs1 Hr. rewrite (Hs1 Hr). unfold add_beveled; simpl.
    now rewrite <- !app_assoc.
Qed.

Ltac svg_skip :=
  mt_go;
  lazymatch goal with
  | |- mtriple _ _ _ _ (as_list _) _ => fail
  | |- _ => idtac
  end;
  apply (mt_quiet _ _ _ (fun ev => quiet ev = true));
  [ solve [emits_walk ltac:(reflexivity)]
  | intros ev Hev; apply svg_quiet_step; exact Hev
  | let x := fresh "x" in let e := fresh "e" in
    intros [x|e]; cbv beta iota; [|solve [gave_up]] ].

Ltac svg_call :=
  let v := fresh "v" in let e := fresh "e" in
  mt_any_stay v e; [|solve [gave_up]].

Ltac svg_list :=
  lazymatch goal with
  | |- mtriple _ _ _ _ (as_list ?v) _ => destruct v
  end;
  mt_go; try solve [gave_up].

Lemma svg_joined path :
  tr start (GlassLogo.create_from_svg path)
    (fun r s => forall logo, r = Ok logo -> joined s).
Proof.
  unfold GlassLogo.create_from_svg, GlassLogo.convert_to_mesh, start.
  repeat svg_skip. svg_call. svg_list.
  eapply mt_conseq; [apply keep_curves|].
  intros [objs|e] s1 Hs1; [|gave_up].
  rewrite (Hs1 objs eq_refl). unfold add_kept; simpl.
  destruct objs as [|first objs]; mt_go; [gave_up|].
  repeat svg_skip.
  mt_go. eapply mt_conseq; [apply select_curves|].
  intros [[]|e] s2 Hs2; [|gave_up].
  rewrite (Hs2 eq_refl). unfold add_selected; simpl.
  repeat first [ svg_skip | svg_call ].
  svg_list.
  eapply mt_conseq; [apply bevel_splines|].
  intros [[]|e] s3 Hs3; [|gave_up].
  rewrite (Hs3 eq_refl). unfold add_beveled; simpl.
  repeat svg_skip.
  intros logo _. repeat split. discriminate.
Qed.

(** X14.  [create_from_svg]: when it returns, the import left at least
    one curve; exactly the selected objects of type CURVE were given
    [select_set(True)], in their order; the first of them was made the
    active object; the join operator ran once; and every spline of the
    joined curve got bevel depth 0.08 and bevel resolution 4. *)
Theorem svg_curves_are_joined host path logo :
  fst (run (GlassLogo.create_from_svg path) host) = Ok logo ->
  joined (view_of (snd (run (GlassLogo.create_from_svg path) host))).
Proof.
  intros Hr.
  exact (mt_run step start _ (GlassLogo.create_from_svg path) host _ I
           (svg_joined path) logo Hr).
Qed.

Lemma svg_curves_witness :
  joined (view_of (snd (run (GlassLogo.create_from_svg "/home/jalen/logo.svg")
                            (Sim.host Sim.two_curves)))).
Proof.
  apply (svg_curves_are_joined (Sim.host Sim.two_curves)
           "/home/jalen/logo.svg" (VRef 63)).
  vm_compute. reflexivity.
Defined.
End SvgProof.

(** ** What the render script touches *)

Section VideoFrameProof.
Import VideoFrame.

Lemma emits_from_start {A} (ok : event -> Prop) (m : M A) host :
  emits ok m -> Forall ok (snd (run m host)).
Proof.
  intros Hm. destruct (Hm host []) as [new [E F]].
  unfold run. rewrite E. exact F.
Qed.

(** X15.  Whatever the host answers, the render script assigns only
    render settings: [film_transparent = True], [file_format = 'PNG'],
    [color_mode = 'RGBA'], an engine that is CYCLES or BLENDER_EEVEE, 64
    samples, [use_denoising = False] and a [filepath]; it calls no
    method, and no function other than [os.getcwd], [os.path.abspath],
    [os.makedirs] and the render operator.  Frame range, resolution and
    camera are never assigned. *)
Theorem render_script_touches_render_settings_only host env :
  Forall (fun ev => touch_ok ev = true)
         (snd (run (ExportVideo.script env) host)).
Proof.
  apply emits_from_start.
  unfold ExportVideo.script, ExportVideo.main, ExportVideo.render,
    ExportVideo.on_runtime_error.
  emits_walk ltac:(reflexivity).
Qed.
End VideoFrameProof.

(** ** The Cycles settings *)

Section CyclesProof.
Import CyclesSpec.

Lemma cycles_quiet_step s ev : quiet ev = true -> step s ev = s.
Proof.
  unfold quiet, step. destruct (cycles_setting ev); [discriminate|auto].
Qed.

Ltac cycles_skip :=
  mt_go;
  apply (mt_quiet _ _ _ (fun ev => quiet ev = true));
  [ solve [emits_walk ltac:(reflexivity)]
  | intros ev Hev; apply cycles_quiet_step; exact Hev
  | let x := fresh "x" in let e := fresh "e" in
    intros [x|e]; cbv beta iota; [|solve [reflexivity]] ].

Lemma video_without_cycles env :
  mtriple step [] no_cycles [] (ExportVideo.script env) (fun _ s => s = []).
Proof.
  unfold ExportVideo.script, ExportVideo.main.
  change (ExportVideo.get_script_dir env) with (script_dir_from_argv env).
  repeat cycles_skip.
  mt_go.
  lazymatch goal with
  | |- mtriple _ _ _ _ (ask ?c) _ =>
      apply (mt_ask_given step [] _ c (Ok VNone));
        [intros host Hh log; apply Hh|]
  end.
  cbn [step cycles_setting py_bool]. mt_go.
  repeat cycles_skip.
  apply (mt_quiet _ _ _ (fun ev => quiet ev = true)).
  - unfold ExportVideo.render, ExportVideo.on_runtime_error.
    emits_walk ltac:(reflexivity).
  - intros ev Hev. apply cycles_quiet_step. exact Hev.
  - reflexivity.
Qed.

(** X16.  [if scene.cycles:] in the render script: on a scene without
    Cycles settings the script assigns neither [samples] nor
    [use_denoising] and does not look at the view layers. *)
Theorem no_cycles_settings_without_cycles host env :
  no_cycles host ->
  view_of (snd (run (ExportVideo.script env) host)) = [].
Proof.
  intros Hh.
  exact (mt_run step [] _ (ExportVideo.script env) host _ Hh
           (video_without_cycles env)).
Qed.

Lemma no_cycles_witness :
  view_of (snd (run (ExportVideo.script Sim.env)
                    (Faulty.with_attr "cycles" VNone (Sim.host Sim.plain))))
  = [].
Proof.
  apply (no_cycles_settings_without_cycles
           (Faulty.with_attr "cycles" VNone (Sim.host Sim.plain)) Sim.env).
  intros log o. reflexivity.
Defined.

(** With Cycles settings the block runs. *)
Example cycles_settings_with_cycles :
  List.length (view_of (snd (run (ExportVideo.script Sim.env)
                                 (Sim.host Sim.plain)))) = 12.
Proof. vm_compute. reflexivity. Qed.
End CyclesProof.

(** ** The factory reset *)

Section FactoryReset.

Lemma logo_main_appends env :
  emits (fun _ => True) (GlassLogo.main env).
Proof.
  unfold GlassLogo.main, GlassLogo.choose_logo, GlassLogo.finish.
  emits_walk ltac:(exact I).
Qed.

(** X17.  The logo script resets Blender to empty factory settings
    before anything else: in every run, whatever the arguments, the
    first event is that call. *)
Theorem factory_reset_comes_first host env :
  let reset :=
    Func "bpy.ops.wm.read_factory_settings" [] [("use_empty", VBool true)] in
  exists r rest,
    snd (run (GlassLogo.script env) host) = Called reset r :: rest.
Proof.
  intros reset. unfold run, GlassLogo.script, op, func, bind, ask.
  cbn [app]. change ("bpy.ops." ++ "wm.read_factory_settings")%string
    with "bpy.ops.wm.read_factory_settings". fold reset.
  destruct (host [] reset) as [v|e0]; cbn [ret].
  - destruct (logo_main_appends env host [Called reset (Ok v)]) as [new [E _]].
    exists (Ok v), new. exact E.
  - exists (Raise e0), []. reflexivity.
Qed.
End FactoryReset.

(** ** The mix factor *)

Section MixProof.
Import MixSpec.

Lemma mix_quiet_step s ev : quiet ev = true -> step s ev = s.
Proof.
  destruct ev as [[]|]; simpl; auto.
  - destruct key; auto. destruct (_ || _); [discriminate|auto].
  - destruct key; auto. destruct (String.eqb s0 "Fac"); [discriminate|auto].
Qed.

Ltac mix_done :=
  cbn; first [ reflexivity | apply incl_refl | apply incl_nil_l ].

Ltac mix_skip :=
  mt_go;
  lazymatch goal with
  | |- mtriple _ _ _ _ (as_bool _) _ => fail
  | |- _ => idtac
  end;
  apply (mt_quiet _ _ _ (fun ev => quiet ev = true));
  [ solve [emits_walk ltac:(reflexivity)]
  | intros ev Hev; apply mix_quiet_step; exact Hev
  | let x := fresh "x" in let e := fresh "e" in
    intros [x|e]; cbv beta iota; [|solve [mix_done]] ].

Ltac mix_call :=
  let v := fresh "v" in let e := fresh "e" in
  mt_any_stay v e; [|solve [mix_done]].

Lemma logo_mix env :
  mtriple step start (fun _ => True) start (GlassLogo.script env)
    (fun _ s => factor_rule s).
Proof.
  unfold GlassLogo.script, GlassLogo.main, GlassLogo.finish,
    GlassLogo.setup_scene, GlassLogo.input_of, start.
  no_dunder_file.
  repeat first
    [ mix_skip
    | lazymatch goal with
      | |- context [VStr (if ?x then _ else _)] => is_var x; destruct x
      end ];
  mix_call;
  (lazymatch goal with
   | |- mtriple _ _ _ _ (as_bool ?v) _ => destruct v as [|[]| | | | | | | |]
   end); mt_go; try solve [mix_done];
    repeat first [ mix_skip | mix_call ]; mt_go; mix_done.
Qed.

(** X18.  [mix.inputs["Fac"] if "Fac" in mix.inputs else
    mix.inputs["Factor"]]: the logo script looks the factor input up
    under [Fac] when the host says the mix shader has it, and under
    [Factor] when it says no; never under both. *)
Theorem mix_factor_follows_the_host host env :
  factor_rule (view_of (snd (run (GlassLogo.script env) host))).
Proof.
  exact (mt_run step start _ (GlassLogo.script env) host _ I (logo_mix env)).
Qed.

Example mix_factor_both_names :
  lookups (view_of (snd (run (GlassLogo.script Sim.logo_env)
                             (Sim.host Sim.plain)))) = ["Fac"] /\
  lookups (view_of (snd (run (GlassLogo.script Sim.logo_env)
             (fun log c =>
                match c with
                | Contains _ _ => Ok (VBool false)
                | _ => Sim.host Sim.plain log c
                end)))) = ["Factor"].
Proof. vm_compute. split; reflexivity. Qed.
End MixProof.

(** ** The logo object *)

Section ThreadProof.
Import LogoThread.

Lemma thread_quiet_step s ev : quiet (centered s) ev = true -> step s ev = s.
Proof.
  destruct s as [[] g p c a ch]; destruct ev as [[] r|]; simpl; auto;
    try discriminate.
  - destruct r; auto. now rewrite andb_false_r.
  - destruct (String.eqb name "location"); [discriminate|].
    destruct (String.eqb name "active"); [discriminate|].
    destruct (String.eqb name "parent"); [discriminate|auto].
  - destruct (String.eqb name "select_set"); [discriminate|auto].
  - destruct (String.eqb name "bpy.ops.object.origin_set"); [discriminate|auto].
  - destruct (String.eqb name "active_object"); [discriminate|].
    destruct r; auto.
  - destruct (String.eqb name "bpy.ops.object.origin_set"); [discriminate|auto].
Qed.

Ltac lost := first [ intros Hgo; discriminate Hgo ].

Ltac thread_skip :=
  mt_go;
  lazymatch goal with
  | |- mtriple _ _ _ ?s _ _ =>
      apply (mt_quiet _ _ _ (fun ev => quiet (centered s) ev = true))
  end;
  [ solve [emits_walk ltac:(reflexivity)]
  | intros ev Hev; apply thread_quiet_step; exact Hev
  | let x := fresh "x" in let e := fresh "e" in
    intros [x|e]; cbv beta iota; [|solve [lost]] ].

Ltac thread_call :=
  let v := fresh "v" in let e := fresh "e" in
  mt_any_stay v e; [|solve [lost]].

Ltac thread_run :=
  repeat first
    [ thread_skip | thread_call | mt_branch | progress mt_go | lost ].

Lemma logo_thread env :
  mtriple step start (fun _ => True) start (GlassLogo.script env)
    (fun r s => r = Ok tt -> threaded s).
Proof.
  unfold GlassLogo.script, GlassLogo.main, GlassLogo.choose_logo,
    GlassLogo.finish, GlassLogo.create_text_logo, GlassLogo.create_from_svg,
    GlassLogo.setup_scene, GlassLogo.add_rotation_animation, start.
  no_dunder_file.
  thread_run; intros _; eexists; repeat split.
Qed.

(** X19.  The object that the geometry step returns (the active object
    after the conversion to mesh) is the object the rest of the script
    works on: in a run that returns normally it is the one placed at the
    origin, selected and made active for the UV projection, and parented
    to the empty. *)
Theorem logo_object_is_threaded_through host env :
  fst (run (GlassLogo.script env) host) = Ok tt ->
  threaded (view_of (snd (run (GlassLogo.script env) host))).
Proof.
  exact (mt_run step start _ (GlassLogo.script env) host _ I (logo_thread env)).
Qed.

Lemma logo_object_witness :
  threaded (view_of (snd (run (GlassLogo.script Sim.svg_env)
                              (Sim.host Sim.two_curves)))).
Proof.
  apply (logo_object_is_threaded_through (Sim.host Sim.two_curves) Sim.svg_env).
  vm_compute. reflexivity.
Defined.
End ThreadProof.

(** ** The scene listing *)

Section ListingProof.
Import Listing.

Local Abbreviation tr := (mtriple step start (fun _ => True)).

Lemma listing_quiet_step s ev : quiet ev = true -> step s ev = s.
Proof.
  destruct ev as [[] r|]; simpl; auto; try discriminate.
  destruct (String.eqb name "type"); [discriminate|]. destruct r; auto.
Qed.

Ltac lost := first [ intros Hgo; discriminate Hgo
                   | intros ? Hgo; discriminate Hgo ].

Lemma count_cameras l : forall s,
  phase s = 0 ->
  tr s
    (filter_m (fun o => t <- getattr o "type" ;; ret (eq_str t "CAMERA")) l)
    (fun r s' => forall objs, r = Ok objs ->
                 s' = add_cams s (List.length objs)).
Proof.
  induction l as [|o l IH]; intros [p c g ln] Hp; simpl in Hp; subst p; simpl.
  - apply mt_ret. intros objs [= <-]. unfold add_cams; simpl.
    now rewrite Nat.add_0_r.
  - apply mt_bind.
    mt_any_stay t e; [|lost].
    destruct (eq_str t "CAMERA"); apply mt_bind;
      (eapply mt_conseq; [apply IH; reflexivity|]);
      (intros [rest|e] s1 Hs1; [|lost]);
      rewrite (Hs1 rest eq_refl); apply mt_ret;
      intros objs [= <-]; unfold add_cams; simpl;
      f_equal; lia.
Qed.

Lemma count_lights l : forall s,
  phase s = 1 ->
  tr s
    (filter_m (fun o => t <- getattr o "type" ;; ret (eq_str t "LIGHT")) l)
    (fun r s' => forall objs, r = Ok objs ->
                 s' = add_lights s (List.length objs)).
Proof.
  induction l as [|o l IH]; intros [p c g ln] Hp; simpl in Hp; subst p; simpl.
  - apply mt_ret. intros objs [= <-]. unfold add_lights; simpl.
    now rewrite Nat.add_0_r.
  - apply mt_bind.
    mt_any_stay t e; [|lost].
    destruct (eq_str t "LIGHT"); apply mt_bind;
      (eapply mt_conseq; [apply IH; reflexivity|]);
      (intros [rest|e] s1 Hs1; [|lost]);
      rewrite (Hs1 rest eq_refl); apply mt_ret;
      intros objs [= <-]; unfold add_lights; simpl;
      f_equal; lia.
Qed.

Lemma list_cameras l : forall s,
  tr s
    (for_ l (fun cam =>
       cn <- getattr cam "name" ;;
       loc <- getattr cam "location" ;;
       print [Lit "  - "; Sub cn; Lit " at "; Sub loc]))
    (fun r s' => r = Ok tt -> items l s s').
Proof.
  induction l as [|o l IH]; intros [p c g ln]; simpl.
  - apply mt_ret. intros _. exists []. unfold add_lines; simpl.
    rewrite app_nil_r. auto.
  - apply mt_bind.
    mt_any_stay cn e; [|lost].
    mt_any_stay loc e; [|lost].
    mt_go.
    eapply mt_conseq; [apply IH|].
    intros r s1 Hs1 Hr. destruct (Hs1 Hr) as (new & -> & Hlen & Hall).
    eexists (_ :: new). unfold add_lines; simpl.
    rewrite <- app_assoc. repeat split; auto.
    constructor; [reflexivity|exact Hall].
Qed.

Lemma list_lights l : forall s,
  phase s = 2 ->
  tr s
    (for_ l (fun light =>
       ln <- getattr light "name" ;;
       d <- getattr light "data" ;;
       t <- getattr d "type" ;;
       print [Lit "  - "; Sub ln; Lit " ("; Sub t; Lit ")"]))
    (fun r s' => r = Ok tt -> items l s s').
Proof.
  induction l as [|o l IH]; intros [p c g ln] Hp; simpl in Hp; subst p; simpl.
  - apply mt_ret. intros _. exists []. unfold add_lines; simpl.
    rewrite app_nil_r. auto.
  - apply mt_bind.
    mt_any_stay n e; [|lost].
    mt_any_stay d e; [|lost].
    mt_any_stay t e; [|lost].
    mt_go.
    eapply mt_conseq; [apply IH; reflexivity|].
    intros r s1 Hs1 Hr. destruct (Hs1 Hr) as (new & -> & Hlen & Hall).
    eexists (_ :: new). unfold add_lines; simpl.
    rewrite <- app_assoc. repeat split; auto.
    constructor; [reflexivity|exact Hall].
Qed.

Ltac listing_skip :=
  mt_go;
  apply (mt_quiet _ _ _ (fun ev => quiet ev = true));
  [ solve [emits_walk ltac:(reflexivity)]
  | intros ev Hev; apply listing_quiet_step; exact Hev
  | let x := fresh "x" in let e := fresh "e" in
    intros [x|e]; cbv beta iota; [|solve [lost]] ].

Lemma export_scene_listing env :
  tr start (ExportScene.script env) (fun r s => r = Ok tt -> listed s).
Proof.
  unfold ExportScene.script, ExportScene.main, ExportScene.objects_of_type,
    start.
  change (ExportScene.get_script_dir env) with (script_dir_from_argv env).
  repeat listing_skip.
  mt_go. eapply mt_conseq; [apply count_cameras; reflexivity|].
  intros [cams|e] s1 Hs1; [|lost].
  rewrite (Hs1 cams eq_refl). unfold add_cams; cbn. mt_go.
  eapply mt_conseq; [apply list_cameras|].
  intros [[]|e] s2 Hs2; [|lost].
  destruct (Hs2 eq_refl) as (cam_lines & -> & Hcl & Hci).
  unfold add_lines; cbn.
  repeat listing_skip.
  mt_go. eapply mt_conseq; [apply count_lights; reflexivity|].
  intros [lights|e] s3 Hs3; [|lost].
  rewrite (Hs3 lights eq_refl). unfold add_lights; cbn. mt_go.
  eapply mt_conseq; [apply list_lights; reflexivity|].
  intros [[]|e] s4 Hs4; [|lost].
  destruct (Hs4 eq_refl) as (light_lines & -> & Hll & Hli).
  unfold add_lines; cbn.
  repeat listing_skip.
  mt_go. intros _.
  eexists [_; _; _], cam_lines, light_lines, [_; _; _].
  cbn. rewrite <- !app_assoc. repeat split; auto.
Qed.

(** X20.  The listing of the scene-export script: in a run that returns
    normally, the number printed after [Cameras found:] is the number of
    scene objects whose [type] read as ['CAMERA'], and it is followed by
    exactly that many item lines; the same holds for [Lights found:] and
    the objects that read as ['LIGHT'].  Three lines come before the
    listing and three after it. *)
Theorem listing_counts_match host env :
  fst (run (ExportScene.script env) host) = Ok tt ->
  listed (view_of (snd (run (ExportScene.script env) host))).
Proof.
  exact (mt_run step start _ (ExportScene.script env) host _ I
           (export_scene_listing env)).
Qed.

Lemma listing_counts_witness :
  listed (view_of (snd (run (ExportScene.script Sim.env) (Sim.host Sim.plain)))).
Proof.
  apply (listing_counts_match (Sim.host Sim.plain) Sim.env).
  vm_compute. reflexivity.
Defined.
End ListingProof.

(** ** The node links *)

Section WiringProof.
Import Wiring.


Ltac lost := first [ intros Hgo; discriminate Hgo ].





End WiringProof.

(** ** The string tests *)

Section StringTests.

Lemma prefix_spec a s :
  prefix a s = true <-> exists post, s = (a ++ post)%string.
Proof.
  revert s. induction a as [|c a IH]; intros s; simpl.
  - split; [intros _; exists s; reflexivity | intros _; destruct s; reflexivity].
  - destruct s as [|d s]; simpl.
    + split; [discriminate | intros [post [=]]].
    + destruct (Ascii.ascii_dec c d) as [->|Hne].
      * rewrite IH. split; intros [post E]; exists post; congruence.
      * split; [discriminate | intros [post E]; injection E as E _; congruence].
Qed.

(** X22.  [sub in s], as the render script tests the exception message:
    the test holds exactly when [sub] occurs somewhere in [s], at the
    start, in the middle or at the end; in particular the denoiser test
    accepts every message that has the tag in it. *)
Theorem substring_test_finds_every_occurrence sub s :
  str_contains sub s = true <->
  exists pre post, s = (pre ++ sub ++ post)%string.
Proof.
  induction s as [|c s IH].
  - destruct sub; simpl; split; try discriminate.
    + intros _. exists "", "". reflexivity.
    + reflexivity.
    + intros (pre & post & E). destruct pre; discriminate.
  - cbn [str_contains]. rewrite orb_true_iff, prefix_spec, IH. split.
    + intros [[post E] | (pre & post & E)].
      * exists "", post. exact E.
      * exists (String c pre), post. simpl. now rewrite E.
    + intros (pre & post & E). destruct pre as [|d pre]; simpl in E.
      * left. exists post. exact E.
      * right. injection E as _ E. exists pre, post. exact E.
Qed.

(** X23.  [s.endswith(suffix)], as the scripts test for [.py] and
    [.svg]: the test holds exactly when [s] is some stem followed by the
    suffix; the stem may be empty, so a file named [.svg] passes. *)
Theorem suffix_test_is_exact s suffix :
  endswith s suffix = true <-> exists stem, s = (stem ++ suffix)%string.
Proof.
  induction s as [|c s IH]; cbn [endswith].
  - rewrite orb_false_r, String.eqb_eq. split.
    + intros <-. exists "". reflexivity.
    + intros [stem E]. destruct stem; simpl in E; [exact E|discriminate].
  - rewrite orb_true_iff, String.eqb_eq, IH. split.
    + intros [<- | [stem E]].
      * exists "". reflexivity.
      * exists (String c stem). simpl. now rewrite E.
    + intros [stem E]. destruct stem as [|d stem]; simpl in E.
      * left. exact E.
      * right. injection E as _ E. exists stem. exact E.
Qed.
End StringTests.

Lemma substring_test_witness :
  str_contains ExportVideo.denoiser_tag
    (str_exn Sim.denoiser_failure) = true.
Proof.
  apply (proj2 (substring_test_finds_every_occurrence
                  ExportVideo.denoiser_tag (str_exn Sim.denoiser_failure))).
  exists "Error: ", " is not available on this CPU". reflexivity.
Defined.

Lemma suffix_test_witness : endswith ".svg" ".svg" = true.
Proof.
  apply (proj2 (suffix_test_is_exact ".svg" ".svg")).
  exists "". reflexivity.
Defined.
